(** * psutil/arch/windows/process_info.c -- a shallow embedding

    The C functions of [process_info.c] are rendered as computations in a
    small state monad.  The operating system is a record of oracles, each
    indexed by a logical clock that advances with every system call, so the
    answers of the OS may change between two calls (a process may exit
    between the open and the query).  The state threads the clock, the
    thread's last-error code, the pending Python exception, the function
    statics and a trace of the calls made, from which handle ownership is
    read off.  Release of heap buffers with [free] is not traced. *)

From Stdlib Require Import ZArith List String Bool Lia Arith.
From Stdlib.Strings Require Import Byte.
Import ListNotations.
Local Open Scope string_scope.
Local Open Scope list_scope.
Local Open Scope Z_scope.

(** ** Machine integers *)

Definition DWORD (x : Z) : Z := x mod 2 ^ 32.
Definition ULONG (x : Z) : Z := x mod 2 ^ 32.
Definition USHORT (x : Z) : Z := x mod 2 ^ 16.
(** [int], [long] and [NTSTATUS] are 32-bit two's complement on Windows. *)
Definition INT (x : Z) : Z := (x + 2 ^ 31) mod 2 ^ 32 - 2 ^ 31.
Definition NTSTATUS (x : Z) : Z := INT x.

(** #define NT_SUCCESS(Status) ((NTSTATUS)(Status) >= 0) *)
Definition NT_SUCCESS (status : Z) : bool := 0 <=? NTSTATUS status.

Definition sizeof_DWORD : Z := 4.
Definition sizeof_WCHAR : Z := 2.

(** Values of the Windows SDK headers the file includes. *)
Definition STILL_ACTIVE : Z := 259.
Definition ERROR_ACCESS_DENIED : Z := 5.
Definition ERROR_INVALID_PARAMETER : Z := 87.
Definition PROCESS_VM_READ : Z := 0x0010.
Definition PROCESS_QUERY_INFORMATION : Z := 0x0400.
Definition PROCESS_QUERY_LIMITED_INFORMATION : Z := 0x1000.
Definition NULL : Z := 0.

(** const int STATUS_INFO_LENGTH_MISMATCH = 0xC0000004;
    const int STATUS_BUFFER_TOO_SMALL = 0xC0000023L; *)
Definition STATUS_INFO_LENGTH_MISMATCH : Z := INT 0xC0000004.
Definition STATUS_BUFFER_TOO_SMALL : Z := INT 0xC0000023.

(** ** Build and run-time configuration *)

Record Config := {
  WIN64 : bool;            (* #ifdef _WIN64 *)
  PSUTIL_TESTING : bool    (* extern int PSUTIL_TESTING, from _psutil_common.h *)
}.

Definition ptr_bits (cfg : Config) : Z := if WIN64 cfg then 64 else 32.
Definition SIZE_T (cfg : Config) (x : Z) : Z := x mod 2 ^ ptr_bits cfg.

(** enum psutil_process_data_kind *)
Inductive psutil_process_data_kind := KIND_CMDLINE | KIND_CWD | KIND_ENVIRON.

(** ** Python exceptions and the call trace *)

Inductive PyExc :=
| WindowsError (code : Z)
| WindowsErrorWithFilename (code : Z) (name : string)
| MemoryError
| AssertionError (msg : string)
| RuntimeError (msg : string)
| NoSuchProcess (msg : string)
| AccessDenied (msg : string).

Inductive Event :=
| EvOpenProcess (access pid h : Z)
| EvCloseHandle (h : Z)
| EvGetExitCodeProcess (h : Z) (ok : bool) (code : Z)
| EvEnumProcesses (cb ret : Z)
| EvAlloc (n : Z) (ok : bool)
| EvQuerySystemInformation (size status ret : Z)
| EvReadProcessMemory (h addr size : Z) (ok : bool)
| EvNtWow64ReadVirtualMemory64 (h addr size : Z) (ok : bool)
| EvCall (name : string).

(** UNICODE_STRING and the fields of RTL_USER_PROCESS_PARAMETERS the code
    reads; one record serves the three layouts, the width of the pointers
    is imposed where a layout is read. *)
Record UNICODE_STRING := {
  Length : Z;
  MaxLength : Z;
  Buffer : Z
}.

Record RTL_USER_PROCESS_PARAMETERS := {
  CurrentDirectoryPath : UNICODE_STRING;
  CommandLine : UNICODE_STRING;
  env : Z
}.

(** SYSTEM_PROCESS_INFORMATION, the two fields the scan reads. *)
Record SYSTEM_PROCESS_INFORMATION := {
  NextEntryOffset : Z;
  UniqueProcessId : Z
}.

(** The snapshot buffer: the record found at a byte offset, if the offset
    lies inside the data the OS wrote. *)
Definition Snapshot := Z -> option SYSTEM_PROCESS_INFORMATION.

(** ** The operating system *)

Record OS := {
  (* error code a call failing at this instant leaves for GetLastError *)
  os_last_error : nat -> Z;
  os_GetModuleHandleA : nat -> string -> Z;
  os_LoadLibraryA : nat -> string -> Z;
  os_GetProcAddress : nat -> Z -> string -> Z;
  os_OpenProcess : nat -> Z -> Z -> Z;
  os_GetExitCodeProcess : nat -> Z -> option Z;
  (* ids of the live processes; None when EnumProcesses fails *)
  os_proc_table : nat -> option (list Z);
  os_alloc : nat -> Z -> bool;
  (* ProcessWow64Information: status and the 32-bit PEB address *)
  os_QueryWow64Information : nat -> Z -> Z * Z;
  (* ProcessBasicInformation: status and PebBaseAddress *)
  os_QueryBasicInformation : nat -> Z -> Z * Z;
  os_Wow64QueryBasicInformation64 : nat -> Z -> Z * Z;
  os_IsWow64Process : nat -> Z -> option bool;
  os_GetCurrentProcess : Z;
  (* remote reads of a PEB (its ProcessParameters field) and of a
     parameters block; the bytes of the target readable from an address *)
  os_read_peb : nat -> Z -> Z -> option Z;
  os_read_params : nat -> Z -> Z -> option RTL_USER_PROCESS_PARAMETERS;
  os_read_bytes : nat -> Z -> Z -> list byte;
  (* MEMORY_BASIC_INFORMATION: BaseAddress and RegionSize *)
  os_VirtualQueryEx : nat -> Z -> Z -> option (Z * Z);
  (* ProcessCommandLineInformation: status, returned length, and the
     16-bit units the buffer holds from tmp->Buffer on *)
  os_QueryCommandLine : nat -> Z -> Z -> Z * Z * list Z;
  (* SystemProcessInformation: status, returned length, buffer content *)
  os_NtQuerySystemInformation : nat -> Z -> Z * Z * Snapshot;
  (* what an automatic variable holds before its first assignment *)
  os_indeterminate : nat -> Z;
  (* whether the Python runtime can allocate the object asked for *)
  os_py_alloc : nat -> bool
}.

(** ** Program state and the monad *)

Record St := {
  clock : nat;
  last_error : Z;
  pyerr : option PyExc;
  trace : list Event;
  (* static ULONG initialBufferSize = 0x4000; *)
  initialBufferSize : Z;
  (* static function pointers of psutil_get_process_data *)
  static_NtWow64QueryInformationProcess64 : Z;
  static_NtWow64ReadVirtualMemory64 : Z
}.

Definition initial_state : St :=
  {| clock := O; last_error := 0; pyerr := None; trace := [];
     initialBufferSize := 0x4000;
     static_NtWow64QueryInformationProcess64 := NULL;
     static_NtWow64ReadVirtualMemory64 := NULL |}.

Inductive Undefined :=
  OutOfFuel | OutOfBoundsWrite | OutOfBoundsRead | InvalidFree.

Inductive Res (A : Type) :=
| Done (a : A) (s : St)
| Abort (u : Undefined).
Arguments Done {A} a s.
Arguments Abort {A} u.

Definition M (A : Type) : Type := St -> Res A.

Definition ret {A} (a : A) : M A := fun s => Done a s.

Definition bind {A B} (c : M A) (k : A -> M B) : M B :=
  fun s => match c s with
           | Done a s' => k a s'
           | Abort u => Abort u
           end.

Definition abort {A} (u : Undefined) : M A := fun _ => Abort u.

Notation "x <- c ;; k" := (bind c (fun x => k))
  (at level 61, c at next level, right associativity).
Notation "c ;; k" := (bind c (fun _ => k))
  (at level 61, right associativity).

(** The state with exception [e] pending. *)
Definition with_pyerr (s : St) (e : PyExc) : St :=
  {| clock := clock s; last_error := last_error s; pyerr := Some e;
     trace := trace s; initialBufferSize := initialBufferSize s;
     static_NtWow64QueryInformationProcess64 :=
       static_NtWow64QueryInformationProcess64 s;
     static_NtWow64ReadVirtualMemory64 :=
       static_NtWow64ReadVirtualMemory64 s |}.

(** The state after a system call logged as [ev]; a failing call leaves
    [err] as the last error. *)
Definition after_call (s : St) (ev : Event) (err : option Z) : St :=
  {| clock := S (clock s);
     last_error := match err with Some e => e | None => last_error s end;
     pyerr := pyerr s;
     trace := trace s ++ [ev];
     initialBufferSize := initialBufferSize s;
     static_NtWow64QueryInformationProcess64 :=
       static_NtWow64QueryInformationProcess64 s;
     static_NtWow64ReadVirtualMemory64 :=
       static_NtWow64ReadVirtualMemory64 s |}.

Definition set_pyerr (e : PyExc) : M unit :=
  fun s => Done tt (with_pyerr s e).

Definition GetLastError : M Z := fun s => Done (last_error s) s.

Definition get_initialBufferSize : M Z :=
  fun s => Done (initialBufferSize s) s.

Definition set_initialBufferSize (n : Z) : M unit :=
  fun s => Done tt
    {| clock := clock s; last_error := last_error s; pyerr := pyerr s;
       trace := trace s; initialBufferSize := n;
       static_NtWow64QueryInformationProcess64 :=
         static_NtWow64QueryInformationProcess64 s;
       static_NtWow64ReadVirtualMemory64 :=
         static_NtWow64ReadVirtualMemory64 s |}.

Definition get_static_Query64 : M Z :=
  fun s => Done (static_NtWow64QueryInformationProcess64 s) s.

Definition set_static_Query64 (p : Z) : M unit :=
  fun s => Done tt
    {| clock := clock s; last_error := last_error s; pyerr := pyerr s;
       trace := trace s; initialBufferSize := initialBufferSize s;
       static_NtWow64QueryInformationProcess64 := p;
       static_NtWow64ReadVirtualMemory64 :=
         static_NtWow64ReadVirtualMemory64 s |}.

Definition get_static_Read64 : M Z :=
  fun s => Done (static_NtWow64ReadVirtualMemory64 s) s.

Definition set_static_Read64 (p : Z) : M unit :=
  fun s => Done tt
    {| clock := clock s; last_error := last_error s; pyerr := pyerr s;
       trace := trace s; initialBufferSize := initialBufferSize s;
       static_NtWow64QueryInformationProcess64 :=
         static_NtWow64QueryInformationProcess64 s;
       static_NtWow64ReadVirtualMemory64 := p |}.

(** Python C-API and the helpers of _psutil_common.c. *)
Definition PyErr_NoMemory : M unit := set_pyerr MemoryError.

(** PyErr_SetFromWindowsErr(0) takes the code from GetLastError(). *)
Definition PyErr_SetFromWindowsErr (err : Z) : M unit :=
  fun s => set_pyerr (WindowsError (if err =? 0 then last_error s else err)) s.

Definition PyErr_SetFromWindowsErrWithFilename (err : Z) (name : string)
  : M unit :=
  fun s => set_pyerr
    (WindowsErrorWithFilename (if err =? 0 then last_error s else err) name) s.

(** Modelled from the spec: the helpers [NoSuchProcess] and [AccessDenied]
    of _psutil_common.c, which is not part of the sources; each sets the
    exception of that kind (NotFound, AccessDenied) and returns NULL. *)
Definition raise_NoSuchProcess (msg : string) : M Z :=
  set_pyerr (NoSuchProcess msg) ;; ret NULL.

(** Modelled from the spec: [AccessDenied] of _psutil_common.c, see
    [raise_NoSuchProcess]. *)
Definition raise_AccessDenied (msg : string) : M Z :=
  set_pyerr (AccessDenied msg) ;; ret NULL.

Definition is_none {A} (o : option A) : bool :=
  match o with None => true | Some _ => false end.

(** for (i = 0; i < n; i++) if (proclist[i] == pid) return 1;  return 0; *)
Fixpoint pid_in_list (pid : Z) (proclist : list Z) : Z :=
  match proclist with
  | [] => 0
  | p :: rest => if p =? pid then 1 else pid_in_list pid rest
  end.

(** wcslen over a byte buffer: 16-bit units are read until one is zero;
    [None] when the scan leaves the buffer before finding it. *)
Fixpoint wcslen (buf : list byte) : option nat :=
  match buf with
  | b0 :: b1 :: rest =>
      if (Byte.eqb b0 x00 && Byte.eqb b1 x00)%bool then Some O
      else option_map S (wcslen rest)
  | _ => None
  end.

(** wcslen over a buffer of 16-bit units: the units before the first
    zero; [None] when there is no terminator to stop at. *)
Fixpoint until_nul (ws : list Z) : option (list Z) :=
  match ws with
  | [] => None
  | w :: rest =>
      if w =? 0 then Some [] else option_map (cons w) (until_nul rest)
  end.

Section Program.

Variable cfg : Config.
Variable os : OS.
(** bound on the iterations of each retry loop *)
Variable fuel : nat.

(** *** System calls *)

Definition syscall {A} (f : nat -> A) (failed : A -> bool) (ev : A -> Event)
  : M A :=
  fun s =>
    let r := f (clock s) in
    Done r (after_call s (ev r)
              (if failed r then Some (os_last_error os (clock s)) else None)).

Definition GetModuleHandleA (libname : string) : M Z :=
  syscall (fun t => os_GetModuleHandleA os t libname) (Z.eqb NULL)
          (fun _ => EvCall "GetModuleHandleA").

Definition LoadLibraryA (libname : string) : M Z :=
  syscall (fun t => os_LoadLibraryA os t libname) (Z.eqb NULL)
          (fun _ => EvCall "LoadLibraryA").

Definition FreeLibrary (mod_ : Z) : M unit :=
  syscall (fun _ => tt) (fun _ => false) (fun _ => EvCall "FreeLibrary").

Definition GetProcAddress (mod_ : Z) (procname : string) : M Z :=
  syscall (fun t => os_GetProcAddress os t mod_ procname) (Z.eqb NULL)
          (fun _ => EvCall "GetProcAddress").

Definition OpenProcess (dwDesiredAccess pid : Z) : M Z :=
  syscall (fun t => os_OpenProcess os t dwDesiredAccess pid) (Z.eqb NULL)
          (fun h => EvOpenProcess dwDesiredAccess pid h).

Definition CloseHandle (h : Z) : M unit :=
  syscall (fun _ => tt) (fun _ => false) (fun _ => EvCloseHandle h).

Definition GetExitCodeProcess (h : Z) : M (option Z) :=
  syscall (fun t => os_GetExitCodeProcess os t h) is_none
          (fun r => match r with
                    | Some c => EvGetExitCodeProcess h true (DWORD c)
                    | None => EvGetExitCodeProcess h false 0
                    end).

(** EnumProcesses(buf, cb, &ret) stores as many ids as fit in [cb] bytes
    and reports the bytes stored. *)
Definition EnumProcesses (cb : Z) : M (option (list Z * Z)) :=
  syscall
    (fun t => match os_proc_table os t with
              | None => None
              | Some l =>
                  let written := firstn (Z.to_nat (cb / sizeof_DWORD)) l in
                  Some (written, sizeof_DWORD * Z.of_nat (List.length written))
              end)
    is_none
    (fun r => match r with
              | Some (_, n) => EvEnumProcesses cb n
              | None => EvEnumProcesses cb (-1)
              end).

Definition malloc (n : Z) : M bool :=
  syscall (fun t => os_alloc os t n) (fun _ => false) (fun ok => EvAlloc n ok).

(** calloc(n, 1): [n] zero bytes, or NULL *)
Definition calloc (n : Z) : M (option (list byte)) :=
  ok <- malloc n ;;
  ret (if ok then Some (repeat x00 (Z.to_nat n)) else None).

(** *** Wrappers around GetProcAddress *)

Definition psutil_GetProcAddress (libname procname : string) : M Z :=
  mod_ <- GetModuleHandleA libname ;;
  if mod_ =? NULL then
    PyErr_SetFromWindowsErrWithFilename 0 libname ;; ret NULL
  else
    addr <- GetProcAddress mod_ procname ;;
    if addr =? NULL then
      PyErr_SetFromWindowsErrWithFilename 0 procname ;; ret NULL
    else ret addr.

Definition psutil_GetProcAddressFromLib (libname procname : string) : M Z :=
  mod_ <- LoadLibraryA libname ;;
  if mod_ =? NULL then
    PyErr_SetFromWindowsErrWithFilename 0 libname ;; ret NULL
  else
    addr <- GetProcAddress mod_ procname ;;
    if addr =? NULL then
      PyErr_SetFromWindowsErrWithFilename 0 procname ;;
      FreeLibrary mod_ ;; ret NULL
    else FreeLibrary mod_ ;; ret addr.

(** *** Process and PIDs utilities *)

(** The do-while loop of psutil_get_pids; [procArraySz] is the value of
    the variable on entry to the body.  The result is the array the OS
    filled and *numberOfReturnedPIDs, or NULL. *)
Fixpoint get_pids_loop (n : nat) (procArraySz : Z)
  : M (option (list Z * Z)) :=
  match n with
  | O => abort OutOfFuel
  | S n' =>
      let procArraySz := INT (procArraySz + 1024) in
      let procArrayByteSz :=
        DWORD (SIZE_T cfg (SIZE_T cfg procArraySz * sizeof_DWORD)) in
      procArray <- malloc procArrayByteSz ;;
      if negb procArray then PyErr_NoMemory ;; ret None
      else
        r <- EnumProcesses procArrayByteSz ;;
        match r with
        | None => PyErr_SetFromWindowsErr 0 ;; ret None
        | Some (written, enumReturnSz) =>
            if enumReturnSz
               =? SIZE_T cfg (SIZE_T cfg procArraySz * sizeof_DWORD)
            then get_pids_loop n' procArraySz
            else ret (Some (written, DWORD (enumReturnSz / sizeof_DWORD)))
        end
  end.

Definition psutil_get_pids : M (option (list Z * Z)) :=
  get_pids_loop fuel 0.

(** Return 1 if PID exists, 0 if not, -1 on error. *)
Definition psutil_pid_in_pids (pid : Z) : M Z :=
  r <- psutil_get_pids ;;
  match r with
  | None => ret (-1)
  | Some (proclist, numberOfReturnedPIDs) =>
      ret (pid_in_list pid (firstn (Z.to_nat numberOfReturnedPIDs) proclist))
  end.

Definition psutil_assert_pid_exists (pid : Z) (err : string) : M Z :=
  if PSUTIL_TESTING cfg then
    r <- psutil_pid_in_pids pid ;;
    if r =? 0 then set_pyerr (AssertionError err) ;; ret 0
    else ret 1
  else ret 1.

Definition psutil_assert_pid_not_exists (pid : Z) (err : string) : M Z :=
  if PSUTIL_TESTING cfg then
    r <- psutil_pid_in_pids pid ;;
    if r =? 1 then set_pyerr (AssertionError err) ;; ret 0
    else ret 1
  else ret 1.

(** Given a process HANDLE checks whether it's actually running.
    1: running, 0: not running, -1: WindowsError, -2: AssertionError *)
Definition psutil_is_phandle_running (hProcess pid : Z) : M Z :=
  if hProcess =? NULL then
    e <- GetLastError ;;
    if e =? ERROR_INVALID_PARAMETER then
      a <- psutil_assert_pid_not_exists pid
             "iphr: OpenProcess() -> ERROR_INVALID_PARAMETER" ;;
      if a =? 0 then ret (-2) else ret 0
    else ret (-1)
  else
    r <- GetExitCodeProcess hProcess ;;
    match r with
    | Some processExitCode =>
        if DWORD processExitCode =? STILL_ACTIVE then
          a <- psutil_assert_pid_exists pid
                 "iphr: GetExitCodeProcess() -> STILL_ACTIVE" ;;
          if a =? 0 then ret (-2) else ret 1
        else
          p <- psutil_pid_in_pids pid ;;
          if p =? 1 then ret 1
          else CloseHandle hProcess ;; ret 0
    | None =>
        CloseHandle hProcess ;;
        a <- psutil_assert_pid_not_exists pid "iphr: exit fun" ;;
        if a =? 0 then ret (-2) else ret (-1)
    end.

(** Return the handle if the process runs, else NULL with the Python
    exception set. *)
Definition psutil_check_phandle (hProcess pid : Z) : M Z :=
  r <- psutil_is_phandle_running hProcess pid ;;
  if r =? 1 then ret hProcess
  else if r =? 0 then raise_NoSuchProcess ""
  else if r =? -1 then PyErr_SetFromWindowsErr 0 ;; ret NULL
  else ret NULL.

Definition psutil_handle_from_pid (pid dwDesiredAccess : Z) : M Z :=
  if pid =? 0 then
    (* otherwise we'd get NoSuchProcess *)
    raise_AccessDenied ""
  else
    hProcess <- OpenProcess dwDesiredAccess pid ;;
    psutil_check_phandle hProcess pid.

(** 1: pid exists, 0: it doesn't, -1: error.  The pid is a DWORD, so the
    test pid < 0 of the source never holds for the values it is called
    with; it is kept as written. *)
Definition psutil_pid_is_running (pid : Z) : M Z :=
  (* Special case for PID 0 System Idle Process *)
  if pid =? 0 then ret 1
  else if pid <? 0 then ret 0
  else
    hProcess <- OpenProcess
                  (Z.lor PROCESS_QUERY_INFORMATION PROCESS_VM_READ) pid ;;
    if NULL =? hProcess then
      err <- GetLastError ;;
      if err =? ERROR_INVALID_PARAMETER then
        a <- psutil_assert_pid_not_exists pid
               "pir: OpenProcess() -> INVALID_PARAMETER" ;;
        if a =? 0 then ret (-1) else ret 0
      else if err =? ERROR_ACCESS_DENIED then
        a <- psutil_assert_pid_exists pid
               "pir: OpenProcess() ACCESS_DENIED" ;;
        if a =? 0 then ret (-1) else ret 1
      else PyErr_SetFromWindowsErr err ;; ret (-1)
    else
      r <- GetExitCodeProcess hProcess ;;
      match r with
      | Some exitCode =>
          CloseHandle hProcess ;;
          if DWORD exitCode =? STILL_ACTIVE then
            a <- psutil_assert_pid_exists pid
                   "pir: GetExitCodeProcess() -> STILL_ACTIVE" ;;
            if a =? 0 then ret (-1) else ret 1
          else psutil_pid_in_pids pid
      | None =>
          err <- GetLastError ;;
          CloseHandle hProcess ;;
          if err =? ERROR_ACCESS_DENIED then
            a <- psutil_assert_pid_exists pid
                   "pir: GetExitCodeProcess() -> ERROR_ACCESS_DENIED" ;;
            if a =? 0 then ret (-1) else ret 1
          else PyErr_SetFromWindowsErr err ;; ret (-1)
      end.

(** *** Reading the memory of the target *)

Definition indeterminate : M Z := fun s => Done (os_indeterminate os (clock s)) s.

Definition GetCurrentProcess : Z := os_GetCurrentProcess os.

Definition IsWow64Process (h : Z) : M (option bool) :=
  syscall (fun t => os_IsWow64Process os t h) is_none
          (fun _ => EvCall "IsWow64Process").

(** The Nt* calls report failure through their NTSTATUS only; they leave
    the last-error code of the thread alone. *)
Definition keeps_last_error {A} (r : A) : bool := false.

(** NtQueryInformationProcess(h, ProcessWow64Information, &ppeb32, ...) *)
Definition NtQueryInformationProcess_Wow64Information (h : Z) : M (Z * Z) :=
  syscall (fun t => os_QueryWow64Information os t h) keeps_last_error
          (fun _ => EvCall "NtQueryInformationProcess").

(** NtQueryInformationProcess(h, ProcessBasicInformation, &pbi, ...) *)
Definition NtQueryInformationProcess_BasicInformation (h : Z) : M (Z * Z) :=
  syscall (fun t => os_QueryBasicInformation os t h) keeps_last_error
          (fun _ => EvCall "NtQueryInformationProcess").

Definition NtWow64QueryInformationProcess64 (h : Z) : M (Z * Z) :=
  syscall (fun t => os_Wow64QueryBasicInformation64 os t h) keeps_last_error
          (fun _ => EvCall "NtWow64QueryInformationProcess64").

(** The two remote-read primitives, at the three types they are used at.
    [wide] selects NtWow64ReadVirtualMemory64, which does not set the
    last-error code either. *)
Definition read_name (wide : bool) : string :=
  if wide then "NtWow64ReadVirtualMemory64" else "ReadProcessMemory".

Definition read_failed {A} (wide : bool) (r : option A) : bool :=
  negb wide && is_none r.

Definition read_peb (wide : bool) (h addr : Z) : M (option Z) :=
  syscall (fun t => os_read_peb os t h addr) (read_failed wide)
          (fun _ => EvCall (read_name wide)).

Definition read_params (wide : bool) (h addr : Z)
  : M (option RTL_USER_PROCESS_PARAMETERS) :=
  syscall (fun t => os_read_params os t h addr) (read_failed wide)
          (fun _ => EvCall (read_name wide)).

(** Copy of [size] bytes from [src] in the target into [buffer]: the call
    fails unless all of them are readable; the bytes land at the start of
    the buffer, which must hold them. *)
Definition read_into (wide : bool) (h src : Z) (buffer : list byte)
  (size : Z) : M (option (list byte)) :=
  r <- syscall
         (fun t => let avail := os_read_bytes os t h src in
                   if size <=? Z.of_nat (List.length avail)
                   then Some (firstn (Z.to_nat size) avail) else None)
         (read_failed wide)
         (fun r => if wide
                   then EvNtWow64ReadVirtualMemory64 h src size
                          (negb (is_none r))
                   else EvReadProcessMemory h src size (negb (is_none r))) ;;
  match r with
  | None => ret None
  | Some data =>
      if (List.length data <=? List.length buffer)%nat
      then ret (Some (data ++ skipn (List.length data) buffer))
      else abort OutOfBoundsWrite
  end.

Definition VirtualQueryEx (h src : Z) : M (option (Z * Z)) :=
  syscall (fun t => os_VirtualQueryEx os t h src) is_none
          (fun _ => EvCall "VirtualQueryEx").

(** Given a pointer into a process's memory, figure out how much data can
    be read from it.  [Some size] stands for return 0 with *psize = size,
    [None] for return -1. *)
Definition psutil_get_process_region_size (hProcess src : Z)
  : M (option Z) :=
  r <- VirtualQueryEx hProcess src ;;
  match r with
  | None => PyErr_SetFromWindowsErr 0 ;; ret None
  | Some (BaseAddress, RegionSize) =>
      ret (Some (SIZE_T cfg (RegionSize - (src - BaseAddress))))
  end.

(** The switch (kind) that follows each read of a parameters block;
    [ptr] is the width of the pointers of the layout read.  [size] is
    left unassigned for KIND_ENVIRON. *)
Definition select_field (kind : psutil_process_data_kind) (ptr : Z -> Z)
  (pp : RTL_USER_PROCESS_PARAMETERS) : M (Z * Z) :=
  match kind with
  | KIND_CMDLINE =>
      ret (ptr (Buffer (CommandLine pp)), USHORT (Length (CommandLine pp)))
  | KIND_CWD =>
      ret (ptr (Buffer (CurrentDirectoryPath pp)),
           USHORT (Length (CurrentDirectoryPath pp)))
  | KIND_ENVIRON =>
      size <- indeterminate ;;
      ret (ptr (env pp), size)
  end.

(** read PEB, read process parameters, switch (kind) *)
Definition walk_control_block (kind : psutil_process_data_kind)
  (wide : bool) (ptr : Z -> Z) (hProcess ppeb : Z) : M (option (Z * Z)) :=
  peb <- read_peb wide hProcess ppeb ;;
  match peb with
  | None => PyErr_SetFromWindowsErr 0 ;; ret None
  | Some ProcessParameters =>
      pp <- read_params wide hProcess (ptr ProcessParameters) ;;
      match pp with
      | None => PyErr_SetFromWindowsErr 0 ;; ret None
      | Some procParameters =>
          r <- select_field kind ptr procParameters ;;
          ret (Some r)
      end
  end.

(** Target process is of the same bitness as us. *)
Definition locate_native (kind : psutil_process_data_kind) (hProcess : Z)
  : M (option (Z * Z)) :=
  r <- NtQueryInformationProcess_BasicInformation hProcess ;;
  if negb (NT_SUCCESS (fst r)) then PyErr_SetFromWindowsErr 0 ;; ret None
  else walk_control_block kind false (SIZE_T cfg) hProcess
         (SIZE_T cfg (snd r)).

(** if (fn == NULL) fn = psutil_GetProcAddressFromLib("ntdll.dll", name);
    for a static function pointer read with [get] and written with [set];
    the result is the pointer afterwards. *)
Definition resolve_static (get : M Z) (set : Z -> M unit) (name : string)
  : M Z :=
  p <- get ;;
  if p =? NULL then
    p <- psutil_GetProcAddressFromLib "ntdll.dll" name ;;
    set p ;; ret p
  else ret p.

(** We are 32 bit running in WoW64 mode.  Target process is 64 bit. *)
Definition locate_wow64_to_64 (kind : psutil_process_data_kind)
  (hProcess : Z) : M (option (Z * Z)) :=
  q <- resolve_static get_static_Query64 set_static_Query64
         "NtWow64QueryInformationProcess64" ;;
  if q =? NULL then
    (* Too complicated. Give up. *)
    raise_AccessDenied "can't query 64-bit process in 32-bit-WoW mode";;
    ret None
  else
    rd <- resolve_static get_static_Read64 set_static_Read64
            "NtWow64ReadVirtualMemory64" ;;
    if rd =? NULL then
      raise_AccessDenied "can't query 64-bit process in 32-bit-WoW mode";;
      ret None
    else
      r <- NtWow64QueryInformationProcess64 hProcess ;;
      if negb (NT_SUCCESS (fst r)) then
        PyErr_SetFromWindowsErr 0 ;; ret None
      else
        walk_control_block kind true (fun p => p mod 2 ^ 64) hProcess
          (snd r mod 2 ^ 64).

(** Lines 547-723: decide the layout and fetch the field's address and
    length.  The result is [None] where the source jumps to [error], else
    whether the target is the 64-bit one of a WoW64 inspector, then [src]
    (or [src64]) and [size]. *)
Definition locate_field (kind : psutil_process_data_kind) (hProcess : Z)
  : M (option (bool * Z * Z)) :=
  if WIN64 cfg then
    r <- NtQueryInformationProcess_Wow64Information hProcess ;;
    if negb (NT_SUCCESS (fst r)) then PyErr_SetFromWindowsErr 0 ;; ret None
    else
      let ppeb32 := SIZE_T cfg (snd r) in
      if negb (ppeb32 =? NULL) then
        (* We are 64 bit.  Target process is 32 bit running in WoW64. *)
        f <- walk_control_block kind false DWORD hProcess ppeb32 ;;
        ret (option_map (fun f => (false, fst f, snd f)) f)
      else
        f <- locate_native kind hProcess ;;
        ret (option_map (fun f => (false, fst f, snd f)) f)
  else
    we <- IsWow64Process GetCurrentProcess ;;
    match we with
    | None => PyErr_SetFromWindowsErr 0 ;; ret None
    | Some weAreWow64 =>
        they <- IsWow64Process hProcess ;;
        match they with
        | None => PyErr_SetFromWindowsErr 0 ;; ret None
        | Some theyAreWow64 =>
            if (weAreWow64 && negb theyAreWow64)%bool then
              f <- locate_wow64_to_64 kind hProcess ;;
              ret (option_map (fun f => (true, fst f, snd f)) f)
            else
              f <- locate_native kind hProcess ;;
              ret (option_map (fun f => (false, fst f, snd f)) f)
        end
    end.

(** Lines 725-735: the length of the environment block. *)
Definition environ_size (kind : psutil_process_data_kind) (narrower : bool)
  (hProcess src size : Z) : M (option Z) :=
  match kind with
  | KIND_ENVIRON =>
      if narrower then
        raise_AccessDenied "can't query 64-bit process in 32-bit-WoW mode";;
        ret None
      else psutil_get_process_region_size hProcess src
  | _ => ret (Some size)
  end.

(** Lines 737-759: allocate and copy; [None] where the source jumps to
    [error]. *)
Definition copy_field (narrower : bool) (hProcess src size : Z)
  : M (option (list byte)) :=
  buffer <- calloc (SIZE_T cfg (size + 2)) ;;
  match buffer with
  | None => PyErr_NoMemory ;; ret None
  | Some buffer =>
      r <- read_into narrower hProcess src buffer size ;;
      match r with
      | None => PyErr_SetFromWindowsErr 0 ;; ret None
      | Some buffer => ret (Some buffer)
      end
  end.

(** error: if (hProcess != NULL) CloseHandle(hProcess); ... return -1; *)
Definition process_data_error {A} (hProcess : Z) : M (Z * option A) :=
  (if negb (hProcess =? NULL) then CloseHandle hProcess else ret tt) ;;
  ret (-1, None).

(** Lines 547-774: the body of psutil_get_process_data once the handle
    is open. *)
Definition get_process_data_from_handle (kind : psutil_process_data_kind)
  (hProcess : Z) : M (Z * option (list byte * Z)) :=
  loc <- locate_field kind hProcess ;;
  match loc with
  | None => process_data_error hProcess
  | Some (narrower, src, size) =>
      sz <- environ_size kind narrower hProcess src size ;;
      match sz with
      | None => process_data_error hProcess
      | Some size =>
          b <- copy_field narrower hProcess src size ;;
          match b with
          | None => process_data_error hProcess
          | Some buffer =>
              CloseHandle hProcess ;;
              ret (0, Some (buffer, size))
          end
      end
  end.

(** Get data from the process with the given pid.  On success 0 is
    returned with *pdata and *psize; on error -1, the outputs untouched.
    The source takes the pid as a long and uses it once, as the DWORD
    argument of psutil_handle_from_pid: [pid] is that DWORD. *)
Definition psutil_get_process_data (pid : Z)
  (kind : psutil_process_data_kind) : M (Z * option (list byte * Z)) :=
  let access := Z.lor PROCESS_QUERY_INFORMATION PROCESS_VM_READ in
  NtQueryInformationProcess <-
    psutil_GetProcAddress "ntdll.dll" "NtQueryInformationProcess" ;;
  if NtQueryInformationProcess =? NULL then ret (-1, None)
  else
    hProcess <- psutil_handle_from_pid pid access ;;
    if hProcess =? NULL then ret (-1, None)
    else get_process_data_from_handle kind hProcess.

(** *** Command line by NtQueryInformationProcess *)

Definition NtQueryInformationProcess_CommandLine (h ret_length : Z)
  : M (Z * Z * list Z) :=
  syscall (fun t => os_QueryCommandLine os t h ret_length) keeps_last_error
          (fun _ => EvCall "NtQueryInformationProcess").

(** A local HANDLE: [None] until the first assignment. *)
Definition read_local (v : option Z) : M Z :=
  match v with
  | Some h => ret h
  | None => indeterminate
  end.

(** error: the cleanup of psutil_get_cmdline_data *)
Definition cmdline_data_error {A} (hProcess : option Z) : M (Z * option A) :=
  h <- read_local hProcess ;;
  (if negb (h =? NULL) then CloseHandle h else ret tt) ;;
  ret (-1, None).

(** Get process cmdline() by using NtQueryInformationProcess: 0 with the
    string and its size in bytes, or -1.  As in psutil_get_process_data,
    [pid] is the long of the source as the DWORD psutil_handle_from_pid
    receives. *)
Definition psutil_get_cmdline_data (pid : Z)
  : M (Z * option (list Z * Z)) :=
  let ret_length := 4096 in
  NtQueryInformationProcess <-
    psutil_GetProcAddress "ntdll.dll" "NtQueryInformationProcess" ;;
  if NtQueryInformationProcess =? NULL then cmdline_data_error None
  else
    cmdline_buffer <- calloc ret_length ;;
    match cmdline_buffer with
    | None => PyErr_NoMemory ;; cmdline_data_error None
    | Some _ =>
        hProcess <- psutil_handle_from_pid pid
                      PROCESS_QUERY_LIMITED_INFORMATION ;;
        if hProcess =? NULL then cmdline_data_error (Some hProcess)
        else
          r <- NtQueryInformationProcess_CommandLine hProcess ret_length ;;
          let '(status, _, cmdline) := r in
          if negb (NT_SUCCESS status) then
            PyErr_SetFromWindowsErr 0 ;; cmdline_data_error (Some hProcess)
          else
            (* string_size = wcslen(tmp->Buffer) + 1 *)
            match until_nul cmdline with
            | None => abort OutOfBoundsRead
            | Some str =>
                let string_size := DWORD (Z.of_nat (List.length str) + 1) in
                w <- malloc (SIZE_T cfg (string_size * sizeof_WCHAR)) ;;
                if negb w then
                  PyErr_NoMemory ;; cmdline_data_error (Some hProcess)
                else
                  (* wcscpy_s(cmdline_buffer_wchar, string_size,
                              tmp->Buffer) *)
                  CloseHandle hProcess ;;
                  ret (0, Some (str ++ [0],
                                SIZE_T cfg (string_size * sizeof_WCHAR)))
            end
    end.

(** *** Current directory and environment *)

(** PyList_New and PyUnicode_FromWideChar return NULL with MemoryError
    set when the runtime cannot allocate; [py_alloc] tells whether it
    can. *)
Definition py_new (py_alloc : nat -> bool) (name : string) : M bool :=
  ok <- syscall py_alloc (fun _ => false) (fun _ => EvCall name) ;;
  if ok then ret true else PyErr_NoMemory ;; ret false.

(** PyUnicode_FromWideChar(data, n): the first [n] 16-bit units. *)
Definition PyUnicode_FromWideChar (data : list byte) (n : nat) : list byte :=
  firstn (2 * n) data.

Definition psutil_get_cwd (pid : Z) : M (option (list byte)) :=
  r <- psutil_get_process_data pid KIND_CWD ;;
  match r with
  | (0, Some (data, size)) =>
      (* convert wchar array to a Python unicode string *)
      match wcslen data with
      | Some n =>
          py_unicode <- py_new (os_py_alloc os) "PyUnicode_FromWideChar" ;;
          if py_unicode then ret (Some (PyUnicode_FromWideChar data n))
          else ret None
      | None => abort OutOfBoundsRead
      end
  | _ => ret None
  end.

Definition psutil_get_environ (pid : Z) : M (option (list byte)) :=
  r <- psutil_get_process_data pid KIND_ENVIRON ;;
  match r with
  | (0, Some (data, size)) =>
      (* convert wchar array to a Python unicode string *)
      py_unicode <- py_new (os_py_alloc os) "PyUnicode_FromWideChar" ;;
      if py_unicode
      then ret (Some (PyUnicode_FromWideChar data (Z.to_nat (size / 2))))
      else ret None
  | _ => ret None
  end.

(** *** The snapshot of all processes *)

Definition NtQuerySystemInformation (bufferSize : Z) : M (Z * Z * Snapshot) :=
  syscall (fun t => let '(status, len, snap) :=
                      os_NtQuerySystemInformation os t bufferSize in
                    (NTSTATUS status, ULONG len, snap))
          keeps_last_error
          (fun r => EvQuerySystemInformation bufferSize (fst (fst r))
                      (snd (fst r))).

(** while (TRUE) { status = NtQuerySystemInformation(...); ... } *)
Fixpoint query_loop (n : nat) (bufferSize : Z)
  : M (option (Z * Z * Snapshot)) :=
  match n with
  | O => abort OutOfFuel
  | S n' =>
      r <- NtQuerySystemInformation bufferSize ;;
      let '(status, bufferSize, buffer) := r in
      if ((status =? STATUS_BUFFER_TOO_SMALL)
          || (status =? STATUS_INFO_LENGTH_MISMATCH))%bool
      then
        ok <- malloc bufferSize ;;
        if negb ok then PyErr_NoMemory ;; ret None
        else query_loop n' bufferSize
      else ret (Some (status, bufferSize, buffer))
  end.

(** do { if (process->UniqueProcessId == (HANDLE)pid) return 1; }
    while ((process = PSUTIL_NEXT_PROCESS(process)));
    [process] is the offset of the record in the buffer. *)
Fixpoint scan_loop (n : nat) (buffer : Snapshot) (pid process : Z)
  : M (option (Z * SYSTEM_PROCESS_INFORMATION)) :=
  match n with
  | O => abort OutOfFuel
  | S n' =>
      match buffer process with
      | None => abort OutOfBoundsRead
      | Some p =>
          if UniqueProcessId p =? pid then ret (Some (process, p))
          else if ULONG (NextEntryOffset p) =? 0 then ret None
          else scan_loop n' buffer pid (process + ULONG (NextEntryOffset p))
      end
  end.

(** Lines 977-1014: resolve NtQuerySystemInformation, allocate, query
    until the buffer is large enough, remember the size.  The result is
    the filled buffer, or [None] where the source jumps to [error]. *)
Definition query_snapshot : M (option Snapshot) :=
  NtQuerySystemInformation_ptr <-
    psutil_GetProcAddressFromLib "ntdll.dll" "NtQuerySystemInformation" ;;
  if NtQuerySystemInformation_ptr =? NULL then
    (* error: if (buffer != NULL) free(buffer); buffer is still
       unassigned here, and free of a pointer that malloc did not return
       is undefined *)
    buffer <- indeterminate ;;
    if buffer =? NULL then ret None else abort InvalidFree
  else
    bufferSize <- get_initialBufferSize ;;
    ok <- malloc bufferSize ;;
    if negb ok then PyErr_NoMemory ;; ret None
    else
      q <- query_loop fuel bufferSize ;;
      match q with
      | None => ret None
      | Some (status, bufferSize, buffer) =>
          if negb (status =? 0) then
            set_pyerr
              (RuntimeError "NtQuerySystemInformation() syscall failed") ;;
            ret None
          else
            (if bufferSize <=? 0x20000
             then set_initialBufferSize bufferSize else ret tt) ;;
            ret (Some buffer)
      end.

(** On success return 1 with *retProcess, else 0 with the exception set. *)
Definition psutil_get_proc_info (pid : Z)
  : M (Z * option (Z * SYSTEM_PROCESS_INFORMATION)) :=
  b <- query_snapshot ;;
  match b with
  | None => ret (0, None)
  | Some buffer =>
      found <- scan_loop fuel buffer pid 0 ;;
      match found with
      | Some p => ret (1, Some p)
      | None => raise_NoSuchProcess "" ;; ret (0, None)
      end
  end.

End Program.

(** *** The command line as a list of arguments *)

(** The 16-bit units of a byte buffer, little-endian. *)
Fixpoint wchars (buf : list byte) : list Z :=
  match buf with
  | b0 :: b1 :: rest =>
      (Z.of_N (Byte.to_N b0) + 256 * Z.of_N (Byte.to_N b1)) :: wchars rest
  | _ => []
  end.

(** wcslen of an argument the parser returned: its units up to the
    first zero, the terminator at the latest. *)
Fixpoint cut_at_nul (ws : list Z) : list Z :=
  match ws with
  | [] => []
  | w :: rest => if w =? 0 then [] else w :: cut_at_nul rest
  end.

(** The string a WCHAR pointer designates: *pdata of
    psutil_get_process_data is a byte buffer, that of
    psutil_get_cmdline_data a buffer of 16-bit units. *)
Definition wide_string (data : list byte + list Z) : option (list Z) :=
  match data with
  | inl bytes =>
      option_map (fun n => wchars (firstn (2 * n) bytes)) (wcslen bytes)
  | inr ws => until_nul ws
  end.

Section CommandLine.

Variable cfg : Config.
Variable os : OS.
Variable fuel : nat.
(** CommandLineToArgvW of shell32: the arguments of a command line, or
    NULL.  The parsing rules are those of the system, not of this file. *)
Variable os_CommandLineToArgvW : nat -> list Z -> option (list (list Z)).
(** whether an allocation of the Python runtime succeeds *)
Variable py_alloc : nat -> bool.

Definition CommandLineToArgvW (str : list Z) : M (option (list (list Z))) :=
  syscall os (fun t => os_CommandLineToArgvW t str) is_none
          (fun _ => EvCall "CommandLineToArgvW").

(** for (i = 0; i < nArgs; i++) { py_unicode = PyUnicode_FromWideChar(
    szArglist[i], wcslen(szArglist[i])); ... PyList_SET_ITEM(...); }
    The result is [None] where the source jumps to [out]. *)
Fixpoint fill_arglist (szArglist : list (list Z))
  : M (option (list (list Z))) :=
  match szArglist with
  | [] => ret (Some [])
  | arg :: rest =>
      py_unicode <- py_new os py_alloc "PyUnicode_FromWideChar" ;;
      if negb py_unicode then ret None
      else
        r <- fill_arglist rest ;;
        ret (option_map (cons (cut_at_nul arg)) r)
  end.

(** Return a Python list representing the arguments for the process with
    given pid or NULL on error. *)
Definition psutil_get_cmdline (pid use_peb : Z)
  : M (option (list (list Z))) :=
  d <- (if use_peb =? 1 then
          r <- psutil_get_process_data cfg os fuel pid KIND_CMDLINE ;;
          ret (fst r, option_map (fun x => inl (fst x)) (snd r))
        else
          r <- psutil_get_cmdline_data cfg os fuel pid ;;
          ret (fst r, option_map (fun x => inr (fst x)) (snd r))) ;;
  if negb (fst d =? 0) then ret None
  else
    match option_map wide_string (snd d) with
    | Some (Some str) =>
        (* attempt to parse the command line using Win32 API *)
        szArglist <- CommandLineToArgvW str ;;
        match szArglist with
        | None => PyErr_SetFromWindowsErr 0 ;; ret None
        | Some args =>
            py_retlist <- py_new os py_alloc "PyList_New" ;;
            if negb py_retlist then ret None
            else fill_arglist args
        end
    | _ =>
        (* the parser would read past the buffer it is given *)
        abort OutOfBoundsRead
    end.

End CommandLine.

(** ** Concrete operating systems *)

(** A snapshot of three records laid out at offsets 0, 0x100 and 0x220,
    for the processes 0, 4 and 8. *)
Definition three_records : Snapshot :=
  fun off =>
    if off =? 0 then Some {| NextEntryOffset := 0x100; UniqueProcessId := 0 |}
    else if off =? 0x100
    then Some {| NextEntryOffset := 0x120; UniqueProcessId := 4 |}
    else if off =? 0x220
    then Some {| NextEntryOffset := 0; UniqueProcessId := 8 |}
    else None.

(** An OS whose answers do not change with time.  [dll] tells whether
    ntdll.dll and its entry points resolve, [h] is what OpenProcess
    returns and [err] the error code failing calls leave; [code] is the
    answer of GetExitCodeProcess, [table] the live ids; [we] is the WoW64
    status of the inspector (the target's is false); [peb] tells whether
    the PEB is readable, [pp] is the parameters block, [bytes] what can be
    read at any address, [region] the answer of VirtualQueryEx for an
    address, [alloc] the allocator and [junk] the content of unassigned
    variables. *)
Definition static_os (dll : bool) (h err : Z) (code : option Z)
  (table : option (list Z)) (we peb : bool)
  (pp : RTL_USER_PROCESS_PARAMETERS) (bytes : list byte)
  (region : Z -> option (Z * Z)) (alloc : Z -> bool) (junk : Z) : OS :=
  {| os_last_error := fun _ => err;
     os_GetModuleHandleA := fun _ _ => if dll then 0x77000000 else NULL;
     os_LoadLibraryA := fun _ _ => if dll then 0x77000000 else NULL;
     os_GetProcAddress := fun _ _ _ => if dll then 0x77001000 else NULL;
     os_OpenProcess := fun _ _ _ => h;
     os_GetExitCodeProcess := fun _ _ => code;
     os_proc_table := fun _ => table;
     os_alloc := fun _ n => alloc n;
     os_QueryWow64Information := fun _ _ => (0, NULL);
     os_QueryBasicInformation := fun _ _ => (0, 0x7ffd0000);
     os_Wow64QueryBasicInformation64 := fun _ _ => (0, 0x7ffd0000);
     os_IsWow64Process := fun _ x => Some (if x =? -1 then we else false);
     os_GetCurrentProcess := -1;
     os_read_peb := fun _ _ _ => if peb then Some 0x20000 else None;
     os_read_params := fun _ _ _ => Some pp;
     os_read_bytes := fun _ _ _ => bytes;
     os_VirtualQueryEx := fun _ _ src => region src;
     os_QueryCommandLine := fun _ _ _ => (0, 20, [0x61; 0x20; 0x62; 0]);
     os_NtQuerySystemInformation :=
       fun _ size => if size <? 0x5000
                     then (0xC0000004, 0x5000, fun _ => None)
                     else (0, 0x5000, three_records);
     os_indeterminate := fun _ => junk;
     os_py_alloc := fun _ => true |}.

Definition params (cwd_len cmd_len : Z) : RTL_USER_PROCESS_PARAMETERS :=
  {| CurrentDirectoryPath :=
       {| Length := cwd_len; MaxLength := 520; Buffer := 0x30000 |};
     CommandLine :=
       {| Length := cmd_len; MaxLength := 520; Buffer := 0x31000 |};
     env := 0x21002 |}.

Definition always (n : Z) : bool := true.

(** VirtualQueryEx answers with the region of [size] bytes at [base]
    whatever the address asked for. *)
Definition one_region (base size : Z) (src : Z) : option (Z * Z) :=
  Some (base, size).

(** Every address starts a region of 4096 bytes. *)
Definition page_at (src : Z) : option (Z * Z) := Some (src, 0x1000).

Definition build32 (testing : bool) : Config :=
  {| WIN64 := false; PSUTIL_TESTING := testing |}.
Definition build64 (testing : bool) : Config :=
  {| WIN64 := true; PSUTIL_TESTING := testing |}.

Definition text : list byte := repeat x41 64.

(** Process 4 has exited with code 0 but is still listed. *)
Definition os_exited_listed : OS :=
  static_os true 100 0 (Some 0) (Some [0; 4; 8]) false true
            (params 6 8) text (one_region 0x20000 0x2000) always 0.

(** OpenProcess reports ERROR_INVALID_PARAMETER for a listed process. *)
Definition os_open_invalid_listed : OS :=
  static_os true NULL ERROR_INVALID_PARAMETER None (Some [0; 4; 8])
            false true (params 6 8) text (one_region 0x20000 0x2000) always 0.

(** Process 4 answers STILL_ACTIVE but is missing from the table. *)
Definition os_active_unlisted : OS :=
  static_os true 100 0 (Some STILL_ACTIVE) (Some [0; 8]) false true
            (params 6 8) text (one_region 0x20000 0x2000) always 0.

(** A live, listed process 4 seen by an inspector that is not under
    WoW64. *)
Definition os_live (pp : RTL_USER_PROCESS_PARAMETERS)
  (region : Z -> option (Z * Z)) : OS :=
  static_os true 100 0 (Some STILL_ACTIVE) (Some [0; 4; 8]) false true
            pp text region always 0.

(** A WoW64 inspector in front of a 64-bit process 4; [peb] tells whether
    the 64-bit PEB can be read. *)
Definition os_wow64 (peb : bool) : OS :=
  static_os true 100 299 (Some STILL_ACTIVE) (Some [0; 4; 8]) true peb
            (params 6 8) text (one_region 0x20000 0x2000) always 0.

(** ntdll.dll cannot be resolved and the stack holds 0xCCCCCCCC. *)
Definition os_no_ntdll : OS :=
  static_os false 100 126 (Some STILL_ACTIVE) (Some [0; 4; 8]) false true
            (params 6 8) text (one_region 0x20000 0x2000) always 0xCCCCCCCC.

(** 1030 live processes, with ids 0, 4, 8, ... *)
Definition os_crowded : OS :=
  static_os true 100 0 (Some STILL_ACTIVE)
            (Some (map (fun i => 4 * Z.of_nat i) (seq 0 1030))) false true
            (params 6 8) text (one_region 0x20000 0x2000) always 0.

(** ** Reading results and traces *)

Definition result_of {A} (r : Res A) : option A :=
  match r with Done a _ => Some a | Abort _ => None end.

Definition exception_of {A} (r : Res A) : option PyExc :=
  match r with Done _ s => pyerr s | Abort _ => None end.

Definition trace_of {A} (r : Res A) : list Event :=
  match r with Done _ s => trace s | Abort _ => [] end.

(** How often a handle was returned by OpenProcess, and how often it was
    passed to CloseHandle. *)
Definition opens (h : Z) (tr : list Event) : nat :=
  List.length
    (filter (fun e => match e with
                      | EvOpenProcess _ _ h' => h' =? h
                      | _ => false
                      end) tr).

Definition closes (h : Z) (tr : list Event) : nat :=
  List.length
    (filter (fun e => match e with
                      | EvCloseHandle h' => h' =? h
                      | _ => false
                      end) tr).

Definition is_enum (e : Event) : bool :=
  match e with EvEnumProcesses _ _ => true | _ => false end.


Definition query_access : Z := Z.lor PROCESS_QUERY_INFORMATION PROCESS_VM_READ.

(** The state after OpenProcess returned [h] for [pid], GetExitCodeProcess
    delivered [code] and the handle was closed. *)
Definition after_exit_code_probe (st : St) (pid h code : Z) : St :=
  after_call
    (after_call
       (after_call st (EvOpenProcess query_access pid h) None)
       (EvGetExitCodeProcess h true (DWORD code)) None)
    (EvCloseHandle h) None.

(** The state after OpenProcess failed for [pid]. *)
Definition after_failed_open (os : OS) (st : St) (access pid : Z) : St :=
  after_call st (EvOpenProcess access pid NULL)
             (Some (os_last_error os (clock st))).

(** ** The claims as the specification words them, where the code departs
    from them *)

(** A successful exit-code query alone decides: the sentinel means
    running, anything else not running. *)
Definition exit_code_decides : Prop :=
  forall cfg os fuel pid st h code,
    0 < pid ->
    os_OpenProcess os (clock st) query_access pid = h ->
    h <> NULL ->
    os_GetExitCodeProcess os (S (clock st)) h = Some code ->
    result_of (psutil_pid_is_running cfg os fuel pid st)
    = Some (if DWORD code =? STILL_ACTIVE then 1 else 0).

(** After ERROR_INVALID_PARAMETER from OpenProcess the table is always
    consulted, and a listed pid is an error, never "not running". *)
Definition invalid_parameter_is_confirmed : Prop :=
  forall cfg os fuel pid st,
    0 < pid ->
    os_OpenProcess os (clock st) query_access pid = NULL ->
    os_last_error os (clock st) = ERROR_INVALID_PARAMETER ->
    let r := psutil_pid_is_running cfg os fuel pid st in
    result_of r = Some 0 ->
    existsb is_enum (trace_of r) = true.


(** The allocator refuses everything. *)
Definition never (n : Z) : bool := false.

(** calloc fails and the stack holds 0xCCCCCCCC. *)
Definition os_no_memory : OS :=
  static_os true 100 8 (Some STILL_ACTIVE) (Some [0; 4; 8]) false true
            (params 6 8) text (one_region 0x20000 0x2000) never 0xCCCCCCCC.






(** The EnumProcesses calls of a trace: bytes offered, bytes returned. *)
Fixpoint enum_calls (tr : list Event) : list (Z * Z) :=
  match tr with
  | [] => []
  | EvEnumProcesses cb r :: rest => (cb, r) :: enum_calls rest
  | _ :: rest => enum_calls rest
  end.

(** Rounds [from], ..., [upto - 1] of the enumeration loop, each with a
    buffer of 1024 more entries than the one before and each filled to the
    last byte. *)
Definition full_rounds (from upto : nat) : list (Z * Z) :=
  map (fun i => (4096 * Z.of_nat i, 4096 * Z.of_nat i))
      (seq from (upto - from)).

(** The calls of round [j] of the enumeration loop when the buffer of
    1024 * j entries is allocated and EnumProcesses fills it to the last
    byte, and those of the rounds [from], ..., [upto - 1]. *)
Definition round_full (j : nat) : list Event :=
  [EvAlloc (4096 * Z.of_nat j) true;
   EvEnumProcesses (4096 * Z.of_nat j) (4096 * Z.of_nat j)].

Definition rounds_full (from upto : nat) : list Event :=
  flat_map round_full (seq from (upto - from)).

(** How the enumeration loop, entered at time [t0] before round
    [j0 + 1], ends in round [k] on the trace [last] of that round, with
    result [r] and exception state [e'] from [e]: the allocator refuses
    the buffer of 1024 * k entries; or EnumProcesses fails; or it returns
    fewer bytes than the buffer holds, the whole process table. *)
Definition last_round (os : OS) (t0 j0 k : nat) (last : list Event)
  (r : option (list Z * Z)) (e e' : option PyExc) : Prop :=
  let t := (t0 + 2 * (k - j0 - 1))%nat in
  let cb := 4096 * Z.of_nat k in
  (os_alloc os t cb = false
   /\ last = [EvAlloc cb false]
   /\ r = None /\ e' = Some MemoryError)
  \/ (os_alloc os t cb = true
      /\ os_proc_table os (S t) = None
      /\ last = [EvAlloc cb true; EvEnumProcesses cb (-1)]
      /\ r = None /\ e' = Some (WindowsError (os_last_error os (S t))))
  \/ (exists procs n,
         os_alloc os t cb = true
         /\ os_proc_table os (S t) = Some procs
         /\ n = sizeof_DWORD * Z.of_nat (List.length procs)
         /\ n <> cb
         /\ last = [EvAlloc cb true; EvEnumProcesses cb n]
         /\ r = Some (procs, n / sizeof_DWORD)
         /\ n / sizeof_DWORD < 1024 * Z.of_nat k
         /\ e' = e).

(** No more than 2^30 - 1025 processes are ever alive. *)
Definition table_bounded (os : OS) : Prop :=
  forall t l, os_proc_table os t = Some l ->
              Z.of_nat (List.length l) < 2 ^ 30 - 1024.












(** The OpenProcess and CloseHandle calls of a trace. *)
Definition is_handle_event (e : Event) : bool :=
  match e with
  | EvOpenProcess _ _ _ | EvCloseHandle _ => true
  | _ => false
  end.

Definition handle_events (tr : list Event) : list Event :=
  filter is_handle_event tr.

(** A computation that neither opens nor closes a handle. *)
Definition quiet {A} (c : M A) : Prop :=
  forall s a s',
    c s = Done a s' ->
    exists new, trace s' = trace s ++ new /\ handle_events new = [].

(** The handle calls of an operation on [pid] that leaves no handle
    open: none at all, a failed OpenProcess, or an OpenProcess whose handle
    is closed once. *)
Definition released (access pid : Z) (evs : list Event) : Prop :=
  evs = []
  \/ evs = [EvOpenProcess access pid NULL]
  \/ exists h, h <> NULL
              /\ evs = [EvOpenProcess access pid h; EvCloseHandle h].

(** A computation that delivers the address and length of a command line
    or current directory only with a length that fits 16 bits. *)
Definition sized {A} (c : M (option (A * Z))) : Prop :=
  forall s a size s',
    c s = Done (Some (a, size)) s' -> 0 <= size < 2 ^ 16.

(** A Python exception is pending. *)
Definition pending (s : St) : Prop := pyerr s <> None.

(** Every run of [c] takes a state to one related to it by [R]. *)
Definition steps {A} (R : St -> St -> Prop) (c : M A) : Prop :=
  forall s a s', c s = Done a s' -> R s s'.

(** A pending exception stays pending. *)
Definition stays_pending (s s' : St) : Prop := pending s -> pending s'.

(** All calls made satisfy [P]. *)
Definition only_calls (P : Event -> bool) (s s' : St) : Prop :=
  exists new, trace s' = trace s ++ new /\ forallb P new = true.

(** A relation every run respects as long as each call it makes is one
    of [walk_ok]: it holds when nothing happens, composes, and is kept by
    raising an exception and by an allowed call. *)
Class Walk (R : St -> St -> Prop) := {
  walk_ok : Event -> Prop;
  walk_refl : forall s, R s s;
  walk_trans : forall a b c, R a b -> R b c -> R a c;
  walk_pyerr : forall s e, R s (with_pyerr s e);
  walk_call : forall s ev err, walk_ok ev -> R s (after_call s ev err)
}.

(** Calls that read the memory of the target. *)
Definition is_remote_read (e : Event) : bool :=
  match e with
  | EvReadProcessMemory _ _ _ _ | EvNtWow64ReadVirtualMemory64 _ _ _ _ => true
  | EvCall name =>
      (name =? "ReadProcessMemory")%string
      || (name =? "NtWow64ReadVirtualMemory64")%string
  | _ => false
  end.

(** OpenProcess is only called with the access rights [access]. *)
Definition opens_with (access : Z) (e : Event) : bool :=
  match e with
  | EvOpenProcess a _ _ => a =? access
  | _ => true
  end.

(** Every result of [c] satisfies [P]. *)
Definition returns {A} (P : A -> Prop) (c : M A) : Prop :=
  forall s a s', c s = Done a s' -> P a.

(** [c] reports failure, the results [bad] selects, with an exception
    pending, and never clears a pending one. *)
Definition loud {A} (bad : A -> bool) (c : M A) : Prop :=
  forall s a s',
    c s = Done a s' ->
    (bad a = true -> pending s') /\ (pending s -> pending s').

(** [c] fails with an exception pending and succeeds with the exception
    state as it found it. *)
Definition faithful {A} (bad : A -> bool) (c : M A) : Prop :=
  forall s a s',
    c s = Done a s' -> if bad a then pending s' else pyerr s' = pyerr s.

(** [c] is the rest of a failing path: it ends in failure and keeps the
    exception pending. *)
Definition gives_up {A} (bad : A -> bool) (c : M A) : Prop :=
  forall s a s',
    c s = Done a s' -> bad a = true /\ (pending s -> pending s').

(** The failure values of the functions of the file. *)
Definition is_null (h : Z) : bool := h =? NULL.
Definition is_minus_one (r : Z) : bool := r =? -1.
Definition is_zero (r : Z) : bool := r =? 0.
Definition no_value {A} (r : option A) : bool := is_none r.
Definition nonzero_code {A} (r : Z * A) : bool := negb (fst r =? 0).
Definition zero_code {A} (r : Z * A) : bool := fst r =? 0.

(** The pointer and the length the parameters block holds for a kind of
    data; the environment block has no length field. *)
Definition field_pointer (kind : psutil_process_data_kind)
  (pp : RTL_USER_PROCESS_PARAMETERS) : Z :=
  match kind with
  | KIND_CMDLINE => Buffer (CommandLine pp)
  | KIND_CWD => Buffer (CurrentDirectoryPath pp)
  | KIND_ENVIRON => env pp
  end.

Definition field_length (kind : psutil_process_data_kind)
  (pp : RTL_USER_PROCESS_PARAMETERS) : option Z :=
  match kind with
  | KIND_CMDLINE => Some (USHORT (Length (CommandLine pp)))
  | KIND_CWD => Some (USHORT (Length (CurrentDirectoryPath pp)))
  | KIND_ENVIRON => None
  end.

(** [src] and [size] come from a parameters block read from the target
    through [h]: [src] is its pointer for the kind, in a layout of 32-bit
    or of 64-bit pointers, and [size] its length field, if the kind has
    one. *)
Definition from_params (os : OS) (h : Z) (kind : psutil_process_data_kind)
  (src size : Z) : Prop :=
  exists t a pp bits,
    (bits = 32 \/ bits = 64)
    /\ os_read_params os t h a = Some pp
    /\ src = field_pointer kind pp mod 2 ^ bits
    /\ (forall len, field_length kind pp = Some len -> size = len).

(** The length of the environment block [size] is what is left, from
    [src] on, of the memory region VirtualQueryEx reported for [src]. *)
Definition to_region_end (cfg : Config) (os : OS) (h src size : Z) : Prop :=
  exists t base rs,
    os_VirtualQueryEx os t h src = Some (base, rs)
    /\ size = SIZE_T cfg (rs - (src - base)).

(** The size of a page of memory. *)
Definition PAGE_SIZE : Z := 4096.

(** What the system documents of VirtualQueryEx: the region it reports
    holds the address asked about, and RegionSize, a SIZE_T, counts the
    bytes of a whole number of pages. *)
Definition region_conformant (cfg : Config) (os : OS) : Prop :=
  forall t h src base rs,
    os_VirtualQueryEx os t h src = Some (base, rs) ->
    base <= src < base + rs
    /\ rs < 2 ^ ptr_bits cfg
    /\ rs mod PAGE_SIZE = 0.

(** The allocator, and the two calls that copy a field out of the
    target. *)
Definition is_alloc_or_copy (e : Event) : bool :=
  match e with
  | EvAlloc _ _ | EvReadProcessMemory _ _ _ _
  | EvNtWow64ReadVirtualMemory64 _ _ _ _ => true
  | _ => false
  end.

Definition before_copy (e : Event) : bool := negb (is_alloc_or_copy e).

(** The run from [s] to [s'] made calls that [P] accepts, each of them
    one tick of the clock. *)
Definition ticks (P : Event -> bool) (s s' : St) : Prop :=
  exists new,
    trace s' = trace s ++ new
    /\ forallb P new = true
    /\ clock s' = (clock s + List.length new)%nat.

(** [c] returns from every state: it neither runs out of fuel nor leaves
    the bounds of a buffer. *)
Definition total {A} (c : M A) : Prop :=
  forall s, exists a s', c s = Done a s'.

(** The call that copies [size] bytes at [src] out of the target, by
    NtWow64ReadVirtualMemory64 if [wide], else by ReadProcessMemory. *)
Definition copy_event (wide : bool) (h src size : Z) (ok : bool) : Event :=
  if wide then EvNtWow64ReadVirtualMemory64 h src size ok
  else EvReadProcessMemory h src size ok.

(** [size] is the length the code computes for the field at [src]: the
    Length field that goes with the pointer, or for the environment what
    is left of the memory region of [src]. *)
Definition computed_length (cfg : Config) (os : OS) (h : Z)
  (kind : psutil_process_data_kind) (src size : Z) : Prop :=
  match kind with
  | KIND_ENVIRON =>
      (exists size0, from_params os h kind src size0)
      /\ to_region_end cfg os h src size
  | _ => from_params os h kind src size
  end.

(** A run of lines 547-774 on the handle [h], from [s] to the result [r]
    in [s'].  Its calls [pre], up to the allocation, neither allocate nor
    copy.  Either it stops there, returning -1 with an exception pending,
    or it has computed a length [size] with size + 2 representable, and
    its next call asks the allocator for exactly size + 2 bytes.  If the
    allocator refuses, the run closes the handle and returns -1 with
    MemoryError, without reading the field.  Else the one call that
    follows copies [size] bytes from [src]: if they are all readable the
    run returns 0 with [size] and a buffer of size + 2 bytes, the bytes
    read and two zero bytes; if not it returns -1 with an exception
    pending.  The handle is closed last. *)
Definition copy_protocol (cfg : Config) (os : OS)
  (kind : psutil_process_data_kind) (h : Z) (s : St)
  (r : Z * option (list byte * Z)) (s' : St) : Prop :=
  exists pre,
    forallb before_copy pre = true
    /\ ((trace s' = trace s ++ pre ++ [EvCloseHandle h]
         /\ r = (-1, None) /\ pending s')
        \/ exists wide src size,
             computed_length cfg os h kind src size
             /\ 0 <= size
             /\ size + 2 < 2 ^ ptr_bits cfg
             /\ let t := (clock s + List.length pre)%nat in
                let avail := os_read_bytes os (S t) h src in
                if os_alloc os t (size + 2) then
                  if size <=? Z.of_nat (List.length avail) then
                    trace s'
                    = trace s ++ pre
                      ++ [EvAlloc (size + 2) true;
                          copy_event wide h src size true;
                          EvCloseHandle h]
                    /\ exists buffer,
                         r = (0, Some (buffer, size))
                         /\ Z.of_nat (List.length buffer) = size + 2
                         /\ buffer
                            = firstn (Z.to_nat size) avail ++ [x00; x00]
                  else
                    trace s'
                    = trace s ++ pre
                      ++ [EvAlloc (size + 2) true;
                          copy_event wide h src size false;
                          EvCloseHandle h]
                    /\ r = (-1, None) /\ pending s'
                else
                  trace s'
                  = trace s ++ pre
                    ++ [EvAlloc (size + 2) false; EvCloseHandle h]
                  /\ r = (-1, None) /\ pyerr s' = Some MemoryError).

(** The state after OpenProcess returned [h] for [pid], the exit-code
    query on it failed with [err], and the handle was closed. *)
Definition after_failed_exit_code (st : St) (pid h err : Z) : St :=
  after_call
    (after_call (after_call st (EvOpenProcess query_access pid h) None)
                (EvGetExitCodeProcess h false 0) (Some err))
    (EvCloseHandle h) None.

(** OpenProcess is refused with ERROR_ACCESS_DENIED. *)
Definition os_open_denied : OS :=
  static_os true NULL ERROR_ACCESS_DENIED None (Some [0; 4; 8])
            false true (params 6 8) text (one_region 0x20000 0x2000) always 0.

(** A live process 4 whose environment block, at 0x21002, lies in a
    memory region that ends 32 bytes further. *)
Definition os_short_region : OS :=
  os_live (params 6 8) (one_region 0x21000 0x22).

(** The region of an address is the page of 4096 bytes it lies in. *)
Definition page_of (src : Z) : option (Z * Z) :=
  Some (PAGE_SIZE * (src / PAGE_SIZE), PAGE_SIZE).

(** A live process 4 whose memory is readable for 4096 bytes from any
    address, in regions of one page. *)
Definition os_paged : OS :=
  static_os true 100 0 (Some STILL_ACTIVE) (Some [0; 4; 8]) false true
            (params 6 8) (repeat x41 (Z.to_nat 4096)) page_of always 0.

(** OpenProcess succeeds and the exit-code query is refused with
    [err]. *)
Definition os_exit_code_refused (err : Z) : OS :=
  static_os true 100 err None (Some [0; 4; 8])
            false true (params 6 8) text (one_region 0x20000 0x2000) always 0.

(** A parser that returns the whole command line as one argument, and a
    Python runtime that never runs out of memory. *)
Definition parse_whole (t : nat) (str : list Z) : option (list (list Z)) :=
  Some [str ++ [0]].

Definition py_always (t : nat) : bool := true.

(** The calls psutil_get_proc_info is made of: the loader, the allocator
    and NtQuerySystemInformation. *)
Definition is_snapshot_call (e : Event) : bool :=
  match e with
  | EvAlloc _ _ | EvQuerySystemInformation _ _ _ => true
  | EvCall name =>
      (name =? "LoadLibraryA")%string || (name =? "GetProcAddress")%string
      || (name =? "FreeLibrary")%string
  | _ => false
  end.

(** Calls that do not read the memory of the target and open it, if at
    all, with the access rights [access]. *)
Definition no_remote_read (access : Z) (e : Event) : bool :=
  negb (is_remote_read e) && opens_with access e.

(** The remembered buffer size is left alone or set to at most 0x20000. *)
Definition cache_capped (s s' : St) : Prop :=
  initialBufferSize s' = initialBufferSize s
  \/ 0 <= initialBufferSize s' <= 0x20000.

(** The results of psutil_is_phandle_running other than its three
    verdicts: -2, an assertion failed. *)
Definition not_a_verdict (r : Z) : bool :=
  negb ((r =? 1) || (r =? 0) || (r =? -1)).

(** The two shapes of a return code with its output: 0 with the output
    assigned, -1 with the output untouched. *)
Definition code_and_output {A} (r : Z * option A) : Prop :=
  (fst r = 0 /\ snd r <> None) \/ (fst r = -1 /\ snd r = None).

(** * Properties *)

(** ** The table-membership probe *)

Lemma pid_in_list_1 (pid : Z) (l : list Z) :
  pid_in_list pid l = 1 <-> In pid l.
Proof.
  induction l as [|p l IH]; simpl.
  - split; [discriminate | tauto].
  - destruct (Z.eqb_spec p pid) as [->|Hne].
    + split; auto.
    + rewrite IH. split; [auto | intros [H|H]; [contradiction | exact H]].
Qed.

Lemma pid_in_list_0 (pid : Z) (l : list Z) :
  pid_in_list pid l = 0 <-> ~ In pid l.
Proof.
  induction l as [|p l IH]; simpl.
  - split; [tauto | reflexivity].
  - destruct (Z.eqb_spec p pid) as [->|Hne].
    + split; [discriminate | intros H; exfalso; apply H; auto].
    + rewrite IH. split; [intros H [H'|H']; auto | intros H H'; apply H; auto].
Qed.

(** psutil_pid_in_pids answers -1 when the enumeration fails, 1 when the
    pid is among the ids returned and 0 when it is not. *)
Lemma pid_in_pids_probe cfg os fuel pid s r s' :
  psutil_pid_in_pids cfg os fuel pid s = Done r s' ->
  (psutil_get_pids cfg os fuel s = Done None s' /\ r = -1)
  \/ exists procs count,
       psutil_get_pids cfg os fuel s = Done (Some (procs, count)) s'
       /\ ((r = 1 /\ In pid (firstn (Z.to_nat count) procs))
           \/ (r = 0 /\ ~ In pid (firstn (Z.to_nat count) procs))).
Proof.
  unfold psutil_pid_in_pids, bind.
  destruct (psutil_get_pids cfg os fuel s) as [[[procs count]|] s1|];
    [| |discriminate]; intros H; injection H as <- <-.
  - right. exists procs, count. split; [reflexivity|].
    set (l := firstn (Z.to_nat count) procs).
    assert (Hcases : pid_in_list pid l = 1 \/ pid_in_list pid l = 0).
    { clear. induction l as [|p l IH]; cbn; [right; reflexivity|].
      destruct (p =? pid); [left; reflexivity | exact IH]. }
    destruct Hcases as [H1 | H0].
    + left. split; [exact H1 | apply pid_in_list_1; exact H1].
    + right. split; [exact H0 | apply pid_in_list_0; exact H0].
  - left. split; reflexivity.
Qed.

Ltac run_calls :=
  cbv beta delta [bind ret OpenProcess GetExitCodeProcess CloseHandle
                  GetLastError syscall set_pyerr PyErr_SetFromWindowsErr
                  raise_AccessDenied raise_NoSuchProcess] iota;
  cbn [clock last_error pyerr trace is_none after_call with_pyerr].

(** ** Pid 0 *)

(** C5: pid 0 is never reported NotFound.  Whatever access rights are
    asked for, psutil_handle_from_pid(0) returns NULL with AccessDenied set
    and makes no system call; psutil_pid_is_running(0) returns 1 and leaves
    the state, hence the pending exception, untouched. *)
Theorem pid_zero_never_not_found :
  forall cfg os fuel dwDesiredAccess st,
    result_of (psutil_handle_from_pid cfg os fuel 0 dwDesiredAccess st)
      = Some NULL
    /\ exception_of (psutil_handle_from_pid cfg os fuel 0 dwDesiredAccess st)
      = Some (AccessDenied "")
    /\ trace_of (psutil_handle_from_pid cfg os fuel 0 dwDesiredAccess st)
      = trace st
    /\ psutil_pid_is_running cfg os fuel 0 st = Done 1 st.
Proof.
  intros. repeat split.
Qed.

(** ** The exit-code probe of psutil_pid_is_running *)

(** An enumeration that fails leaves a Python exception pending. *)
Lemma get_pids_loop_failure cfg os n :
  forall cap s s',
    get_pids_loop cfg os n cap s = Done None s' -> pending s'.
Proof.
  induction n as [|n IH]; intros cap s s' H; cbn [get_pids_loop] in H.
  - discriminate.
  - cbv zeta in H. unfold bind at 1 in H. unfold malloc, syscall in H.
    destruct (os_alloc os (clock s) _).
    + cbn [negb] in H. unfold bind at 1 in H.
      unfold EnumProcesses, syscall in H.
      destruct (os_proc_table os _) as [l|].
      * destruct (_ =? _).
        -- apply (IH _ _ _ H).
        -- discriminate.
      * injection H as <-. discriminate.
    + injection H as <-. discriminate.
Qed.

(** C1, as amended: when OpenProcess and GetExitCodeProcess succeed the
    handle is closed and then: on STILL_ACTIVE the answer is 1 outright
    unless PSUTIL_TESTING is set, in which case the process table is
    consulted and the answer is -1, with AssertionError raised, when the
    table is enumerated and the pid is missing from it, and 1 otherwise;
    on any other exit code the
    answer is that of psutil_pid_in_pids run after the probe, so 1 when the
    pid is among the ids enumerated, 0 when it is not, -1 with an exception
    pending when enumeration fails. *)
Theorem exit_code_probe :
  forall cfg os fuel pid st h code,
    0 < pid ->
    os_OpenProcess os (clock st) query_access pid = h ->
    h <> NULL ->
    os_GetExitCodeProcess os (S (clock st)) h = Some code ->
    let st2 := after_exit_code_probe st pid h code in
    let run := psutil_pid_is_running cfg os fuel pid st in
    (DWORD code = STILL_ACTIVE -> PSUTIL_TESTING cfg = false ->
       run = Done 1 st2)
    /\ (DWORD code = STILL_ACTIVE -> PSUTIL_TESTING cfg = true ->
        forall r st3, psutil_pid_in_pids cfg os fuel pid st2 = Done r st3 ->
          run = (if r =? 0
                 then Done (-1)
                        (with_pyerr st3
                           (AssertionError
                              "pir: GetExitCodeProcess() -> STILL_ACTIVE"))
                 else Done 1 st3)
          /\ (r = 0 <->
              exists procs count,
                psutil_get_pids cfg os fuel st2
                = Done (Some (procs, count)) st3
                /\ ~ In pid (firstn (Z.to_nat count) procs)))
    /\ (DWORD code <> STILL_ACTIVE ->
        run = psutil_pid_in_pids cfg os fuel pid st2
        /\ forall r st3,
             run = Done r st3 ->
             (r = -1
              /\ psutil_get_pids cfg os fuel st2 = Done None st3
              /\ pending st3)
             \/ exists procs count,
                  psutil_get_pids cfg os fuel st2
                  = Done (Some (procs, count)) st3
                  /\ ((r = 1 /\ In pid (firstn (Z.to_nat count) procs))
                      \/ (r = 0
                          /\ ~ In pid (firstn (Z.to_nat count) procs)))).
Proof.
  intros cfg os fuel pid st h code Hpid Hopen Hh Hcode st2 run.
  assert (E0 : (pid =? 0) = false) by (apply Z.eqb_neq; lia).
  assert (E1 : (pid <? 0) = false) by (apply Z.ltb_ge; lia).
  assert (E2 : (NULL =? h) = false) by (apply Z.eqb_neq; congruence).
  assert (Hrun : run =
    (if DWORD code =? STILL_ACTIVE
     then bind (psutil_assert_pid_exists cfg os fuel pid
                  "pir: GetExitCodeProcess() -> STILL_ACTIVE")
               (fun a => if a =? 0 then ret (-1) else ret 1)
     else psutil_pid_in_pids cfg os fuel pid) st2).
  { subst run st2. unfold psutil_pid_is_running. rewrite E0, E1.
    run_calls. fold query_access. rewrite Hopen, E2. cbn [clock after_call].
    rewrite Hcode. reflexivity. }
  split; [|split].
  - intros Hc Ht. rewrite Hrun.
    apply Z.eqb_eq in Hc. rewrite Hc.
    unfold psutil_assert_pid_exists. rewrite Ht. reflexivity.
  - intros Hc Ht r st3 Hp. rewrite Hrun.
    apply Z.eqb_eq in Hc. rewrite Hc.
    unfold psutil_assert_pid_exists. rewrite Ht.
    unfold bind at 1. unfold bind at 1. rewrite Hp.
    split; [destruct (r =? 0); reflexivity|].
    destruct (pid_in_pids_probe cfg os fuel pid st2 r st3 Hp)
      as [[Hnone ->]|(procs & count & Hsome & Hr)].
    + split; [discriminate|].
      intros (procs & count & Hsome & _). congruence.
    + split.
      * intros ->. exists procs, count. split; [exact Hsome|].
        destruct Hr as [[Hr _]|[_ Hr]]; [discriminate | exact Hr].
      * intros (procs' & count' & Hsome' & Hout).
        rewrite Hsome in Hsome'. injection Hsome' as <- <-.
        destruct Hr as [[_ Hr]|[Hr _]]; [contradiction | exact Hr].
  - intros Hc.
    assert (Hprobe : run = psutil_pid_in_pids cfg os fuel pid st2).
    { rewrite Hrun. apply Z.eqb_neq in Hc. rewrite Hc. reflexivity. }
    split; [exact Hprobe|].
    intros r st3 Hr. rewrite Hprobe in Hr.
    destruct (pid_in_pids_probe cfg os fuel pid st2 r st3 Hr)
      as [[Hnone ->]|Hsome].
    + left. split; [reflexivity|]. split; [exact Hnone|].
      apply (get_pids_loop_failure cfg os fuel 0 st2 st3 Hnone).
    + right. exact Hsome.
Qed.

Lemma exit_code_probe_witness :
  psutil_pid_is_running (build32 false) (os_live (params 6 8) page_at) 5 4
    initial_state
  = Done 1 (after_exit_code_probe initial_state 4 100 STILL_ACTIVE)
  /\ (exists st3,
        psutil_pid_in_pids (build32 true) os_active_unlisted 5 4
          (after_exit_code_probe initial_state 4 100 STILL_ACTIVE)
        = Done 0 st3
        /\ psutil_pid_is_running (build32 true) os_active_unlisted 5 4
             initial_state
           = Done (-1)
               (with_pyerr st3
                  (AssertionError
                     "pir: GetExitCodeProcess() -> STILL_ACTIVE"))
        /\ exists procs count,
             psutil_get_pids (build32 true) os_active_unlisted 5
               (after_exit_code_probe initial_state 4 100 STILL_ACTIVE)
             = Done (Some (procs, count)) st3
             /\ ~ In 4 (firstn (Z.to_nat count) procs))
  /\ psutil_pid_is_running (build32 false) os_exited_listed 5 4 initial_state
     = psutil_pid_in_pids (build32 false) os_exited_listed 5 4
         (after_exit_code_probe initial_state 4 100 0).
Proof.
  split; [|split].
  - refine (proj1 (exit_code_probe (build32 false)
                     (os_live (params 6 8) page_at) 5 4 initial_state 100
                     STILL_ACTIVE _ _ _ _) _ _).
    + lia.
    + reflexivity.
    + discriminate.
    + reflexivity.
    + reflexivity.
    + reflexivity.
  - eexists.
    assert (Hp : psutil_pid_in_pids (build32 true) os_active_unlisted 5 4
                   (after_exit_code_probe initial_state 4 100 STILL_ACTIVE)
                 = Done 0 _) by (vm_compute; reflexivity).
    split; [exact Hp|].
    assert (Hboth := proj1 (proj2 (exit_code_probe (build32 true)
                                     os_active_unlisted 5 4 initial_state
                                     100 STILL_ACTIVE ltac:(lia) eq_refl
                                     ltac:(discriminate) eq_refl))
                       eq_refl eq_refl 0 _ Hp).
    split; [exact (proj1 Hboth)|].
    exact (proj1 (proj2 Hboth) eq_refl).
  - refine (proj1 (proj2 (proj2 (exit_code_probe (build32 false)
                                   os_exited_listed 5 4 initial_state 100 0
                                   _ _ _ _)) _)).
    + lia.
    + reflexivity.
    + discriminate.
    + reflexivity.
    + discriminate.
Defined.

(** C1, as worded, fails: process 4 has exit code 0, not the sentinel, yet
    it is still listed and is reported as running. *)
Lemma exit_code_decides_counterexample :
  os_GetExitCodeProcess os_exited_listed 1 100 = Some 0
  /\ DWORD 0 <> STILL_ACTIVE
  /\ result_of (psutil_pid_is_running (build32 false) os_exited_listed 5 4
                  initial_state) = Some 1
  /\ ~ exit_code_decides.
Proof.
  split; [reflexivity|]. split; [discriminate|]. split; [reflexivity|].
  intros H.
  specialize (H (build32 false) os_exited_listed 5%nat 4 initial_state 100 0).
  assert (Hgo : result_of
                  (psutil_pid_is_running (build32 false) os_exited_listed 5 4
                     initial_state) = Some 0).
  { apply H; [lia | reflexivity | discriminate | reflexivity]. }
  vm_compute in Hgo. discriminate.
Qed.

(** ** OpenProcess failing with ERROR_INVALID_PARAMETER *)

(** C8, as amended: when OpenProcess fails with ERROR_INVALID_PARAMETER,
    psutil_pid_is_running answers 0 at once, without any other call, unless
    PSUTIL_TESTING is set; when it is set the process table is consulted
    and the answer is -1 with an AssertionError if the pid is listed, 0 in
    every other case (pid not listed, or enumeration failed).
    psutil_is_phandle_running, given the NULL handle, does the same with
    -2 for the disagreement. *)
Theorem invalid_parameter_probe :
  forall cfg os fuel pid st,
    0 < pid ->
    os_OpenProcess os (clock st) query_access pid = NULL ->
    os_last_error os (clock st) = ERROR_INVALID_PARAMETER ->
    let st1 := after_failed_open os st query_access pid in
    let run := psutil_pid_is_running cfg os fuel pid st in
    let run' := psutil_is_phandle_running cfg os fuel NULL pid st1 in
    (PSUTIL_TESTING cfg = false -> run = Done 0 st1 /\ run' = Done 0 st1)
    /\ (PSUTIL_TESTING cfg = true ->
        forall r st2, psutil_pid_in_pids cfg os fuel pid st1 = Done r st2 ->
          (r = 1 ->
             result_of run = Some (-1) /\ result_of run' = Some (-2)
             /\ exists msg, exception_of run = Some (AssertionError msg))
          /\ (r <> 1 -> run = Done 0 st2 /\ run' = Done 0 st2)).
Proof.
  intros cfg os fuel pid st Hpid Hopen Herr st1 run run'.
  assert (E0 : (pid =? 0) = false) by (apply Z.eqb_neq; lia).
  assert (E1 : (pid <? 0) = false) by (apply Z.ltb_ge; lia).
  assert (Hrun : run =
    bind (psutil_assert_pid_not_exists cfg os fuel pid
            "pir: OpenProcess() -> INVALID_PARAMETER")
         (fun a => if a =? 0 then ret (-1) else ret 0) st1).
  { subst run st1. unfold psutil_pid_is_running. rewrite E0, E1.
    run_calls. fold query_access. rewrite Hopen. cbn.
    unfold after_failed_open. rewrite Herr, Z.eqb_refl. reflexivity. }
  assert (Hrun' : run' =
    bind (psutil_assert_pid_not_exists cfg os fuel pid
            "iphr: OpenProcess() -> ERROR_INVALID_PARAMETER")
         (fun a => if a =? 0 then ret (-2) else ret 0) st1).
  { subst run' st1. unfold psutil_is_phandle_running.
    run_calls. cbn. unfold after_failed_open. cbn.
    rewrite Herr, Z.eqb_refl. reflexivity. }
  rewrite Hrun, Hrun'. unfold psutil_assert_pid_not_exists. split.
  - intros ->. split; reflexivity.
  - intros -> r st2 Hp. split.
    + intros ->. unfold bind. rewrite Hp. cbn.
      repeat split. eexists. reflexivity.
    + intros Hr. apply Z.eqb_neq in Hr.
      unfold bind. rewrite Hp, Hr. split; reflexivity.
Qed.

Lemma invalid_parameter_probe_witness :
  psutil_pid_is_running (build32 false) os_open_invalid_listed 5 4
    initial_state
  = Done 0 (after_failed_open os_open_invalid_listed initial_state
              query_access 4)
  /\ result_of (psutil_pid_is_running (build32 true) os_open_invalid_listed
                  5 4 initial_state) = Some (-1)
  /\ result_of (psutil_pid_is_running (build32 true) os_open_invalid_listed
                  5 12 initial_state) = Some 0.
Proof.
  split; [|split].
  - refine (proj1 (proj1 (invalid_parameter_probe (build32 false)
                            os_open_invalid_listed 5 4 initial_state _ _ _)
                     _)).
    + lia.
    + reflexivity.
    + reflexivity.
    + reflexivity.
  - refine (proj1 (proj1 (proj2 (invalid_parameter_probe (build32 true)
                            os_open_invalid_listed 5 4 initial_state _ _ _)
                     _ 1 _ _) _)).
    + lia.
    + reflexivity.
    + reflexivity.
    + reflexivity.
    + vm_compute. reflexivity.
    + reflexivity.
  - refine (f_equal result_of
              (proj1 (proj2 (proj2 (invalid_parameter_probe (build32 true)
                            os_open_invalid_listed 5 12 initial_state _ _ _)
                     _ 0 _ _) _))).
    + lia.
    + reflexivity.
    + reflexivity.
    + reflexivity.
    + vm_compute. reflexivity.
    + discriminate.
Defined.

(** C8, as worded, fails: OpenProcess reports ERROR_INVALID_PARAMETER for
    process 4, which is listed; without PSUTIL_TESTING the answer is 0 and
    EnumProcesses was never called. *)
Lemma invalid_parameter_is_confirmed_counterexample :
  In 4 [0; 4; 8]
  /\ psutil_pid_is_running (build32 false) os_open_invalid_listed 5 4
       initial_state
     = Done 0 (after_failed_open os_open_invalid_listed initial_state
                 query_access 4)
  /\ trace (after_failed_open os_open_invalid_listed initial_state
              query_access 4) = [EvOpenProcess query_access 4 NULL]
  /\ ~ invalid_parameter_is_confirmed.
Proof.
  split; [simpl; tauto|]. split; [reflexivity|]. split; [reflexivity|].
  intros H.
  specialize (H (build32 false) os_open_invalid_listed 5%nat 4 initial_state).
  cbv zeta in H.
  assert (Hgo : existsb is_enum
                  (trace_of (psutil_pid_is_running (build32 false)
                               os_open_invalid_listed 5 4 initial_state))
                = true).
  { apply H; [lia | reflexivity | reflexivity | reflexivity]. }
  vm_compute in Hgo. discriminate.
Qed.

(** ** Handles *)

(** C4 fails on the code.  With PSUTIL_TESTING set, process 4 is opened
    (handle 100), GetExitCodeProcess answers STILL_ACTIVE and the process
    table does not list it: psutil_is_phandle_running returns -2 without
    CloseHandle, psutil_handle_from_pid returns NULL, and so does
    psutil_get_process_data with -1; handle 100 was opened once and never
    closed. *)
Theorem handle_leaks_when_assertion_fails :
  let r := psutil_handle_from_pid (build32 true) os_active_unlisted 5 4
             query_access initial_state in
  let d := psutil_get_process_data (build32 true) os_active_unlisted 5 4
             KIND_CMDLINE initial_state in
  result_of r = Some NULL
  /\ exception_of r
     = Some (AssertionError "iphr: GetExitCodeProcess() -> STILL_ACTIVE")
  /\ trace_of r = [EvOpenProcess query_access 4 100;
                   EvGetExitCodeProcess 100 true STILL_ACTIVE;
                   EvAlloc 4096 true; EvEnumProcesses 4096 8]
  /\ opens 100 (trace_of r) = 1%nat
  /\ closes 100 (trace_of r) = 0%nat
  /\ result_of d = Some (-1, None)
  /\ opens 100 (trace_of d) = 1%nat
  /\ closes 100 (trace_of d) = 0%nat.
Proof.
  vm_compute. repeat split.
Qed.

(** C9 fails on the code.  When ntdll.dll cannot be resolved, or when the
    first calloc fails, psutil_get_cmdline_data jumps to its cleanup before
    hProcess is assigned; the cleanup tests the unassigned variable and
    passes its content, here 0xCCCCCCCC, to CloseHandle although the call
    opened no handle at all. *)
Theorem cmdline_data_closes_unassigned_handle :
  let r := psutil_get_cmdline_data (build32 false) os_no_ntdll 5 4
             initial_state in
  let m := psutil_get_cmdline_data (build32 false) os_no_memory 5 4
             initial_state in
  result_of r = Some (-1, None)
  /\ trace_of r = [EvCall "GetModuleHandleA"; EvCloseHandle 0xCCCCCCCC]
  /\ opens 0xCCCCCCCC (trace_of r) = 0%nat
  /\ result_of m = Some (-1, None)
  /\ exception_of m = Some MemoryError
  /\ trace_of m = [EvCall "GetModuleHandleA"; EvCall "GetProcAddress";
                   EvAlloc 4096 false; EvCloseHandle 0xCCCCCCCC]
  /\ opens 0xCCCCCCCC (trace_of m) = 0%nat.
Proof.
  vm_compute. repeat split.
Qed.

(** C10 fails on the code.  A target whose CurrentDirectoryPath.Length is
    1: psutil_get_process_data succeeds with the three-byte buffer
    41 00 00; its first 16-bit unit is 0x0041 and the second one starts at
    the last byte of the buffer, so the wcslen of psutil_get_cwd reads past
    the allocation. *)
Theorem odd_length_is_not_terminated :
  let os := os_live (params 1 8) (one_region 0x20000 0x2000) in
  result_of (psutil_get_process_data (build64 false) os 5 4 KIND_CWD
               initial_state)
  = Some (0, Some ([x41; x00; x00], 1))
  /\ wcslen [x41; x00; x00] = None
  /\ psutil_get_cwd (build64 false) os 5 4 initial_state
     = Abort OutOfBoundsRead.
Proof.
  vm_compute. repeat split.
Qed.

(** ** The copy buffer *)

Lemma skipn_repeat_add {A} (a : A) (n m : nat) :
  skipn n (repeat a (n + m)) = repeat a m.
Proof. induction n as [|n IH]; simpl; auto. Qed.

Lemma SIZE_T_small cfg (x : Z) :
  0 <= x < 2 ^ ptr_bits cfg -> SIZE_T cfg x = x.
Proof. intros H. unfold SIZE_T. apply Z.mod_small. exact H. Qed.

Lemma USHORT_range (x : Z) : 0 <= USHORT x < 2 ^ 16.
Proof. unfold USHORT. apply Z.mod_pos_bound. reflexivity. Qed.

Lemma ptr_bits_cases cfg : 2 ^ ptr_bits cfg = 2 ^ 32 \/ 2 ^ ptr_bits cfg = 2 ^ 64.
Proof. unfold ptr_bits. destruct (WIN64 cfg); auto. Qed.

(** A read of [size] bytes into a fresh buffer of [size + 2] zero bytes
    that succeeds leaves the bytes of the target followed by two zero
    bytes. *)
Lemma read_into_fresh os wide h src size st buffer st' :
  0 <= size ->
  read_into os wide h src (repeat x00 (Z.to_nat (size + 2))) size st
  = Done (Some buffer) st' ->
  exists data,
    data = firstn (Z.to_nat size) (os_read_bytes os (clock st) h src)
    /\ Z.of_nat (List.length data) = size
    /\ buffer = data ++ [x00; x00].
Proof.
  intros Hsize. unfold read_into, bind, syscall.
  destruct (size <=? Z.of_nat (List.length (os_read_bytes os (clock st) h src)))
    eqn:Hle; [|discriminate].
  apply Z.leb_le in Hle.
  set (data := firstn (Z.to_nat size) (os_read_bytes os (clock st) h src)).
  assert (Hlen : List.length data = Z.to_nat size).
  { subst data. apply firstn_length_le. lia. }
  replace (Z.to_nat (size + 2)) with (List.length data + 2)%nat by lia.
  rewrite skipn_repeat_add, repeat_length.
  destruct (List.length data <=? List.length data + 2)%nat eqn:Hfit.
  - intros H. injection H as <- _.
    exists data. repeat split. lia.
  - apply Nat.leb_gt in Hfit. lia.
Qed.

Lemma copy_field_unfold cfg os narrower h src size st :
  copy_field cfg os narrower h src size st =
  let n := SIZE_T cfg (size + 2) in
  let ok := os_alloc os (clock st) n in
  let st1 := after_call st (EvAlloc n ok) None in
  if ok then
    match read_into os narrower h src (repeat x00 (Z.to_nat n)) size st1 with
    | Done (Some b) s => Done (Some b) s
    | Done None s => Done None (with_pyerr s (WindowsError (last_error s)))
    | Abort u => Abort u
    end
  else Done None (with_pyerr st1 MemoryError).
Proof.
  unfold copy_field, calloc, malloc, bind, syscall, ret. cbv zeta.
  destruct (os_alloc os (clock st) (SIZE_T cfg (size + 2))).
  - destruct (read_into _ _ _ _ _ _ _) as [[b|] s|u]; reflexivity.
  - reflexivity.
Qed.

(** ** The bitness policy *)














Lemma process_data_error_closes {A} os h s :
  h <> NULL ->
  @process_data_error os A h s
  = Done (-1, None) (after_call s (EvCloseHandle h) None).
Proof.
  intros Hh. apply Z.eqb_neq in Hh.
  unfold process_data_error, bind, CloseHandle, syscall, ret.
  rewrite Hh. reflexivity.
Qed.









(** ** The enumeration loop *)

Lemma INT_small (x : Z) : - 2 ^ 31 <= x < 2 ^ 31 -> INT x = x.
Proof. intros H. unfold INT. rewrite Z.mod_small; lia. Qed.

Lemma DWORD_small (x : Z) : 0 <= x < 2 ^ 32 -> DWORD x = x.
Proof. intros H. unfold DWORD. apply Z.mod_small. exact H. Qed.

Lemma SIZE_T_small32 cfg (x : Z) : 0 <= x < 2 ^ 32 -> SIZE_T cfg x = x.
Proof.
  intros H. apply SIZE_T_small.
  destruct (ptr_bits_cases cfg) as [-> | ->]; lia.
Qed.

Lemma enum_calls_app (a b : list Event) :
  enum_calls (a ++ b) = enum_calls a ++ enum_calls b.
Proof.
  induction a as [|e a IH]; [reflexivity|].
  destruct e; cbn; rewrite ?IH; reflexivity.
Qed.

Lemma full_rounds_cons (j k : nat) :
  (j < k)%nat ->
  full_rounds j k
  = (4096 * Z.of_nat j, 4096 * Z.of_nat j) :: full_rounds (S j) k.
Proof.
  intros H. unfold full_rounds.
  replace (k - j)%nat with (S (k - S j)) by lia. reflexivity.
Qed.

Lemma full_rounds_nil (j : nat) : full_rounds j j = [].
Proof. unfold full_rounds. rewrite Nat.sub_diag. reflexivity. Qed.

(** One round of the loop entered with a capacity of [1024 * j] entries:
    the buffer grows to [1024 * (j + 1)] entries, and the loop goes round
    again exactly when EnumProcesses reports the buffer full. *)
Lemma get_pids_loop_step cfg os n (j : Z) s :
  0 <= j -> j + 1 < 2 ^ 20 ->
  get_pids_loop cfg os (S n) (1024 * j) s =
  let cb := 4096 * (j + 1) in
  let ok := os_alloc os (clock s) cb in
  let s1 := after_call s (EvAlloc cb ok) None in
  if ok then
    match os_proc_table os (S (clock s)) with
    | None =>
        Done None
          (with_pyerr
             (after_call s1 (EvEnumProcesses cb (-1))
                (Some (os_last_error os (S (clock s)))))
             (WindowsError (os_last_error os (S (clock s)))))
    | Some l =>
        let written := firstn (Z.to_nat (1024 * (j + 1))) l in
        let bytes := 4 * Z.of_nat (List.length written) in
        let s2 := after_call s1 (EvEnumProcesses cb bytes) None in
        if bytes =? cb then get_pids_loop cfg os n (1024 * (j + 1)) s2
        else Done (Some (written, Z.of_nat (List.length written))) s2
    end
  else Done None (with_pyerr s1 MemoryError).
Proof.
  intros Hj Hj'. cbn [get_pids_loop]. unfold sizeof_DWORD.
  assert (H1 : INT (1024 * j + 1024) = 1024 * (j + 1))
    by (rewrite INT_small; lia).
  assert (H3 : SIZE_T cfg (SIZE_T cfg (1024 * (j + 1)) * 4) = 4096 * (j + 1)).
  { rewrite (SIZE_T_small32 cfg (1024 * (j + 1))) by lia.
    rewrite SIZE_T_small32; lia. }
  rewrite H1, H3. rewrite (DWORD_small (4096 * (j + 1))) by lia.
  assert (H4 : 4096 * (j + 1) / 4 = 1024 * (j + 1)).
  { replace (4096 * (j + 1)) with (1024 * (j + 1) * 4) by lia.
    apply Z.div_mul. lia. }
  cbv zeta.
  unfold bind at 1. unfold malloc, syscall at 1.
  destruct (os_alloc os (clock s) (4096 * (j + 1))); [|reflexivity].
  cbn [negb]. unfold bind at 1. unfold EnumProcesses, syscall at 1.
  unfold sizeof_DWORD. cbn [clock after_call]. rewrite H4.
  destruct (os_proc_table os (S (clock s))) as [l|]; [|reflexivity].
  set (written := firstn (Z.to_nat (1024 * (j + 1))) l).
  destruct (4 * Z.of_nat (List.length written) =? 4096 * (j + 1));
    [reflexivity|].
  unfold ret. f_equal. f_equal. f_equal.
  assert (Hw : Z.of_nat (List.length written) <= 1024 * (j + 1)).
  { subst written. rewrite length_firstn. lia. }
  replace (4 * Z.of_nat (List.length written))
    with (Z.of_nat (List.length written) * 4) by lia.
  rewrite Z.div_mul by lia. apply DWORD_small. lia.
Qed.

Lemma get_pids_loop_rounds cfg os :
  table_bounded os ->
  forall n (j : nat) s procs count s',
    Z.of_nat j + 1 < 2 ^ 20 ->
    get_pids_loop cfg os n (1024 * Z.of_nat j) s
    = Done (Some (procs, count)) s' ->
    exists (k : nat) r new,
      (j < k)%nat
      /\ trace s' = trace s ++ new
      /\ enum_calls new = full_rounds (S j) k ++ [(4096 * Z.of_nat k, r)]
      /\ r <> 4096 * Z.of_nat k
      /\ count = r / sizeof_DWORD
      /\ count < 1024 * Z.of_nat k
      /\ count = Z.of_nat (List.length procs)
      /\ exists t, os_proc_table os t = Some procs.
Proof.
  intros Hbound n. induction n as [|n IH]; intros j s procs count s' Hj Hrun.
  - discriminate.
  - rewrite get_pids_loop_step in Hrun by lia. cbv zeta in Hrun.
    destruct (os_alloc os (clock s) (4096 * (Z.of_nat j + 1)));
      [|discriminate].
    destruct (os_proc_table os (S (clock s))) as [l|] eqn:Htab;
      [|discriminate].
    set (written := firstn (Z.to_nat (1024 * (Z.of_nat j + 1))) l) in *.
    assert (Hw : Z.of_nat (List.length written) <= 1024 * (Z.of_nat j + 1)).
    { subst written. rewrite length_firstn. lia. }
    assert (Hl : (List.length written <= List.length l)%nat).
    { subst written. rewrite length_firstn. lia. }
    pose proof (Hbound _ _ Htab) as Hsmall.
    destruct (4 * Z.of_nat (List.length written) =? 4096 * (Z.of_nat j + 1))
      eqn:Hfull.
    + apply Z.eqb_eq in Hfull.
      replace (1024 * (Z.of_nat j + 1)) with (1024 * Z.of_nat (S j)) in Hrun
        by lia.
      apply IH in Hrun; [|lia].
      destruct Hrun as (k & r & new & Hk & Htr & Hcalls & Hr & Hc & Hlt & Hp).
      exists k, r.
      exists ([EvAlloc (4096 * (Z.of_nat j + 1)) true;
               EvEnumProcesses (4096 * (Z.of_nat j + 1))
                 (4 * Z.of_nat (List.length written))] ++ new).
      split; [lia|]. split.
      { rewrite Htr. cbn [trace after_call].
        rewrite <- !app_assoc. reflexivity. }
      split.
      { cbn [app enum_calls]. rewrite Hcalls.
        rewrite (full_rounds_cons (S j) k) by lia.
        rewrite Hfull. cbn [app].
        replace (4096 * Z.of_nat (S j)) with (4096 * (Z.of_nat j + 1)) by lia.
        reflexivity. }
      auto.
    + apply Z.eqb_neq in Hfull. injection Hrun as <- <- <-.
      exists (S j), (4 * Z.of_nat (List.length written)).
      exists [EvAlloc (4096 * (Z.of_nat j + 1)) true;
              EvEnumProcesses (4096 * (Z.of_nat j + 1))
                (4 * Z.of_nat (List.length written))].
      split; [lia|]. split.
      { cbn [trace after_call]. rewrite <- !app_assoc. reflexivity. }
      split.
      { rewrite full_rounds_nil. cbn [app enum_calls].
        replace (Z.of_nat (S j)) with (Z.of_nat j + 1) by lia.
        reflexivity. }
      split; [lia|]. split.
      { unfold sizeof_DWORD.
        replace (4 * Z.of_nat (List.length written))
          with (Z.of_nat (List.length written) * 4) by lia.
        rewrite Z.div_mul; lia. }
      split; [lia|]. split; [reflexivity|].
      exists (S (clock s)). rewrite Htab. f_equal. symmetry.
      subst written. apply firstn_all2.
      rewrite length_firstn in Hw, Hfull. lia.
Qed.

Lemma get_pids_loop_terminates cfg os :
  table_bounded os ->
  forall n (j : nat) s,
    Z.of_nat j + 1 < 2 ^ 20 ->
    2 ^ 20 <= Z.of_nat n + Z.of_nat j + 1 ->
    exists r s', get_pids_loop cfg os n (1024 * Z.of_nat j) s = Done r s'.
Proof.
  intros Hbound n. induction n as [|n IH]; intros j s Hj Hn.
  - lia.
  - rewrite get_pids_loop_step by lia. cbv zeta.
    destruct (os_alloc os (clock s) (4096 * (Z.of_nat j + 1)));
      [|eexists _, _; reflexivity].
    destruct (os_proc_table os (S (clock s))) as [l|] eqn:Htab;
      [|eexists _, _; reflexivity].
    set (written := firstn (Z.to_nat (1024 * (Z.of_nat j + 1))) l) in *.
    assert (Hl : (List.length written <= List.length l)%nat).
    { subst written. rewrite length_firstn. lia. }
    apply Hbound in Htab.
    destruct (4 * Z.of_nat (List.length written) =? 4096 * (Z.of_nat j + 1))
      eqn:Hfull; [|eexists _, _; reflexivity].
    apply Z.eqb_eq in Hfull.
    replace (1024 * (Z.of_nat j + 1)) with (1024 * Z.of_nat (S j)) by lia.
    apply IH; lia.
Qed.

Lemma rounds_full_nil (j : nat) : rounds_full j j = [].
Proof. unfold rounds_full. rewrite Nat.sub_diag. reflexivity. Qed.

Lemma rounds_full_cons (j k : nat) :
  (j < k)%nat -> rounds_full j k = round_full j ++ rounds_full (S j) k.
Proof.
  intros H. unfold rounds_full.
  replace (k - j)%nat with (S (k - S j)) by lia. reflexivity.
Qed.

(** Every run of the loop entered before round [j + 1]: rounds
    [j + 1], ..., [k - 1] were full, round [k] is the last. *)
Lemma get_pids_loop_runs cfg os :
  table_bounded os ->
  forall n (j : nat) s r s',
    Z.of_nat j + 1 < 2 ^ 20 ->
    get_pids_loop cfg os n (1024 * Z.of_nat j) s = Done r s' ->
    exists (k : nat) last,
      (j < k)%nat /\ (k <= j + n)%nat
      /\ trace s' = trace s ++ rounds_full (S j) k ++ last
      /\ last_round os (clock s) j k last r (pyerr s) (pyerr s').
Proof.
  intros Hbound n. induction n as [|n IH]; intros j s r s' Hj Hrun.
  - discriminate.
  - rewrite get_pids_loop_step in Hrun by lia. cbv zeta in Hrun.
    replace (4096 * (Z.of_nat j + 1)) with (4096 * Z.of_nat (S j)) in Hrun
      by lia.
    assert (Ht : (clock s + 2 * (S j - j - 1) = clock s)%nat) by lia.
    destruct (os_alloc os (clock s) (4096 * Z.of_nat (S j))) eqn:Halloc.
    2:{ injection Hrun as <- <-.
        exists (S j), [EvAlloc (4096 * Z.of_nat (S j)) false].
        split; [lia|]. split; [lia|]. split.
        - rewrite rounds_full_nil. reflexivity.
        - left. unfold last_round. rewrite Ht. repeat split. exact Halloc. }
    destruct (os_proc_table os (S (clock s))) as [l|] eqn:Htab.
    2:{ injection Hrun as <- <-.
        exists (S j),
          [EvAlloc (4096 * Z.of_nat (S j)) true;
           EvEnumProcesses (4096 * Z.of_nat (S j)) (-1)].
        split; [lia|]. split; [lia|]. split.
        - rewrite rounds_full_nil. cbn [trace after_call with_pyerr app].
          rewrite <- app_assoc. reflexivity.
        - right. left. rewrite Ht. repeat split; assumption. }
    set (written := firstn (Z.to_nat (1024 * (Z.of_nat j + 1))) l) in *.
    assert (Hw : Z.of_nat (List.length written) <= 1024 * (Z.of_nat j + 1)).
    { subst written. rewrite length_firstn. lia. }
    assert (Hl : (List.length written <= List.length l)%nat).
    { subst written. rewrite length_firstn. lia. }
    pose proof (Hbound _ _ Htab) as Hsmall.
    destruct (4 * Z.of_nat (List.length written) =? 4096 * Z.of_nat (S j))
      eqn:Hfull.
    + apply Z.eqb_eq in Hfull.
      replace (1024 * (Z.of_nat j + 1)) with (1024 * Z.of_nat (S j)) in Hrun
        by lia.
      apply IH in Hrun; [|lia].
      destruct Hrun as (k & last & Hk & Hkn & Htr & Hlast).
      exists k, last. split; [lia|]. split; [lia|]. split.
      * rewrite Htr. cbn [trace after_call].
        rewrite (rounds_full_cons (S j) k) by lia. unfold round_full.
        rewrite Hfull. cbn [app]. rewrite <- !app_assoc. reflexivity.
      * cbn [clock pyerr after_call] in Hlast. unfold last_round in *.
        replace (clock s + 2 * (k - j - 1))%nat
          with (S (S (clock s)) + 2 * (k - S j - 1))%nat by lia.
        exact Hlast.
    + apply Z.eqb_neq in Hfull. injection Hrun as <- <-.
      assert (Hall : written = l).
      { subst written. apply firstn_all2.
        rewrite length_firstn in Hw, Hfull. lia. }
      exists (S j),
        [EvAlloc (4096 * Z.of_nat (S j)) true;
         EvEnumProcesses (4096 * Z.of_nat (S j))
           (4 * Z.of_nat (List.length written))].
      split; [lia|]. split; [lia|]. split.
      * rewrite rounds_full_nil. cbn [trace after_call app].
        rewrite <- app_assoc. reflexivity.
      * right. right. unfold last_round. rewrite Ht.
        exists l, (4 * Z.of_nat (List.length l)). rewrite Hall in *.
        unfold sizeof_DWORD.
        assert (Hdiv : 4 * Z.of_nat (List.length l) / 4
                       = Z.of_nat (List.length l)).
        { replace (4 * Z.of_nat (List.length l))
            with (Z.of_nat (List.length l) * 4) by lia.
          apply Z.div_mul. lia. }
        rewrite Hdiv. repeat split; try assumption; try reflexivity. lia.
Qed.

(** C6: in psutil_get_pids, with fewer than 2^30 - 1024 live processes,
    every run is a sequence of rounds 1, 2, ..., k.  Round j allocates a
    buffer of 1024 * j entries (4096 * j bytes) and passes it with that
    byte size to EnumProcesses.  The rounds before the last are exactly
    those whose allocation succeeded and in which EnumProcesses returned
    as many bytes as the buffer holds.  The last round is one in which the
    allocator refused (MemoryError), or EnumProcesses failed
    (WindowsError), or EnumProcesses returned a byte count other than the
    size of the buffer: then the count reported is that byte count divided
    by the size of an entry, it is strictly below the capacity 1024 * k of
    the last buffer, and the array is the whole process table as it was at
    that call, the exception state untouched.  With 2^20 rounds allowed the
    loop always ends. *)
Theorem get_pids_growth :
  forall cfg os fuel st,
    table_bounded os ->
    (forall r st',
        psutil_get_pids cfg os fuel st = Done r st' ->
        exists (k : nat) last,
          (1 <= k <= fuel)%nat
          /\ trace st' = trace st ++ rounds_full 1 k ++ last
          /\ last_round os (clock st) 0 k last r (pyerr st) (pyerr st'))
    /\ (2 ^ 20 <= Z.of_nat fuel ->
        exists r st', psutil_get_pids cfg os fuel st = Done r st').
Proof.
  intros cfg os fuel st Hbound. split.
  - intros r st' Hrun.
    destruct (get_pids_loop_runs cfg os Hbound fuel 0 st r st')
      as (k & last & Hk & Hkn & Htr & Hlast); [lia | exact Hrun |].
    exists k, last. split; [lia|]. split; [exact Htr | exact Hlast].
  - intros Hfuel.
    apply (get_pids_loop_terminates cfg os Hbound fuel 0 st); lia.
Qed.

Lemma table_bounded_crowded : table_bounded os_crowded.
Proof.
  intros t l H.
  apply (f_equal (fun o => match o with
                           | Some x => Z.of_nat (List.length x)
                           | None => 0
                           end)) in H.
  rewrite <- H. vm_compute. reflexivity.
Defined.

Lemma get_pids_growth_witness :
  (exists r st' (k : nat) last,
      psutil_get_pids (build32 false) os_crowded 5 initial_state = Done r st'
      /\ (1 <= k <= 5)%nat
      /\ trace st' = trace initial_state ++ rounds_full 1 k ++ last
      /\ last_round os_crowded (clock initial_state) 0 k last r
           (pyerr initial_state) (pyerr st'))
  /\ (exists r st',
        psutil_get_pids (build32 false) os_crowded (Z.to_nat (2 ^ 20))
          initial_state = Done r st').
Proof.
  split.
  - eexists _, _.
    assert (Hrun : psutil_get_pids (build32 false) os_crowded 5
                     initial_state = Done _ _) by (vm_compute; reflexivity).
    destruct (proj1 (get_pids_growth (build32 false) os_crowded 5
                       initial_state table_bounded_crowded) _ _ Hrun)
      as (k & last & Hprop).
    exists k, last. split; [exact Hrun | exact Hprop].
  - refine (proj2 (get_pids_growth (build32 false) os_crowded
                     (Z.to_nat (2 ^ 20)) initial_state table_bounded_crowded)
              _).
    rewrite Z2Nat.id; lia.
Defined.

(** ** The snapshot of all processes *)











(** ** Handle ownership without PSUTIL_TESTING *)

Lemma handle_events_app (a b : list Event) :
  handle_events (a ++ b) = handle_events a ++ handle_events b.
Proof. apply filter_app. Qed.

Lemma quiet_ret {A} (a : A) : quiet (ret a).
Proof.
  intros s a' s' H. injection H as <- <-.
  exists []. rewrite app_nil_r. split; reflexivity.
Qed.

Lemma quiet_bind {A B} (c : M A) (k : A -> M B) :
  quiet c -> (forall a, quiet (k a)) -> quiet (bind c k).
Proof.
  intros Hc Hk s b s' H. unfold bind in H.
  destruct (c s) as [a s1|] eqn:E; [|discriminate].
  apply Hc in E. destruct E as (n1 & H1 & Q1).
  apply Hk in H. destruct H as (n2 & H2 & Q2).
  exists (n1 ++ n2). split.
  - rewrite H2, H1, app_assoc. reflexivity.
  - rewrite handle_events_app, Q1, Q2. reflexivity.
Qed.

Lemma quiet_syscall os {A} (f : nat -> A) failed ev :
  (forall r, is_handle_event (ev r) = false) ->
  quiet (syscall os f failed ev).
Proof.
  intros Hev s a s' H. unfold syscall in H. injection H as <- <-.
  eexists. split; [reflexivity|].
  unfold handle_events. cbn [filter]. rewrite Hev. reflexivity.
Qed.

Lemma quiet_state {A} (c : M A) :
  (forall s a s', c s = Done a s' -> trace s' = trace s) -> quiet c.
Proof.
  intros Hc s a s' H. apply Hc in H.
  exists []. rewrite app_nil_r. split; [exact H | reflexivity].
Qed.

Lemma quiet_set_pyerr e : quiet (set_pyerr e).
Proof. apply quiet_state. intros s a s' H. injection H as _ <-. reflexivity. Qed.

Lemma quiet_abort {A} u : quiet (@abort A u).
Proof. intros s a s' H. discriminate. Qed.

Create HintDb quiet_db.

Ltac quiet_step :=
  match goal with
  | |- quiet _ => solve [auto 1 with quiet_db nocore]
  | |- quiet (bind _ _) => apply quiet_bind; [|intros ?]
  | |- quiet (ret _) => apply quiet_ret
  | |- quiet (abort _) => apply quiet_abort
  | |- quiet (set_pyerr _) => apply quiet_set_pyerr
  | |- quiet (syscall _ _ _ _) =>
      apply quiet_syscall; intros r;
      first [reflexivity
            | destruct r; first [reflexivity
                                | match goal with
                                  | p : (_ * _)%type |- _ => destruct p
                                  end; reflexivity]]
  | |- quiet (match ?x with _ => _ end) => destruct x
  | |- quiet (let '(_, _) := ?x in _) => destruct x
  | |- quiet _ =>
      apply quiet_state; intros ? ? ? HQ; injection HQ as _ <-; reflexivity
  end.

Ltac quiet_auto := repeat quiet_step.

Lemma quiet_PyErr_SetFromWindowsErr e : quiet (PyErr_SetFromWindowsErr e).
Proof. quiet_auto. Qed.

Lemma quiet_get_pids_loop cfg os n : forall cap, quiet (get_pids_loop cfg os n cap).
Proof.
  induction n as [|n IH]; intros cap; cbn [get_pids_loop].
  - apply quiet_abort.
  - unfold malloc, EnumProcesses, PyErr_NoMemory.
    repeat first [apply IH | apply quiet_PyErr_SetFromWindowsErr | quiet_step].
Qed.

Lemma quiet_pid_in_pids cfg os fuel pid :
  quiet (psutil_pid_in_pids cfg os fuel pid).
Proof.
  unfold psutil_pid_in_pids, psutil_get_pids.
  apply quiet_bind; [apply quiet_get_pids_loop|].
  intros [[l n]|]; apply quiet_ret.
Qed.

#[local] Hint Resolve quiet_PyErr_SetFromWindowsErr quiet_pid_in_pids
  : quiet_db.

Lemma quiet_assert_pid_exists cfg os fuel pid err :
  quiet (psutil_assert_pid_exists cfg os fuel pid err).
Proof. unfold psutil_assert_pid_exists. quiet_auto. Qed.

Lemma quiet_assert_pid_not_exists cfg os fuel pid err :
  quiet (psutil_assert_pid_not_exists cfg os fuel pid err).
Proof. unfold psutil_assert_pid_not_exists. quiet_auto. Qed.

Lemma quiet_GetProcAddress os lib name :
  quiet (psutil_GetProcAddress os lib name).
Proof.
  unfold psutil_GetProcAddress, GetModuleHandleA, GetProcAddress,
    PyErr_SetFromWindowsErrWithFilename.
  quiet_auto.
Qed.

Lemma quiet_GetProcAddressFromLib os lib name :
  quiet (psutil_GetProcAddressFromLib os lib name).
Proof.
  unfold psutil_GetProcAddressFromLib, LoadLibraryA, GetProcAddress,
    FreeLibrary, PyErr_SetFromWindowsErrWithFilename.
  quiet_auto.
Qed.

#[local] Hint Resolve quiet_assert_pid_exists quiet_assert_pid_not_exists
  quiet_GetProcAddress quiet_GetProcAddressFromLib : quiet_db.

Lemma quiet_walk_control_block os kind wide ptr h ppeb :
  quiet (walk_control_block os kind wide ptr h ppeb).
Proof.
  unfold walk_control_block, read_peb, read_params, select_field,
    indeterminate.
  quiet_auto.
Qed.

#[local] Hint Resolve quiet_walk_control_block : quiet_db.

Lemma quiet_locate_field cfg os kind h : quiet (locate_field cfg os kind h).
Proof.
  unfold locate_field, locate_native, locate_wow64_to_64, resolve_static,
    NtQueryInformationProcess_Wow64Information,
    NtQueryInformationProcess_BasicInformation,
    NtWow64QueryInformationProcess64, IsWow64Process,
    get_static_Query64, get_static_Read64, set_static_Query64,
    set_static_Read64, raise_AccessDenied.
  quiet_auto.
Qed.

Lemma quiet_environ_size cfg os kind narrower h src size :
  quiet (environ_size cfg os kind narrower h src size).
Proof.
  unfold environ_size, psutil_get_process_region_size, VirtualQueryEx,
    raise_AccessDenied.
  quiet_auto.
Qed.

Lemma quiet_copy_field cfg os narrower h src size :
  quiet (copy_field cfg os narrower h src size).
Proof.
  unfold copy_field, calloc, malloc, read_into, PyErr_NoMemory.
  destruct narrower; quiet_auto.
Qed.

#[local] Hint Resolve quiet_locate_field quiet_environ_size quiet_copy_field
  : quiet_db.

Ltac by_quiet H :=
  match type of H with
  | ?k ?s1 = Done _ _ =>
      let Hk := fresh "Hk" in
      assert (Hk : quiet k) by quiet_auto;
      apply Hk in H; clear Hk;
      let new := fresh "new" in
      let Htr := fresh "Htr" in
      let Hq := fresh "Hq" in
      destruct H as (new & Htr & Hq)
  end.

(** X4: psutil_pid_is_running leaves no handle open, with or without
    PSUTIL_TESTING. *)
Lemma pid_is_running_releases cfg os fuel pid s r s' :
  psutil_pid_is_running cfg os fuel pid s = Done r s' ->
  exists new,
    trace s' = trace s ++ new
    /\ released query_access pid (handle_events new).
Proof.
  intros H. unfold psutil_pid_is_running in H.
  destruct (pid =? 0).
  { by_quiet H. exists new. split; [exact Htr|]. left. exact Hq. }
  destruct (pid <? 0).
  { by_quiet H. exists new. split; [exact Htr|]. left. exact Hq. }
  unfold bind at 1 in H. unfold OpenProcess, syscall in H.
  fold query_access in H. cbv zeta in H.
  set (h := os_OpenProcess os (clock s) query_access pid) in *.
  destruct (NULL =? h) eqn:Eh.
  - apply Z.eqb_eq in Eh. rewrite <- Eh in *.
    unfold GetLastError in H. by_quiet H.
    exists ([EvOpenProcess query_access pid NULL] ++ new). split.
    + rewrite Htr. cbn [trace after_call]. rewrite <- app_assoc. reflexivity.
    + rewrite handle_events_app, Hq. right. left. reflexivity.
  - apply Z.eqb_neq in Eh.
    unfold bind at 1 in H. unfold GetExitCodeProcess, syscall in H.
    cbv zeta in H. cbn [clock after_call] in H.
    assert (Hdone : forall (k : M Z) s0 evs,
              trace s0 = trace s ++ evs ->
              handle_events evs
              = [EvOpenProcess query_access pid h; EvCloseHandle h] ->
              quiet k -> k s0 = Done r s' ->
              exists new,
                trace s' = trace s ++ new
                /\ released query_access pid (handle_events new)).
    { intros k s0 evs Hs0 Hevs Hk Hrun. apply Hk in Hrun.
      destruct Hrun as (new & Htr & Hq).
      exists (evs ++ new). split.
      - rewrite Htr, Hs0. rewrite <- !app_assoc. reflexivity.
      - rewrite handle_events_app, Hq, Hevs. right. right.
        exists h. split; [congruence | reflexivity]. }
    destruct (os_GetExitCodeProcess os (S (clock s)) h) as [code|].
    + unfold bind at 1 in H. unfold CloseHandle, syscall in H.
      cbv zeta in H.
      match type of H with
      | ?k ?s0 = Done _ _ =>
          apply (Hdone k s0
                   [EvOpenProcess query_access pid h;
                    EvGetExitCodeProcess h true (DWORD code);
                    EvCloseHandle h])
      end; [| reflexivity | quiet_auto | exact H].
      cbn [trace after_call]. rewrite <- !app_assoc. reflexivity.
    + unfold bind at 1 in H. unfold GetLastError in H.
      unfold bind at 1 in H. unfold CloseHandle, syscall in H.
      cbv zeta in H.
      match type of H with
      | ?k ?s0 = Done _ _ =>
          apply (Hdone k s0
                   [EvOpenProcess query_access pid h;
                    EvGetExitCodeProcess h false 0;
                    EvCloseHandle h])
      end; [| reflexivity | quiet_auto | exact H].
      cbn [trace after_call]. rewrite <- !app_assoc. reflexivity.
Qed.

(** Without PSUTIL_TESTING, psutil_is_phandle_running answers 1 and
    leaves the handle alone, or answers otherwise after closing it (there
    is nothing to close when it is NULL). *)
Lemma is_phandle_running_closes cfg os fuel h pid s r s' :
  PSUTIL_TESTING cfg = false ->
  psutil_is_phandle_running cfg os fuel h pid s = Done r s' ->
  exists new,
    trace s' = trace s ++ new
    /\ ((h = NULL /\ r <> 1 /\ handle_events new = [])
        \/ (h <> NULL /\ r = 1 /\ handle_events new = [])
        \/ (h <> NULL /\ r <> 1 /\ handle_events new = [EvCloseHandle h])).
Proof.
  intros Ht H.
  unfold psutil_is_phandle_running, psutil_assert_pid_exists,
    psutil_assert_pid_not_exists in H.
  rewrite Ht in H.
  destruct (h =? NULL) eqn:Eh.
  - apply Z.eqb_eq in Eh.
    unfold bind, GetLastError, ret in H.
    change (1 =? 0) with false in H.
    exists []. rewrite app_nil_r.
    destruct (last_error s =? ERROR_INVALID_PARAMETER);
      injection H as <- <-; (split; [reflexivity|]); left;
      repeat split; try assumption; discriminate.
  - apply Z.eqb_neq in Eh.
    unfold bind at 1 in H. unfold GetExitCodeProcess, syscall in H.
    cbv zeta in H.
    destruct (os_GetExitCodeProcess os (clock s) h) as [code|].
    + destruct (DWORD code =? STILL_ACTIVE).
      * unfold bind, ret in H. change (1 =? 0) with false in H.
        injection H as <- <-. eexists. split; [reflexivity|].
        right. left. repeat split; assumption.
      * unfold bind at 1 in H.
        destruct (psutil_pid_in_pids cfg os fuel pid _) as [p s1|] eqn:Ep;
          [|discriminate].
        apply quiet_pid_in_pids in Ep. destruct Ep as (n1 & Htr1 & Hq1).
        cbn [trace after_call] in Htr1.
        destruct (p =? 1).
        -- injection H as <- <-. eexists. split.
           ++ rewrite Htr1, <- app_assoc. reflexivity.
           ++ right. left. rewrite handle_events_app, Hq1.
              repeat split; assumption.
        -- unfold bind, CloseHandle, syscall, ret in H.
           injection H as <- <-. eexists. split.
           ++ cbn [trace after_call]. rewrite Htr1, <- !app_assoc.
              reflexivity.
           ++ right. right. rewrite !handle_events_app, Hq1.
              repeat split; [assumption | discriminate].
    + unfold bind, CloseHandle, syscall, ret in H.
      change (1 =? 0) with false in H.
      injection H as <- <-. eexists. split.
      * cbn [trace after_call]. rewrite <- !app_assoc. reflexivity.
      * right. right. repeat split; [assumption | discriminate].
Qed.

(** Without PSUTIL_TESTING, psutil_handle_from_pid either returns the
    handle it opened, still open, or returns NULL with no handle left
    open. *)
Lemma handle_from_pid_owns cfg os fuel pid access s r s' :
  PSUTIL_TESTING cfg = false ->
  psutil_handle_from_pid cfg os fuel pid access s = Done r s' ->
  exists new,
    trace s' = trace s ++ new
    /\ ((r = NULL /\ released access pid (handle_events new))
        \/ (r <> NULL /\ handle_events new = [EvOpenProcess access pid r])).
Proof.
  intros Ht H. unfold psutil_handle_from_pid in H.
  destruct (pid =? 0).
  { unfold raise_AccessDenied, bind, set_pyerr, ret in H.
    injection H as <- <-. exists []. rewrite app_nil_r.
    split; [reflexivity|]. left. split; [reflexivity | left; reflexivity]. }
  unfold bind at 1 in H. unfold OpenProcess, syscall in H. cbv zeta in H.
  set (h := os_OpenProcess os (clock s) access pid) in *.
  unfold psutil_check_phandle in H. unfold bind at 1 in H.
  destruct (psutil_is_phandle_running cfg os fuel h pid _) as [x s1|] eqn:Ex;
    [|discriminate].
  apply (is_phandle_running_closes _ _ _ _ _ _ _ _ Ht) in Ex.
  destruct Ex as (n1 & Htr1 & Hcase). cbn [trace after_call] in Htr1.
  assert (Hnull : x <> 1 -> r = NULL /\ trace s' = trace s1).
  { intros Hx. apply Z.eqb_neq in Hx. rewrite Hx in H.
    unfold raise_NoSuchProcess, PyErr_SetFromWindowsErr, bind, set_pyerr,
      ret in H.
    destruct (x =? 0); [injection H as <- <-; split; reflexivity|].
    destruct (x =? -1); injection H as <- <-; split; reflexivity. }
  destruct Hcase as [(Hh & Hx & Hq) | [(Hh & Hx & Hq) | (Hh & Hx & Hq)]].
  - destruct (Hnull Hx) as (-> & Htr).
    exists ([EvOpenProcess access pid h] ++ n1). split.
    + rewrite Htr, Htr1, <- app_assoc. reflexivity.
    + left. split; [reflexivity|].
      rewrite handle_events_app, Hq, Hh. right. left. reflexivity.
  - subst x. change (1 =? 1) with true in H. injection H as <- <-.
    exists ([EvOpenProcess access pid h] ++ n1). split.
    + rewrite Htr1, <- app_assoc. reflexivity.
    + right. split; [assumption|].
      rewrite handle_events_app, Hq. reflexivity.
  - destruct (Hnull Hx) as (-> & Htr).
    exists ([EvOpenProcess access pid h] ++ n1). split.
    + rewrite Htr, Htr1, <- app_assoc. reflexivity.
    + left. split; [reflexivity|].
      rewrite handle_events_app, Hq. right. right.
      exists h. split; [assumption | reflexivity].
Qed.

(** X9: Without PSUTIL_TESTING, psutil_get_process_data leaves no handle
    open, whether it succeeds or fails. *)
Lemma get_process_data_releases cfg os fuel pid kind s r s' :
  PSUTIL_TESTING cfg = false ->
  psutil_get_process_data cfg os fuel pid kind s = Done r s' ->
  exists new,
    trace s' = trace s ++ new
    /\ released query_access pid (handle_events new).
Proof.
  intros Ht H. unfold psutil_get_process_data in H. cbv zeta in H.
  fold query_access in H.
  unfold bind at 1 in H.
  destruct (psutil_GetProcAddress os _ _ s) as [p s1|] eqn:Ep;
    [|discriminate].
  apply quiet_GetProcAddress in Ep. destruct Ep as (n1 & Htr1 & Hq1).
  destruct (p =? NULL).
  { injection H as _ <-. exists n1. split; [exact Htr1|].
    left. exact Hq1. }
  unfold bind at 1 in H.
  destruct (psutil_handle_from_pid cfg os fuel pid query_access s1)
    as [h s2|] eqn:Eh; [|discriminate].
  apply (handle_from_pid_owns _ _ _ _ _ _ _ _ Ht) in Eh.
  destruct Eh as (n2 & Htr2 & Hcase).
  destruct (h =? NULL) eqn:Enull.
  { apply Z.eqb_eq in Enull. injection H as _ <-.
    exists (n1 ++ n2). split.
    - rewrite Htr2, Htr1, app_assoc. reflexivity.
    - rewrite handle_events_app, Hq1.
      destruct Hcase as [(_ & Hrel) | (Hne & _)];
        [exact Hrel | contradiction]. }
  apply Z.eqb_neq in Enull.
  destruct Hcase as [(Hnull & _) | (_ & Hq2)]; [contradiction|].
  assert (Hclose : forall s3 x n3,
            trace s3 = trace s2 ++ n3 -> handle_events n3 = [] ->
            Done x (after_call s3 (EvCloseHandle h) None) = Done r s' ->
            exists new,
              trace s' = trace s ++ new
              /\ released query_access pid (handle_events new)).
  { intros s3 x n3 Htr3 Hq3 Hend. injection Hend as _ <-.
    exists (n1 ++ n2 ++ n3 ++ [EvCloseHandle h]). split.
    - cbn [trace after_call]. rewrite Htr3, Htr2, Htr1, <- !app_assoc.
      reflexivity.
    - rewrite !handle_events_app, Hq1, Hq2, Hq3. right. right.
      exists h. split; [assumption | reflexivity]. }
  unfold get_process_data_from_handle in H. unfold bind at 1 in H.
  destruct (locate_field cfg os kind h s2) as [loc s3|] eqn:El;
    [|discriminate].
  apply quiet_locate_field in El. destruct El as (n3 & Htr3 & Hq3).
  destruct loc as [[[narrower src] size]|].
  2:{ rewrite process_data_error_closes in H by assumption.
      eapply (Hclose s3); eassumption. }
  unfold bind at 1 in H.
  destruct (environ_size cfg os kind narrower h src size s3) as [sz s4|]
    eqn:Ee; [|discriminate].
  apply quiet_environ_size in Ee. destruct Ee as (n4 & Htr4 & Hq4).
  assert (Htr34 : trace s4 = trace s2 ++ (n3 ++ n4))
    by (rewrite Htr4, Htr3; symmetry; apply app_assoc).
  assert (Hq34 : handle_events (n3 ++ n4) = [])
    by (rewrite handle_events_app, Hq3, Hq4; reflexivity).
  destruct sz as [size'|].
  2:{ rewrite process_data_error_closes in H by assumption.
      eapply (Hclose s4); eassumption. }
  unfold bind at 1 in H.
  destruct (copy_field cfg os narrower h src size' s4) as [b s5|] eqn:Ec;
    [|discriminate].
  apply quiet_copy_field in Ec. destruct Ec as (n5 & Htr5 & Hq5).
  assert (Htr345 : trace s5 = trace s2 ++ ((n3 ++ n4) ++ n5))
    by (rewrite Htr5, Htr34; symmetry; apply app_assoc).
  assert (Hq345 : handle_events ((n3 ++ n4) ++ n5) = [])
    by (rewrite handle_events_app, Hq34, Hq5; reflexivity).
  destruct b as [buffer|].
  2:{ rewrite process_data_error_closes in H by assumption.
      eapply (Hclose s5); eassumption. }
  unfold bind, CloseHandle, syscall, ret in H.
  eapply (Hclose s5); eassumption.
Qed.

(** X15: Without PSUTIL_TESTING, psutil_get_cmdline_data either leaves no
    handle open, or, on the two exits taken before hProcess is assigned,
    passes the content of the unassigned variable to CloseHandle when it
    is not zero. *)
Lemma get_cmdline_data_handles cfg os fuel pid s r s' :
  PSUTIL_TESTING cfg = false ->
  psutil_get_cmdline_data cfg os fuel pid s = Done r s' ->
  exists new,
    trace s' = trace s ++ new
    /\ (released PROCESS_QUERY_LIMITED_INFORMATION pid (handle_events new)
        \/ exists t, os_indeterminate os t <> NULL
                     /\ handle_events new
                        = [EvCloseHandle (os_indeterminate os t)]).
Proof.
  intros Ht H. unfold psutil_get_cmdline_data in H. cbv zeta in H.
  assert (Hearly : forall s1 n1 x,
            trace s1 = trace s ++ n1 -> handle_events n1 = [] ->
            @cmdline_data_error os (list Z * Z) None s1 = Done x s' ->
            exists new,
              trace s' = trace s ++ new
              /\ (released PROCESS_QUERY_LIMITED_INFORMATION pid
                    (handle_events new)
                  \/ exists t, os_indeterminate os t <> NULL
                               /\ handle_events new
                                  = [EvCloseHandle (os_indeterminate os t)])).
  { intros s1 n1 x Htr1 Hq1 Herr.
    unfold cmdline_data_error, read_local, indeterminate in Herr.
    unfold bind at 1 in Herr.
    destruct (os_indeterminate os (clock s1) =? NULL) eqn:Ej.
    - unfold bind, ret in Herr. cbn [negb] in Herr.
      injection Herr as _ <-. exists n1. split; [exact Htr1|].
      left. left. exact Hq1.
    - apply Z.eqb_neq in Ej.
      unfold bind, CloseHandle, syscall, ret in Herr. cbn [negb] in Herr.
      injection Herr as _ <-. eexists. split.
      + cbn [trace after_call]. rewrite Htr1, <- app_assoc. reflexivity.
      + right. exists (clock s1). split; [exact Ej|].
        rewrite handle_events_app, Hq1. reflexivity. }
  unfold bind at 1 in H.
  destruct (psutil_GetProcAddress os _ _ s) as [p s1|] eqn:Ep;
    [|discriminate].
  apply quiet_GetProcAddress in Ep. destruct Ep as (n1 & Htr1 & Hq1).
  destruct (p =? NULL); [eapply Hearly; eassumption|].
  unfold bind at 1 in H. unfold calloc, malloc in H.
  unfold bind at 1 in H. unfold syscall, ret in H. cbv zeta in H.
  destruct (os_alloc os (clock s1) 4096).
  2:{ unfold bind at 1 in H. unfold PyErr_NoMemory, set_pyerr in H.
      eapply (Hearly _ (n1 ++ [EvAlloc 4096 false])); [| |exact H].
      - cbn [trace after_call with_pyerr]. rewrite Htr1, <- app_assoc.
        reflexivity.
      - rewrite handle_events_app, Hq1. reflexivity. }
  unfold bind at 1 in H.
  destruct (psutil_handle_from_pid cfg os fuel pid _ _) as [h s2|] eqn:Eh;
    [|discriminate].
  apply (handle_from_pid_owns _ _ _ _ _ _ _ _ Ht) in Eh.
  destruct Eh as (n2 & Htr2 & Hcase). cbn [trace after_call] in Htr2.
  destruct (h =? NULL) eqn:Enull.
  { apply Z.eqb_eq in Enull. subst h.
    unfold cmdline_data_error, read_local, bind, ret in H.
    change (NULL =? NULL) with true in H. cbn [negb] in H.
    injection H as _ <-.
    exists (n1 ++ [EvAlloc 4096 true] ++ n2). split.
    - rewrite Htr2, Htr1, <- !app_assoc. reflexivity.
    - left. rewrite !handle_events_app, Hq1.
      destruct Hcase as [(_ & Hrel) | (Hne & _)];
        [exact Hrel | contradiction]. }
  destruct Hcase as [(Hnull & _) | (Hne & Hq2)];
    [rewrite Hnull in Enull; discriminate|].
  assert (Hclose : forall s3 x n3,
            trace s3 = trace s2 ++ n3 -> handle_events n3 = [] ->
            Done x (after_call s3 (EvCloseHandle h) None) = Done r s' ->
            exists new,
              trace s' = trace s ++ new
              /\ (released PROCESS_QUERY_LIMITED_INFORMATION pid
                    (handle_events new)
                  \/ exists t, os_indeterminate os t <> NULL
                               /\ handle_events new
                                  = [EvCloseHandle (os_indeterminate os t)])).
  { intros s3 x n3 Htr3 Hq3 Hend. injection Hend as _ <-.
    exists (n1 ++ [EvAlloc 4096 true] ++ n2 ++ n3 ++ [EvCloseHandle h]).
    split.
    - cbn [trace after_call]. rewrite Htr3, Htr2, Htr1, <- !app_assoc.
      reflexivity.
    - left. rewrite !handle_events_app, Hq1, Hq2, Hq3. right. right.
      exists h. split; [assumption | reflexivity]. }
  assert (Herr : forall s3,
            @cmdline_data_error os (list Z * Z) (Some h) s3
            = Done (-1, None) (after_call s3 (EvCloseHandle h) None)).
  { intros s3. unfold cmdline_data_error, read_local, bind, ret.
    rewrite Enull. reflexivity. }
  unfold bind at 1 in H.
  unfold NtQueryInformationProcess_CommandLine, syscall in H. cbv zeta in H.
  destruct (os_QueryCommandLine os (clock s2) h 4096) as [[status len] cmd].
  cbn [fst snd] in H.
  destruct (negb (NT_SUCCESS status)).
  { unfold bind at 1 in H. unfold PyErr_SetFromWindowsErr, set_pyerr in H.
    rewrite Herr in H.
    refine (Hclose _ _ [_] _ _ H); reflexivity. }
  destruct (until_nul cmd) as [str|]; [|discriminate].
  unfold bind at 1 in H. unfold malloc, syscall in H. cbv zeta in H.
  destruct (os_alloc os _ _).
  - unfold bind, CloseHandle, syscall, ret in H. cbn [negb] in H.
    refine (Hclose _ _ [_; _] _ _ H);
      [cbn [trace after_call with_pyerr]; rewrite <- app_assoc; reflexivity
      | reflexivity].
  - cbn [negb] in H. unfold bind at 1 in H.
    unfold PyErr_NoMemory, set_pyerr in H.
    rewrite Herr in H.
    refine (Hclose _ _ [_; _] _ _ H);
      [cbn [trace after_call with_pyerr]; rewrite <- app_assoc; reflexivity
      | reflexivity].
Qed.

(** ** Termination of the copied string *)

Lemma wcslen_terminated (k : nat) :
  forall data : list byte,
    List.length data = (2 * k)%nat ->
    exists n, wcslen (data ++ [x00; x00]) = Some n /\ (n <= k)%nat.
Proof.
  induction k as [|k IH]; intros data Hlen.
  - destruct data; [|discriminate]. exists O. split; [reflexivity | lia].
  - destruct data as [|b0 [|b1 rest]]; try (cbn in Hlen; lia).
    cbn [app wcslen].
    destruct (Byte.eqb b0 x00 && Byte.eqb b1 x00)%bool.
    + exists O. split; [reflexivity | lia].
    + destruct (IH rest) as (n & -> & Hn); [cbn in Hlen; lia|].
      exists (S n). split; [reflexivity | lia].
Qed.

Lemma sized_bind {A B} (c : M A) (k : A -> M (option (B * Z))) :
  (forall a, sized (k a)) -> sized (bind c k).
Proof.
  intros Hk s b size s' H. unfold bind in H.
  destruct (c s) as [a s1|]; [|discriminate].
  apply (Hk a s1 b size s' H).
Qed.

Lemma sized_ret_None {B} : sized (@ret (option (B * Z)) None).
Proof. intros s b size s' H. discriminate. Qed.

Lemma sized_select_field os kind ptr pp :
  kind <> KIND_ENVIRON ->
  sized (bind (select_field os kind ptr pp) (fun r => ret (Some r))).
Proof.
  intros Hk s a size s' H.
  destruct kind; [| |congruence]; cbn in H; injection H as _ <- _;
    apply USHORT_range.
Qed.

Lemma sized_walk_control_block os kind wide ptr h ppeb :
  kind <> KIND_ENVIRON ->
  sized (walk_control_block os kind wide ptr h ppeb).
Proof.
  intros Hk. unfold walk_control_block.
  apply sized_bind. intros [pp|]; [|apply sized_bind; intros; apply sized_ret_None].
  apply sized_bind. intros [p|]; [|apply sized_bind; intros; apply sized_ret_None].
  apply sized_select_field. exact Hk.
Qed.

Lemma sized_locate_native cfg os kind h :
  kind <> KIND_ENVIRON -> sized (locate_native cfg os kind h).
Proof.
  intros Hk. unfold locate_native. apply sized_bind. intros r.
  destruct (negb _); [apply sized_bind; intros; apply sized_ret_None|].
  apply sized_walk_control_block. exact Hk.
Qed.

Lemma sized_locate_wow64_to_64 os kind h :
  kind <> KIND_ENVIRON -> sized (locate_wow64_to_64 os kind h).
Proof.
  intros Hk. unfold locate_wow64_to_64. apply sized_bind. intros q.
  destruct (q =? NULL); [apply sized_bind; intros; apply sized_ret_None|].
  apply sized_bind. intros rd.
  destruct (rd =? NULL); [apply sized_bind; intros; apply sized_ret_None|].
  apply sized_bind. intros r.
  destruct (negb _); [apply sized_bind; intros; apply sized_ret_None|].
  apply sized_walk_control_block. exact Hk.
Qed.

Lemma locate_field_size cfg os kind h s narrower src size s' :
  kind <> KIND_ENVIRON ->
  locate_field cfg os kind h s = Done (Some (narrower, src, size)) s' ->
  0 <= size < 2 ^ 16.
Proof.
  intros Hk H.
  assert (Hmap : forall (c : M (option (Z * Z))) flag s0,
            sized c ->
            bind c (fun f => ret (option_map
                                    (fun f => (flag, fst f, snd f)) f)) s0
            = Done (Some (narrower, src, size)) s' ->
            0 <= size < 2 ^ 16).
  { intros c flag s0 Hc Hrun. unfold bind, ret in Hrun.
    destruct (c s0) as [[[a z]|] s1|] eqn:E; try discriminate.
    cbn in Hrun. injection Hrun as _ _ <- _.
    apply (Hc s0 a z s1 E). }
  unfold locate_field in H.
  destruct (WIN64 cfg).
  - unfold bind at 1 in H.
    destruct (NtQueryInformationProcess_Wow64Information os h s)
      as [r s1|]; [|discriminate].
    destruct (negb (NT_SUCCESS (fst r))); [discriminate|].
    destruct (negb _); (eapply Hmap; [|exact H]).
    + apply sized_walk_control_block. exact Hk.
    + apply sized_locate_native. exact Hk.
  - unfold bind at 1 in H.
    destruct (IsWow64Process os (GetCurrentProcess os) s) as [[we|] s1|];
      try discriminate.
    unfold bind at 1 in H.
    destruct (IsWow64Process os h s1) as [[they|] s2|]; try discriminate.
    destruct (we && negb they)%bool; (eapply Hmap; [|exact H]).
    + apply sized_locate_wow64_to_64. exact Hk.
    + apply sized_locate_native. exact Hk.
Qed.

(** X10: For the command line and the current directory, a successful
    psutil_get_process_data returns the [size] bytes of the target
    followed by two zero bytes, with [size] below 2^16; when [size] is
    even the buffer holds a terminated string of 16-bit characters no
    longer than size / 2. *)
Lemma even_length_is_terminated cfg os fuel pid kind s buffer size s' :
  kind <> KIND_ENVIRON ->
  psutil_get_process_data cfg os fuel pid kind s
  = Done (0, Some (buffer, size)) s' ->
  exists data,
    buffer = data ++ [x00; x00]
    /\ Z.of_nat (List.length data) = size
    /\ 0 <= size < 2 ^ 16
    /\ (Z.even size = true ->
        exists n, wcslen buffer = Some n /\ 2 * Z.of_nat n <= size).
Proof.
  intros Hk H. unfold psutil_get_process_data in H. cbv zeta in H.
  unfold bind at 1 in H.
  destruct (psutil_GetProcAddress os _ _ s) as [p s1|]; [|discriminate].
  destruct (p =? NULL); [discriminate|].
  unfold bind at 1 in H.
  destruct (psutil_handle_from_pid cfg os fuel pid _ s1) as [h s2|];
    [|discriminate].
  destruct (h =? NULL) eqn:Eh; [discriminate|]. apply Z.eqb_neq in Eh.
  unfold get_process_data_from_handle in H. unfold bind at 1 in H.
  destruct (locate_field cfg os kind h s2)
    as [[[[narrower src] size0]|] s3|] eqn:El; try discriminate.
  2:{ rewrite process_data_error_closes in H by assumption. discriminate. }
  apply locate_field_size in El; [|exact Hk].
  assert (Henv : environ_size cfg os kind narrower h src size0 s3
                 = Done (Some size0) s3)
    by (destruct kind; [reflexivity | reflexivity | congruence]).
  unfold bind at 1 in H. rewrite Henv in H.
  unfold bind at 1 in H. rewrite copy_field_unfold in H. cbv zeta in H.
  rewrite SIZE_T_small32 in H by lia.
  destruct (os_alloc os (clock s3) (size0 + 2)).
  2:{ rewrite process_data_error_closes in H by assumption. discriminate. }
  destruct (read_into os narrower h src _ size0 _) as [[b|] s4|] eqn:Er;
    try discriminate.
  2:{ rewrite process_data_error_closes in H by assumption. discriminate. }
  unfold bind, CloseHandle, syscall, ret in H.
  injection H as <- <- _.
  apply read_into_fresh in Er; [|lia].
  destruct Er as (data & _ & Hlen & ->).
  exists data. split; [reflexivity|]. split; [exact Hlen|].
  split; [exact El|].
  intros Heven. apply Z.even_spec in Heven. destruct Heven as (k & Hk2).
  destruct (wcslen_terminated (Z.to_nat k) data) as (n & Hn & Hle); [lia|].
  exists n. split; [exact Hn | lia].
Qed.

(** * Further properties of the functions *)

(** ** Relations kept along a run *)

#[export] Instance Walk_stays_pending : Walk stays_pending.
Proof.
  refine {| walk_ok := fun _ => True |}; unfold stays_pending, pending.
  - auto.
  - auto.
  - intros s e _. discriminate.
  - intros s ev err _ Hp. exact Hp.
Defined.

#[export] Instance Walk_only_calls (P : Event -> bool) : Walk (only_calls P).
Proof.
  refine {| walk_ok := fun ev => P ev = true |}; unfold only_calls.
  - intros s. exists []. rewrite app_nil_r. split; reflexivity.
  - intros a b c (n1 & H1 & Q1) (n2 & H2 & Q2). exists (n1 ++ n2). split.
    + rewrite H2, H1, app_assoc. reflexivity.
    + rewrite forallb_app, Q1, Q2. reflexivity.
  - intros s e. exists []. rewrite app_nil_r. split; reflexivity.
  - intros s ev err Hev. exists [ev]. split; [reflexivity|].
    cbn. rewrite Hev. reflexivity.
Defined.

Section Walking.

Context (R : St -> St -> Prop) `{HR : Walk R}.

Lemma steps_ret {A} (a : A) : steps R (ret a).
Proof. intros s a' s' H. injection H as _ <-. apply walk_refl. Qed.

Lemma steps_abort {A} u : steps R (@abort A u).
Proof. intros s a s' H. discriminate. Qed.

Lemma steps_bind {A B} (c : M A) (k : A -> M B) :
  steps R c -> (forall a, steps R (k a)) -> steps R (bind c k).
Proof.
  intros Hc Hk s b s' H. unfold bind in H.
  destruct (c s) as [a s1|] eqn:E; [|discriminate].
  apply (walk_trans s s1 s'); [apply (Hc s a s1 E) | apply (Hk a s1 b s' H)].
Qed.

Lemma steps_set_pyerr e : steps R (set_pyerr e).
Proof. intros s a s' H. injection H as _ <-. apply walk_pyerr. Qed.

Lemma steps_SetFromWindowsErr err : steps R (PyErr_SetFromWindowsErr err).
Proof. intros s a s' H. injection H as _ <-. apply walk_pyerr. Qed.

Lemma steps_SetFromWindowsErrWithFilename err name :
  steps R (PyErr_SetFromWindowsErrWithFilename err name).
Proof. intros s a s' H. injection H as _ <-. apply walk_pyerr. Qed.

Lemma steps_raise_NoSuchProcess msg : steps R (raise_NoSuchProcess msg).
Proof. intros s a s' H. injection H as _ <-. apply walk_pyerr. Qed.

Lemma steps_raise_AccessDenied msg : steps R (raise_AccessDenied msg).
Proof. intros s a s' H. injection H as _ <-. apply walk_pyerr. Qed.

Lemma steps_syscall os {A} (f : nat -> A) failed ev :
  (forall r, walk_ok (ev r)) -> steps R (syscall os f failed ev).
Proof.
  intros Hev s a s' H. unfold syscall in H. injection H as <- <-.
  apply walk_call. apply Hev.
Qed.

Lemma steps_same {A} (c : M A) :
  (forall s a s', c s = Done a s' -> s' = s) -> steps R c.
Proof. intros Hc s a s' H. apply Hc in H. subst s'. apply walk_refl. Qed.

End Walking.

Create HintDb steps_db.

Ltac steps_side :=
  intros r; cbn;
  first [exact I
        | reflexivity
        | apply Z.eqb_refl
        | destruct r; cbn;
          first [exact I
                | reflexivity
                | match goal with
                  | p : (_ * _)%type |- _ => destruct p
                  end; cbn; first [exact I | reflexivity]]].

Ltac walk l := apply l; try exact _.

Ltac steps_setter :=
  intros ? ? ? HQ; injection HQ as _ <-;
  first [exact (fun Hp => Hp)
        | reflexivity
        | exists []; rewrite app_nil_r; split; reflexivity
        | exists []; rewrite app_nil_r;
          split; [reflexivity | split; [reflexivity | apply plus_n_O]]].

Ltac steps_step :=
  match goal with
  | |- steps _ _ => solve [auto 1 with steps_db nocore]
  | |- steps _ (bind _ _) => walk steps_bind; [|intros ?]
  | |- steps _ (ret _) => walk steps_ret
  | |- steps _ (abort _) => walk steps_abort
  | |- steps _ (set_pyerr _) => walk steps_set_pyerr
  | |- steps _ (PyErr_SetFromWindowsErr _) => walk steps_SetFromWindowsErr
  | |- steps _ (PyErr_SetFromWindowsErrWithFilename _ _) =>
      walk steps_SetFromWindowsErrWithFilename
  | |- steps _ (raise_NoSuchProcess _) => walk steps_raise_NoSuchProcess
  | |- steps _ (raise_AccessDenied _) => walk steps_raise_AccessDenied
  | |- steps _ (set_static_Query64 _) => steps_setter
  | |- steps _ (set_static_Read64 _) => steps_setter
  | |- steps _ (set_initialBufferSize _) => steps_setter
  | |- steps _ (syscall _ _ _ _) =>
      refine (steps_syscall _ _ _ _ _ _); steps_side
  | |- steps _ (match ?x with _ => _ end) => destruct x
  | |- steps _ _ =>
      walk steps_same; intros ? ? ? HQ; injection HQ as _ <-; reflexivity
  end.

Ltac steps_auto := repeat steps_step.

Ltac unfold_calls :=
  unfold GetModuleHandleA, LoadLibraryA, FreeLibrary, GetProcAddress,
    OpenProcess, CloseHandle, GetExitCodeProcess, EnumProcesses, malloc,
    IsWow64Process, NtQueryInformationProcess_Wow64Information,
    NtQueryInformationProcess_BasicInformation,
    NtWow64QueryInformationProcess64, read_peb, read_params, VirtualQueryEx,
    NtQueryInformationProcess_CommandLine, NtQuerySystemInformation,
    PyErr_NoMemory.

(** No function of the file clears a pending exception. *)
Lemma sticky_GetProcAddress os lib name :
  steps stays_pending (psutil_GetProcAddress os lib name).
Proof. unfold psutil_GetProcAddress. unfold_calls. steps_auto. Qed.

Lemma sticky_GetProcAddressFromLib os lib name :
  steps stays_pending (psutil_GetProcAddressFromLib os lib name).
Proof. unfold psutil_GetProcAddressFromLib. unfold_calls. steps_auto. Qed.

Lemma sticky_get_pids_loop cfg os n :
  forall cap, steps stays_pending (get_pids_loop cfg os n cap).
Proof.
  induction n as [|n IH]; intros cap; cbn [get_pids_loop].
  - walk steps_abort.
  - unfold_calls. repeat first [apply IH | steps_step].
Qed.

Lemma sticky_pid_in_pids cfg os fuel pid :
  steps stays_pending (psutil_pid_in_pids cfg os fuel pid).
Proof.
  unfold psutil_pid_in_pids, psutil_get_pids.
  walk steps_bind; [apply sticky_get_pids_loop|].
  intros [[l n]|]; walk steps_ret.
Qed.

#[local] Hint Resolve sticky_GetProcAddress sticky_GetProcAddressFromLib
  sticky_pid_in_pids : steps_db.

Lemma sticky_assert_pid_exists cfg os fuel pid err :
  steps stays_pending (psutil_assert_pid_exists cfg os fuel pid err).
Proof. unfold psutil_assert_pid_exists. steps_auto. Qed.

Lemma sticky_assert_pid_not_exists cfg os fuel pid err :
  steps stays_pending (psutil_assert_pid_not_exists cfg os fuel pid err).
Proof. unfold psutil_assert_pid_not_exists. steps_auto. Qed.

#[local] Hint Resolve sticky_assert_pid_exists sticky_assert_pid_not_exists
  : steps_db.

Lemma sticky_is_phandle_running cfg os fuel h pid :
  steps stays_pending (psutil_is_phandle_running cfg os fuel h pid).
Proof. unfold psutil_is_phandle_running. unfold_calls. steps_auto. Qed.

#[local] Hint Resolve sticky_is_phandle_running : steps_db.

Lemma sticky_handle_from_pid cfg os fuel pid access :
  steps stays_pending (psutil_handle_from_pid cfg os fuel pid access).
Proof.
  unfold psutil_handle_from_pid, psutil_check_phandle. unfold_calls.
  steps_auto.
Qed.

Lemma sticky_pid_is_running cfg os fuel pid :
  steps stays_pending (psutil_pid_is_running cfg os fuel pid).
Proof. unfold psutil_pid_is_running. unfold_calls. steps_auto. Qed.

#[local] Hint Resolve sticky_handle_from_pid sticky_pid_is_running : steps_db.

(** ** Failure is reported with an exception *)

Lemma bind_done {A B} (c : M A) (k : A -> M B) s b s' :
  bind c k s = Done b s' ->
  exists a s1, c s = Done a s1 /\ k a s1 = Done b s'.
Proof.
  unfold bind. destruct (c s) as [a s1|]; [|discriminate].
  intros H. exists a, s1. split; [reflexivity | exact H].
Qed.

Lemma loud_ret {A} (bad : A -> bool) (a : A) :
  bad a = false -> loud bad (ret a).
Proof.
  intros Ha s a' s' H. injection H as <- <-. split; [congruence | auto].
Qed.

Lemma loud_abort {A} (bad : A -> bool) u : loud bad (@abort A u).
Proof. intros s a s' H. discriminate. Qed.

Lemma loud_quiet {A} (c : M A) :
  steps stays_pending c -> loud (fun _ => false) c.
Proof. intros Hc s a s' H. split; [discriminate | apply (Hc s a s' H)]. Qed.

Lemma loud_raise e : loud (fun _ => true) (set_pyerr e).
Proof.
  intros s a s' H. injection H as _ <-. split; intros _; discriminate.
Qed.

Lemma loud_SetFromWindowsErr err :
  loud (fun _ => true) (PyErr_SetFromWindowsErr err).
Proof.
  intros s a s' H. injection H as _ <-. split; intros _; discriminate.
Qed.

Lemma loud_SetFromWindowsErrWithFilename err name :
  loud (fun _ => true) (PyErr_SetFromWindowsErrWithFilename err name).
Proof.
  intros s a s' H. injection H as _ <-. split; intros _; discriminate.
Qed.

Lemma loud_raise_NoSuchProcess (bad : Z -> bool) msg :
  loud bad (raise_NoSuchProcess msg).
Proof.
  intros s a s' H. injection H as _ <-. split; intros _; discriminate.
Qed.

Lemma loud_raise_AccessDenied (bad : Z -> bool) msg :
  loud bad (raise_AccessDenied msg).
Proof.
  intros s a s' H. injection H as _ <-. split; intros _; discriminate.
Qed.

Lemma loud_bind {A B} (badc : A -> bool) (bad : B -> bool) (c : M A)
  (k : A -> M B) :
  loud badc c ->
  (forall a, if badc a then steps stays_pending (k a) else loud bad (k a)) ->
  loud bad (bind c k).
Proof.
  intros Hc Hk s b s' H.
  apply bind_done in H. destruct H as (a & s1 & H1 & H2).
  destruct (Hc s a s1 H1) as [Hbad Hkeep]. specialize (Hk a).
  destruct (badc a).
  - assert (Hp : pending s') by (apply (Hk s1 b s' H2); auto).
    split; auto.
  - destruct (Hk s1 b s' H2) as [Hbad' Hkeep']. split; auto.
Qed.

Create HintDb loud_db.

Ltac unfold_bad :=
  cbv beta delta [is_null is_minus_one is_zero no_value nonzero_code
                    zero_code is_none fst snd negb] iota.

Ltac loud_ret_side :=
  unfold_bad; first [reflexivity | assumption | cbn; reflexivity | congruence].

Ltac loud_neutral :=
  apply (loud_bind (fun _ => false));
  [apply loud_quiet; solve [steps_auto] | intros ?; cbv beta iota].

Ltac loud_raised l :=
  apply (loud_bind (fun _ => true));
  [apply l | intros ?; cbv beta iota; solve [steps_auto]].

Ltac loud_step :=
  match goal with
  | |- loud _ _ => solve [auto 1 with loud_db nocore]
  | |- loud _ (ret _) => apply loud_ret; loud_ret_side
  | |- loud _ (abort _) => apply loud_abort
  | |- loud _ (bind (set_pyerr _) _) => loud_raised loud_raise
  | |- loud _ (bind (PyErr_SetFromWindowsErr _) _) =>
      loud_raised loud_SetFromWindowsErr
  | |- loud _ (bind (PyErr_SetFromWindowsErrWithFilename _ _) _) =>
      loud_raised loud_SetFromWindowsErrWithFilename
  | |- loud _ (bind (raise_NoSuchProcess _) _) =>
      loud_raised loud_raise_NoSuchProcess
  | |- loud _ (bind (raise_AccessDenied _) _) =>
      loud_raised loud_raise_AccessDenied
  | |- loud is_null (raise_NoSuchProcess _) => apply loud_raise_NoSuchProcess
  | |- loud is_null (raise_AccessDenied _) => apply loud_raise_AccessDenied
  | |- loud _ (bind (syscall _ _ _ _) _) => loud_neutral
  | |- loud _ (bind (bind _ _) _) => fail 1
  | |- loud _ (if ?b then _ else _) => destruct b eqn:?
  | |- loud _ (match ?x with _ => _ end) => destruct x
  end.

Ltac loud_auto := repeat loud_step.

(** After a call registered in [loud_db]: split on its failure test. *)
Ltac loud_call :=
  eapply loud_bind;
  [solve [auto 1 with loud_db nocore]
  | intros ?; unfold_bad;
    match goal with
    | |- if match ?x with _ => _ end then _ else _ => destruct x
    | |- if ?b then _ else _ => destruct b eqn:?
    end; cbv beta iota; try solve [steps_auto]].

Lemma loud_GetProcAddress os lib name :
  loud is_null (psutil_GetProcAddress os lib name).
Proof. unfold psutil_GetProcAddress. unfold_calls. loud_auto. Qed.

Lemma loud_GetProcAddressFromLib os lib name :
  loud is_null (psutil_GetProcAddressFromLib os lib name).
Proof.
  unfold psutil_GetProcAddressFromLib. unfold_calls. loud_auto.
Qed.

Lemma loud_get_pids_loop cfg os n :
  forall cap, loud no_value (get_pids_loop cfg os n cap).
Proof.
  induction n as [|n IH]; intros cap; cbn [get_pids_loop].
  - apply loud_abort.
  - unfold_calls. repeat first [apply IH | loud_step].
Qed.

Lemma loud_pid_in_pids cfg os fuel pid :
  loud is_minus_one (psutil_pid_in_pids cfg os fuel pid).
Proof.
  unfold psutil_pid_in_pids, psutil_get_pids.
  apply (loud_bind no_value); [apply loud_get_pids_loop|].
  intros [[l n]|]; unfold_bad.
  - apply loud_ret. unfold_bad.
    induction (firstn (Z.to_nat n) l) as [|p rest IH]; cbn [pid_in_list].
    + reflexivity.
    + destruct (p =? pid); [reflexivity | exact IH].
  - steps_auto.
Qed.

#[local] Hint Resolve loud_GetProcAddress loud_GetProcAddressFromLib
  loud_pid_in_pids : loud_db.

Lemma loud_assert_pid_exists cfg os fuel pid err :
  loud is_zero (psutil_assert_pid_exists cfg os fuel pid err).
Proof.
  unfold psutil_assert_pid_exists.
  destruct (PSUTIL_TESTING cfg); [|loud_auto].
  loud_call. loud_auto.
Qed.

Lemma loud_assert_pid_not_exists cfg os fuel pid err :
  loud is_zero (psutil_assert_pid_not_exists cfg os fuel pid err).
Proof.
  unfold psutil_assert_pid_not_exists.
  destruct (PSUTIL_TESTING cfg); [|loud_auto].
  loud_call. loud_auto.
Qed.

#[local] Hint Resolve loud_assert_pid_exists loud_assert_pid_not_exists
  : loud_db.

Lemma loud_pid_is_running cfg os fuel pid :
  loud is_minus_one (psutil_pid_is_running cfg os fuel pid).
Proof.
  unfold psutil_pid_is_running. unfold_calls.
  repeat first [loud_step | loud_call | loud_neutral].
Qed.

(** *** What a function returns *)

Lemma returns_ret {A} (P : A -> Prop) (a : A) : P a -> returns P (ret a).
Proof. intros Ha s a' s' H. injection H as <- _. exact Ha. Qed.

Lemma returns_abort {A} (P : A -> Prop) u : returns P (@abort A u).
Proof. intros s a s' H. discriminate. Qed.

Lemma returns_bind {A B} (P : B -> Prop) (c : M A) (k : A -> M B) :
  (forall a, returns P (k a)) -> returns P (bind c k).
Proof.
  intros Hk s b s' H. apply bind_done in H.
  destruct H as (a & s1 & _ & H2). apply (Hk a s1 b s' H2).
Qed.

Lemma returns_bind_with {A B} (Q : A -> Prop) (P : B -> Prop) (c : M A)
  (k : A -> M B) :
  returns Q c -> (forall a, Q a -> returns P (k a)) -> returns P (bind c k).
Proof.
  intros Hc Hk s b s' H. apply bind_done in H.
  destruct H as (a & s1 & H1 & H2). apply (Hk a (Hc s a s1 H1) s1 b s' H2).
Qed.

Ltac eqb_hyps :=
  repeat match goal with
         | H : (_ =? _) = true |- _ => apply Z.eqb_eq in H
         | H : (_ =? _) = false |- _ => apply Z.eqb_neq in H
         | H : (_ <? _) = true |- _ => apply Z.ltb_lt in H
         | H : (_ <? _) = false |- _ => apply Z.ltb_ge in H
         | H : (_ <=? _) = true |- _ => apply Z.leb_le in H
         | H : (_ <=? _) = false |- _ => apply Z.leb_gt in H
         end.

Create HintDb returns_db.

Ltac returns_step :=
  match goal with
  | |- returns _ _ => solve [auto 1 with returns_db nocore]
  | |- returns _ (bind _ _) => apply returns_bind; intros ?
  | |- returns _ (ret _) => apply returns_ret
  | |- returns _ (abort _) => apply returns_abort
  | |- returns _ (if ?b then _ else _) => destruct b eqn:?
  | |- returns _ (match ?x with _ => _ end) => destruct x eqn:?
  end.

Ltac returns_auto := repeat returns_step.

Lemma pid_in_list_range (pid : Z) (l : list Z) :
  pid_in_list pid l = 1 \/ pid_in_list pid l = 0.
Proof.
  induction l as [|p rest IH]; cbn [pid_in_list]; [auto|].
  destruct (p =? pid); auto.
Qed.

Lemma pid_in_pids_range cfg os fuel pid :
  returns (fun r => r = 1 \/ r = 0 \/ r = -1)
    (psutil_pid_in_pids cfg os fuel pid).
Proof.
  unfold psutil_pid_in_pids. returns_auto.
  - destruct (pid_in_list_range pid (firstn (Z.to_nat z) l)); auto.
  - auto.
Qed.

(** The handle psutil_is_phandle_running reports as running is one. *)
Lemma is_phandle_running_handle cfg os fuel h pid :
  returns (fun r => r = 1 -> h <> NULL)
    (psutil_is_phandle_running cfg os fuel h pid).
Proof.
  unfold psutil_is_phandle_running.
  returns_auto; eqb_hyps; first [discriminate | intros _; assumption].
Qed.

Lemma loud_is_phandle_running cfg os fuel h pid :
  loud not_a_verdict (psutil_is_phandle_running cfg os fuel h pid).
Proof.
  unfold psutil_is_phandle_running. unfold_calls.
  repeat first [loud_step | loud_call | loud_neutral].
Qed.

Lemma loud_check_phandle cfg os fuel h pid :
  loud is_null (psutil_check_phandle cfg os fuel h pid).
Proof.
  intros s r s' H. unfold psutil_check_phandle in H.
  apply bind_done in H. destruct H as (a & s1 & H1 & H2).
  pose proof (is_phandle_running_handle cfg os fuel h pid s a s1 H1) as Hh.
  destruct (loud_is_phandle_running cfg os fuel h pid s a s1 H1)
    as [Hbad Hkeep].
  unfold not_a_verdict in Hbad.
  destruct (a =? 1) eqn:E1.
  - injection H2 as <- <-. apply Z.eqb_eq in E1. split; [|exact Hkeep].
    unfold is_null. intros Hn. apply Z.eqb_eq in Hn.
    exfalso. exact (Hh E1 Hn).
  - destruct (a =? 0) eqn:E0.
    + injection H2 as _ <-. split; intros _; discriminate.
    + destruct (a =? -1) eqn:Em.
      * injection H2 as _ <-. split; intros _; discriminate.
      * injection H2 as _ <-. split; [|exact Hkeep].
        intros _. apply Hbad. reflexivity.
Qed.

#[local] Hint Resolve loud_check_phandle : loud_db.

Lemma loud_handle_from_pid cfg os fuel pid access :
  loud is_null (psutil_handle_from_pid cfg os fuel pid access).
Proof.
  unfold psutil_handle_from_pid. unfold_calls.
  repeat first [loud_step | loud_call | loud_neutral].
Qed.

#[local] Hint Resolve loud_handle_from_pid loud_pid_is_running : loud_db.

Lemma sticky_calloc os n : steps stays_pending (calloc os n).
Proof. unfold calloc. unfold_calls. steps_auto. Qed.

Lemma sticky_read_into os wide h src buffer size :
  steps stays_pending (read_into os wide h src buffer size).
Proof. unfold read_into. steps_auto. Qed.

Lemma sticky_select_field os kind ptr pp :
  steps stays_pending (select_field os kind ptr pp).
Proof. unfold select_field. steps_auto. Qed.

Lemma sticky_resolve_static os get set name :
  steps stays_pending get -> (forall p, steps stays_pending (set p)) ->
  steps stays_pending (resolve_static os get set name).
Proof.
  intros Hget Hset. unfold resolve_static.
  repeat first [apply Hget | apply Hset | steps_step].
Qed.

Lemma sticky_process_data_error {A} os h :
  steps stays_pending (@process_data_error os A h).
Proof. unfold process_data_error. unfold_calls. steps_auto. Qed.

Lemma sticky_cmdline_data_error {A} os h :
  steps stays_pending (@cmdline_data_error os A h).
Proof.
  unfold cmdline_data_error, read_local. unfold_calls. steps_auto.
Qed.

#[local] Hint Resolve sticky_calloc sticky_read_into sticky_select_field
  sticky_process_data_error sticky_cmdline_data_error : steps_db.

Lemma loud_walk_control_block os kind wide ptr h ppeb :
  loud no_value (walk_control_block os kind wide ptr h ppeb).
Proof.
  unfold walk_control_block. unfold_calls.
  repeat first [loud_step | loud_call | loud_neutral].
Qed.

#[local] Hint Resolve loud_walk_control_block : loud_db.

Lemma loud_locate_native cfg os kind h :
  loud no_value (locate_native cfg os kind h).
Proof.
  unfold locate_native. unfold_calls.
  repeat first [loud_step | loud_call | loud_neutral].
Qed.

Lemma loud_locate_wow64_to_64 os kind h :
  loud no_value (locate_wow64_to_64 os kind h).
Proof.
  unfold locate_wow64_to_64. unfold_calls.
  apply (loud_bind (fun _ => false)).
  { apply loud_quiet.
    apply sticky_resolve_static; [steps_auto | intros ?; steps_auto]. }
  intros q. cbv beta iota.
  destruct (q =? NULL); [loud_auto|].
  apply (loud_bind (fun _ => false)).
  { apply loud_quiet.
    apply sticky_resolve_static; [steps_auto | intros ?; steps_auto]. }
  intros rd. cbv beta iota.
  repeat first [loud_step | loud_call | loud_neutral].
Qed.

#[local] Hint Resolve loud_locate_native loud_locate_wow64_to_64 : loud_db.

Lemma loud_locate_field cfg os kind h :
  loud no_value (locate_field cfg os kind h).
Proof.
  unfold locate_field. unfold_calls.
  repeat first [loud_step | loud_call | loud_neutral].
Qed.

Lemma loud_get_process_region_size cfg os h src :
  loud no_value (psutil_get_process_region_size cfg os h src).
Proof.
  unfold psutil_get_process_region_size. unfold_calls.
  repeat first [loud_step | loud_call | loud_neutral].
Qed.

#[local] Hint Resolve loud_locate_field loud_get_process_region_size
  : loud_db.

Lemma loud_environ_size cfg os kind narrower h src size :
  loud no_value (environ_size cfg os kind narrower h src size).
Proof.
  unfold environ_size. unfold_calls.
  repeat first [loud_step | loud_call | loud_neutral].
Qed.

Lemma loud_copy_field cfg os narrower h src size :
  loud no_value (copy_field cfg os narrower h src size).
Proof.
  unfold copy_field. unfold PyErr_NoMemory.
  repeat first [loud_step | loud_call | loud_neutral].
Qed.

#[local] Hint Resolve loud_environ_size loud_copy_field : loud_db.

Lemma loud_get_process_data_from_handle cfg os kind h :
  loud nonzero_code (get_process_data_from_handle cfg os kind h).
Proof.
  unfold get_process_data_from_handle. unfold_calls.
  repeat first [loud_step | loud_call | loud_neutral].
Qed.

#[local] Hint Resolve loud_get_process_data_from_handle : loud_db.

Lemma loud_get_process_data cfg os fuel pid kind :
  loud nonzero_code (psutil_get_process_data cfg os fuel pid kind).
Proof.
  unfold psutil_get_process_data. cbv zeta.
  repeat first [loud_step | loud_call | loud_neutral].
Qed.

Lemma loud_get_cmdline_data cfg os fuel pid :
  loud nonzero_code (psutil_get_cmdline_data cfg os fuel pid).
Proof.
  unfold psutil_get_cmdline_data. cbv zeta. unfold_calls.
  repeat first [loud_step | loud_call | loud_neutral].
Qed.

#[local] Hint Resolve loud_get_process_data loud_get_cmdline_data : loud_db.

Lemma loud_bind_with {A B} (Q : A -> Prop) (badc : A -> bool)
  (bad : B -> bool) (c : M A) (k : A -> M B) :
  loud badc c -> returns Q c ->
  (forall a,
      Q a -> if badc a then steps stays_pending (k a) else loud bad (k a)) ->
  loud bad (bind c k).
Proof.
  intros Hc Hq Hk s b s' H.
  apply bind_done in H. destruct H as (a & s1 & H1 & H2).
  destruct (Hc s a s1 H1) as [Hbad Hkeep].
  specialize (Hk a (Hq s a s1 H1)).
  destruct (badc a).
  - assert (Hp : pending s') by (apply (Hk s1 b s' H2); auto).
    split; auto.
  - destruct (Hk s1 b s' H2) as [Hbad' Hkeep']. split; auto.
Qed.

Lemma process_data_error_shape {A} os h :
  returns code_and_output (@process_data_error os A h).
Proof.
  unfold process_data_error. returns_auto; right; split; reflexivity.
Qed.

Lemma cmdline_data_error_shape {A} os h :
  returns code_and_output (@cmdline_data_error os A h).
Proof.
  unfold cmdline_data_error. returns_auto; right; split; reflexivity.
Qed.

#[local] Hint Resolve process_data_error_shape cmdline_data_error_shape
  : returns_db.

Ltac shape_side :=
  first [right; split; reflexivity
        | left; split; [reflexivity | discriminate]].

Lemma get_process_data_shape cfg os fuel pid kind :
  returns code_and_output (psutil_get_process_data cfg os fuel pid kind).
Proof.
  unfold psutil_get_process_data, get_process_data_from_handle. cbv zeta.
  returns_auto; shape_side.
Qed.

Lemma get_cmdline_data_shape cfg os fuel pid :
  returns code_and_output (psutil_get_cmdline_data cfg os fuel pid).
Proof.
  unfold psutil_get_cmdline_data. cbv zeta.
  returns_auto; shape_side.
Qed.

Lemma loud_py_new os py_alloc name : loud negb (py_new os py_alloc name).
Proof.
  unfold py_new. unfold_calls.
  repeat first [loud_step | loud_call | loud_neutral].
Qed.

Lemma loud_get_cwd cfg os fuel pid :
  loud no_value (psutil_get_cwd cfg os fuel pid).
Proof.
  unfold psutil_get_cwd.
  eapply loud_bind_with;
    [apply loud_get_process_data | apply get_process_data_shape |].
  intros [code out] [[Hc Ho]|[Hc Ho]]; cbn [fst snd] in Hc, Ho; subst code;
    unfold nonzero_code; cbn [fst Z.eqb negb].
  - destruct out as [[data size]|]; [|congruence].
    destruct (wcslen data); [|apply loud_abort].
    eapply loud_bind; [apply loud_py_new|].
    intros ok. destruct ok; cbn [negb]; [loud_auto | steps_auto].
  - steps_auto.
Qed.

Lemma loud_get_environ cfg os fuel pid :
  loud no_value (psutil_get_environ cfg os fuel pid).
Proof.
  unfold psutil_get_environ.
  eapply loud_bind_with;
    [apply loud_get_process_data | apply get_process_data_shape |].
  intros [code out] [[Hc Ho]|[Hc Ho]]; cbn [fst snd] in Hc, Ho; subst code;
    unfold nonzero_code; cbn [fst Z.eqb negb].
  - destruct out as [[data size]|]; [|congruence].
    eapply loud_bind; [apply loud_py_new|].
    intros ok. destruct ok; cbn [negb]; [loud_auto | steps_auto].
  - steps_auto.
Qed.

Lemma loud_query_loop os n :
  forall size, loud no_value (query_loop os n size).
Proof.
  induction n as [|n IH]; intros size; cbn [query_loop].
  - apply loud_abort.
  - unfold_calls. repeat first [apply IH | loud_step].
Qed.

Lemma sticky_scan_loop n buffer pid :
  forall process, steps stays_pending (scan_loop n buffer pid process).
Proof.
  induction n as [|n IH]; intros process; cbn [scan_loop].
  - walk steps_abort.
  - repeat first [apply IH | steps_step].
Qed.

#[local] Hint Resolve loud_query_loop : loud_db.
#[local] Hint Resolve sticky_scan_loop : steps_db.

Lemma loud_query_snapshot os fuel : loud no_value (query_snapshot os fuel).
Proof.
  unfold query_snapshot. unfold_calls.
  repeat first [loud_step | loud_call | loud_neutral].
Qed.

#[local] Hint Resolve loud_query_snapshot : loud_db.

Lemma loud_get_proc_info os fuel pid :
  loud zero_code (psutil_get_proc_info os fuel pid).
Proof.
  unfold psutil_get_proc_info.
  repeat first [loud_step | loud_call | loud_neutral].
Qed.

Section CommandLineFailure.

Variable cfg : Config.
Variable os : OS.
Variable fuel : nat.
Variable parse : nat -> list Z -> option (list (list Z)).
Variable py_alloc : nat -> bool.

Hint Resolve loud_py_new : loud_db.

Lemma loud_fill_arglist args :
  loud no_value (fill_arglist os py_alloc args).
Proof.
  induction args as [|arg rest IH]; cbn [fill_arglist].
  - loud_auto.
  - eapply loud_bind; [apply loud_py_new|].
    intros ok. destruct ok; cbn [negb]; [|steps_auto].
    eapply loud_bind; [apply IH|].
    intros [r|]; unfold_bad; [loud_auto | steps_auto].
Qed.

Lemma loud_get_cmdline pid use_peb :
  loud no_value (psutil_get_cmdline cfg os fuel parse py_alloc pid use_peb).
Proof.
  unfold psutil_get_cmdline.
  apply (loud_bind nonzero_code).
  - destruct (use_peb =? 1).
    + eapply loud_bind; [apply loud_get_process_data|].
      intros [code out]. unfold nonzero_code. cbn [fst snd].
      destruct (negb (code =? 0)) eqn:E.
      * steps_auto.
      * apply loud_ret. cbn [fst]. exact E.
    + eapply loud_bind; [apply loud_get_cmdline_data|].
      intros [code out]. unfold nonzero_code. cbn [fst snd].
      destruct (negb (code =? 0)) eqn:E.
      * steps_auto.
      * apply loud_ret. cbn [fst]. exact E.
  - intros [code out]. unfold nonzero_code. cbn [fst snd].
    destruct (negb (code =? 0)); [steps_auto|].
    destruct (option_map wide_string out) as [[str|]|];
      try apply loud_abort.
    unfold CommandLineToArgvW.
    apply (loud_bind (fun _ => false)).
    { apply loud_quiet. steps_auto. }
    intros [args|]; [|loud_auto].
    eapply loud_bind; [apply loud_py_new|].
    intros ok. destruct ok; cbn [negb]; [|steps_auto].
    apply loud_fill_arglist.
Qed.

End CommandLineFailure.

(** ** Success leaves the exception state alone *)

Lemma gives_up_ret {A} (bad : A -> bool) (a : A) :
  bad a = true -> gives_up bad (ret a).
Proof. intros Ha s a' s' H. injection H as <- <-. split; auto. Qed.

Lemma gives_up_abort {A} (bad : A -> bool) u : gives_up bad (@abort A u).
Proof. intros s a s' H. discriminate. Qed.

Lemma gives_up_bind {A B} (bad : B -> bool) (c : M A) (k : A -> M B) :
  steps stays_pending c -> (forall a, gives_up bad (k a)) ->
  gives_up bad (bind c k).
Proof.
  intros Hc Hk s b s' H. apply bind_done in H.
  destruct H as (a & s1 & H1 & H2).
  destruct (Hk a s1 b s' H2) as [Hb Hkeep]. split; [exact Hb|].
  intros Hp. apply Hkeep. apply (Hc s a s1 H1 Hp).
Qed.

Create HintDb gives_up_db.

Ltac gives_up_step :=
  match goal with
  | |- gives_up _ _ => solve [auto 1 with gives_up_db nocore]
  | |- gives_up _ (ret _) =>
      apply gives_up_ret; unfold_bad;
      first [reflexivity | assumption | cbn; reflexivity]
  | |- gives_up _ (abort _) => apply gives_up_abort
  | |- gives_up _ (bind _ _) =>
      apply gives_up_bind; [solve [steps_auto] | intros ?]
  | |- gives_up _ (if ?b then _ else _) => destruct b eqn:?
  | |- gives_up _ (match ?x with _ => _ end) => destruct x
  end.

Ltac gives_up_auto := repeat gives_up_step.

Lemma faithful_ret {A} (bad : A -> bool) (a : A) :
  bad a = false -> faithful bad (ret a).
Proof. intros Ha s a' s' H. injection H as <- <-. rewrite Ha. reflexivity. Qed.

Lemma faithful_abort {A} (bad : A -> bool) u : faithful bad (@abort A u).
Proof. intros s a s' H. discriminate. Qed.

Lemma faithful_syscall os {A} (f : nat -> A) failed ev :
  faithful (fun _ => false) (syscall os f failed ev).
Proof. intros s a s' H. injection H as _ <-. reflexivity. Qed.

Lemma faithful_same {A} (c : M A) :
  (forall s a s', c s = Done a s' -> pyerr s' = pyerr s) ->
  faithful (fun _ => false) c.
Proof. intros Hc s a s' H. apply (Hc s a s' H). Qed.

Lemma faithful_raise e : faithful (fun _ => true) (set_pyerr e).
Proof. intros s a s' H. injection H as _ <-. discriminate. Qed.

Lemma faithful_SetFromWindowsErr err :
  faithful (fun _ => true) (PyErr_SetFromWindowsErr err).
Proof. intros s a s' H. injection H as _ <-. discriminate. Qed.

Lemma faithful_SetFromWindowsErrWithFilename err name :
  faithful (fun _ => true) (PyErr_SetFromWindowsErrWithFilename err name).
Proof. intros s a s' H. injection H as _ <-. discriminate. Qed.

Lemma faithful_raise_NoSuchProcess msg :
  faithful (fun _ => true) (raise_NoSuchProcess msg).
Proof. intros s a s' H. injection H as _ <-. discriminate. Qed.

Lemma faithful_raise_AccessDenied msg :
  faithful (fun _ => true) (raise_AccessDenied msg).
Proof. intros s a s' H. injection H as _ <-. discriminate. Qed.

Lemma faithful_bind {A B} (badc : A -> bool) (bad : B -> bool) (c : M A)
  (k : A -> M B) :
  faithful badc c ->
  (forall a, if badc a then gives_up bad (k a) else faithful bad (k a)) ->
  faithful bad (bind c k).
Proof.
  intros Hc Hk s b s' H.
  apply bind_done in H. destruct H as (a & s1 & H1 & H2).
  pose proof (Hc s a s1 H1) as Ha. specialize (Hk a).
  destruct (badc a).
  - destruct (Hk s1 b s' H2) as [Hb Hkeep]. rewrite Hb. auto.
  - pose proof (Hk s1 b s' H2) as Hb.
    destruct (bad b); [exact Hb | congruence].
Qed.

Create HintDb faithful_db.

Ltac faithful_neutral l :=
  apply (faithful_bind (fun _ => false));
  [l | intros ?; cbv beta iota].

Ltac faithful_raised l :=
  apply (faithful_bind (fun _ => true));
  [apply l | intros ?; cbv beta iota; solve [gives_up_auto]].

Ltac faithful_getter :=
  apply faithful_same; intros ? ? ? HQ; injection HQ as _ <-; reflexivity.

Ltac faithful_step :=
  match goal with
  | |- faithful _ _ => solve [auto 1 with faithful_db nocore]
  | |- faithful _ (ret _) => apply faithful_ret; loud_ret_side
  | |- faithful _ (abort _) => apply faithful_abort
  | |- faithful _ (bind (set_pyerr _) _) => faithful_raised faithful_raise
  | |- faithful _ (bind (PyErr_SetFromWindowsErr _) _) =>
      faithful_raised faithful_SetFromWindowsErr
  | |- faithful _ (bind (PyErr_SetFromWindowsErrWithFilename _ _) _) =>
      faithful_raised faithful_SetFromWindowsErrWithFilename
  | |- faithful _ (bind (raise_NoSuchProcess _) _) =>
      faithful_raised faithful_raise_NoSuchProcess
  | |- faithful _ (bind (raise_AccessDenied _) _) =>
      faithful_raised faithful_raise_AccessDenied
  | |- faithful _ (bind (syscall _ _ _ _) _) =>
      faithful_neutral ltac:(apply faithful_syscall)
  | |- faithful _ (bind GetLastError _) => faithful_neutral faithful_getter
  | |- faithful _ (bind get_initialBufferSize _) =>
      faithful_neutral faithful_getter
  | |- faithful _ (bind (set_initialBufferSize _) _) =>
      faithful_neutral faithful_getter
  | |- faithful _ (bind get_static_Query64 _) =>
      faithful_neutral faithful_getter
  | |- faithful _ (bind get_static_Read64 _) =>
      faithful_neutral faithful_getter
  | |- faithful _ (bind (set_static_Query64 _) _) =>
      faithful_neutral faithful_getter
  | |- faithful _ (bind (set_static_Read64 _) _) =>
      faithful_neutral faithful_getter
  | |- faithful _ (bind (indeterminate _) _) =>
      faithful_neutral faithful_getter
  | |- faithful _ (bind (ret _) _) =>
      faithful_neutral ltac:(apply faithful_ret; reflexivity)
  | |- faithful _ (bind (if ?b then _ else _) _) => destruct b eqn:?
  | |- faithful _ (if ?b then _ else _) => destruct b eqn:?
  | |- faithful _ (match ?x with _ => _ end) => destruct x
  end.

Ltac faithful_auto := repeat faithful_step.

Ltac faithful_call :=
  eapply faithful_bind;
  [solve [auto 1 with faithful_db nocore]
  | intros ?; unfold_bad;
    match goal with
    | |- if match ?x with _ => _ end then _ else _ => destruct x
    | |- if ?b then _ else _ => destruct b eqn:?
    end; cbv beta iota; try solve [gives_up_auto]].

Ltac faithful_run := repeat first [faithful_step | faithful_call].

Lemma faithful_GetProcAddress os lib name :
  faithful is_null (psutil_GetProcAddress os lib name).
Proof. unfold psutil_GetProcAddress. unfold_calls. faithful_run. Qed.

Lemma faithful_GetProcAddressFromLib os lib name :
  faithful is_null (psutil_GetProcAddressFromLib os lib name).
Proof. unfold psutil_GetProcAddressFromLib. unfold_calls. faithful_run. Qed.

Lemma faithful_get_pids_loop cfg os n :
  forall cap, faithful no_value (get_pids_loop cfg os n cap).
Proof.
  induction n as [|n IH]; intros cap; cbn [get_pids_loop].
  - apply faithful_abort.
  - unfold_calls. repeat first [apply IH | faithful_step].
Qed.

Lemma pid_in_list_not_minus_one (pid : Z) (l : list Z) :
  is_minus_one (pid_in_list pid l) = false.
Proof.
  destruct (pid_in_list_range pid l) as [H|H]; rewrite H; reflexivity.
Qed.

Lemma faithful_pid_in_pids cfg os fuel pid :
  faithful is_minus_one (psutil_pid_in_pids cfg os fuel pid).
Proof.
  unfold psutil_pid_in_pids, psutil_get_pids.
  apply (faithful_bind no_value); [apply faithful_get_pids_loop|].
  intros [[l n]|]; unfold_bad.
  - apply faithful_ret. apply pid_in_list_not_minus_one.
  - gives_up_auto.
Qed.

#[local] Hint Resolve faithful_GetProcAddress faithful_GetProcAddressFromLib
  faithful_pid_in_pids : faithful_db.

Section Production.

Variable cfg : Config.
Variable os : OS.
Variable fuel : nat.
(** a build without PSUTIL_TESTING *)
Hypothesis Hbuild : PSUTIL_TESTING cfg = false.

Lemma faithful_assert_pid_exists pid err :
  faithful is_zero (psutil_assert_pid_exists cfg os fuel pid err).
Proof.
  unfold psutil_assert_pid_exists. rewrite Hbuild. faithful_auto.
Qed.

Lemma faithful_assert_pid_not_exists pid err :
  faithful is_zero (psutil_assert_pid_not_exists cfg os fuel pid err).
Proof.
  unfold psutil_assert_pid_not_exists. rewrite Hbuild. faithful_auto.
Qed.

Hint Resolve faithful_assert_pid_exists faithful_assert_pid_not_exists
  : faithful_db.

Lemma faithful_pid_is_running pid :
  faithful is_minus_one (psutil_pid_is_running cfg os fuel pid).
Proof. unfold psutil_pid_is_running. unfold_calls. faithful_run. Qed.

(** A handle found running was found so without raising. *)
Lemma is_phandle_running_clean h pid s r s' :
  psutil_is_phandle_running cfg os fuel h pid s = Done r s' ->
  r = 1 -> pyerr s' = pyerr s.
Proof.
  intros H Hr.
  pose proof (is_phandle_running_handle cfg os fuel h pid s r s' H Hr) as Hh.
  unfold psutil_is_phandle_running in H.
  apply Z.eqb_neq in Hh. rewrite Hh in H.
  apply bind_done in H. destruct H as (x & s1 & H1 & H2).
  unfold GetExitCodeProcess in H1. injection H1 as _ <-.
  destruct x as [code|].
  - destruct (DWORD code =? STILL_ACTIVE).
    + unfold psutil_assert_pid_exists in H2. rewrite Hbuild in H2.
      injection H2 as _ <-. reflexivity.
    + apply bind_done in H2. destruct H2 as (p & s2 & H2 & H3).
      pose proof (faithful_pid_in_pids cfg os fuel pid _ _ _ H2) as Hp.
      destruct (p =? 1) eqn:E.
      * apply Z.eqb_eq in E. subst p. injection H3 as _ <-. exact Hp.
      * apply bind_done in H3. destruct H3 as (u & s3 & _ & H3).
        injection H3 as <- _. discriminate.
  - apply bind_done in H2. destruct H2 as (u & s2 & _ & H2).
    unfold psutil_assert_pid_not_exists in H2. rewrite Hbuild in H2.
    injection H2 as <- _. discriminate.
Qed.

Lemma faithful_check_phandle h pid :
  faithful is_null (psutil_check_phandle cfg os fuel h pid).
Proof.
  intros s r s' H. unfold psutil_check_phandle in H.
  apply bind_done in H. destruct H as (a & s1 & H1 & H2).
  pose proof (is_phandle_running_handle cfg os fuel h pid s a s1 H1) as Hh.
  pose proof (is_phandle_running_clean h pid s a s1 H1) as Hclean.
  destruct (loud_is_phandle_running cfg os fuel h pid s a s1 H1)
    as [Hbad _].
  unfold not_a_verdict in Hbad.
  destruct (a =? 1) eqn:E1.
  - injection H2 as <- <-. apply Z.eqb_eq in E1.
    apply Z.eqb_neq in Hh; [|exact E1]. unfold is_null. rewrite Hh.
    apply Hclean. exact E1.
  - destruct (a =? 0) eqn:E0.
    + injection H2 as <- <-. discriminate.
    + destruct (a =? -1) eqn:Em.
      * injection H2 as <- <-. discriminate.
      * injection H2 as <- <-. apply Hbad. reflexivity.
Qed.

Hint Resolve faithful_check_phandle : faithful_db.

Lemma faithful_handle_from_pid pid access :
  faithful is_null (psutil_handle_from_pid cfg os fuel pid access).
Proof.
  unfold psutil_handle_from_pid. unfold_calls.
  destruct (pid =? 0).
  - intros s r s' H. injection H as <- <-. discriminate.
  - faithful_run.
Qed.

End Production.

Lemma gives_up_process_data_error {A} os h :
  gives_up nonzero_code (@process_data_error os A h).
Proof. unfold process_data_error. unfold_calls. gives_up_auto. Qed.

Lemma gives_up_cmdline_data_error {A} os h :
  gives_up nonzero_code (@cmdline_data_error os A h).
Proof.
  unfold cmdline_data_error, read_local. unfold_calls. gives_up_auto.
Qed.

#[local] Hint Resolve gives_up_process_data_error
  gives_up_cmdline_data_error : gives_up_db.

Lemma faithful_calloc os n : faithful (fun _ => false) (calloc os n).
Proof.
  unfold calloc. unfold_calls.
  apply (faithful_bind (fun _ => false)); [apply faithful_syscall|].
  intros ok. apply faithful_ret. reflexivity.
Qed.

Lemma faithful_read_into os wide h src buffer size :
  faithful (fun _ => false) (read_into os wide h src buffer size).
Proof.
  unfold read_into.
  apply (faithful_bind (fun _ => false)); [apply faithful_syscall|].
  intros [data|]; cbv beta iota.
  - destruct (List.length data <=? List.length buffer)%nat.
    + apply faithful_ret. reflexivity.
    + apply faithful_abort.
  - apply faithful_ret. reflexivity.
Qed.

Lemma faithful_select_field os kind ptr pp :
  faithful (fun _ => false) (select_field os kind ptr pp).
Proof.
  unfold select_field. destruct kind.
  - apply faithful_ret. reflexivity.
  - apply faithful_ret. reflexivity.
  - apply (faithful_bind (fun _ => false)); [faithful_getter|].
    intros size. apply faithful_ret. reflexivity.
Qed.

Ltac faithful_known l :=
  apply (faithful_bind (fun _ => false)); [apply l | intros ?; cbv beta iota].

Ltac faithful_more :=
  match goal with
  | |- faithful _ (bind (calloc _ _) _) => faithful_known faithful_calloc
  | |- faithful _ (bind (read_into _ _ _ _ _ _) _) =>
      faithful_known faithful_read_into
  | |- faithful _ (bind (select_field _ _ _ _) _) =>
      faithful_known faithful_select_field
  end.

Ltac faithful_all :=
  repeat first [faithful_step | faithful_call | faithful_more].

Lemma faithful_walk_control_block os kind wide ptr h ppeb :
  faithful no_value (walk_control_block os kind wide ptr h ppeb).
Proof. unfold walk_control_block. unfold_calls. faithful_all. Qed.

#[local] Hint Resolve faithful_walk_control_block : faithful_db.

Lemma faithful_locate_native cfg os kind h :
  faithful no_value (locate_native cfg os kind h).
Proof. unfold locate_native. unfold_calls. faithful_all. Qed.

Lemma faithful_resolve_static_Query64 os name :
  faithful is_null
    (resolve_static os get_static_Query64 set_static_Query64 name).
Proof. unfold resolve_static. faithful_all. Qed.

Lemma faithful_resolve_static_Read64 os name :
  faithful is_null
    (resolve_static os get_static_Read64 set_static_Read64 name).
Proof. unfold resolve_static. faithful_all. Qed.

#[local] Hint Resolve faithful_locate_native faithful_resolve_static_Query64
  faithful_resolve_static_Read64 : faithful_db.

Lemma faithful_locate_wow64_to_64 os kind h :
  faithful no_value (locate_wow64_to_64 os kind h).
Proof. unfold locate_wow64_to_64. unfold_calls. faithful_all. Qed.

#[local] Hint Resolve faithful_locate_wow64_to_64 : faithful_db.

Lemma faithful_locate_field cfg os kind h :
  faithful no_value (locate_field cfg os kind h).
Proof. unfold locate_field. unfold_calls. faithful_all. Qed.

Lemma faithful_get_process_region_size cfg os h src :
  faithful no_value (psutil_get_process_region_size cfg os h src).
Proof. unfold psutil_get_process_region_size. unfold_calls. faithful_all. Qed.

#[local] Hint Resolve faithful_locate_field faithful_get_process_region_size
  : faithful_db.

Lemma faithful_environ_size cfg os kind narrower h src size :
  faithful no_value (environ_size cfg os kind narrower h src size).
Proof. unfold environ_size. faithful_all. Qed.

Lemma faithful_copy_field cfg os narrower h src size :
  faithful no_value (copy_field cfg os narrower h src size).
Proof. unfold copy_field. unfold PyErr_NoMemory. faithful_all. Qed.

#[local] Hint Resolve faithful_environ_size faithful_copy_field : faithful_db.

Lemma faithful_get_process_data_from_handle cfg os kind h :
  faithful nonzero_code (get_process_data_from_handle cfg os kind h).
Proof.
  unfold get_process_data_from_handle. unfold_calls. faithful_all.
Qed.

#[local] Hint Resolve faithful_get_process_data_from_handle : faithful_db.

Lemma faithful_query_loop os n :
  forall size, faithful no_value (query_loop os n size).
Proof.
  induction n as [|n IH]; intros size; cbn [query_loop].
  - apply faithful_abort.
  - unfold_calls. repeat first [apply IH | faithful_step].
Qed.

Lemma scan_loop_pure n buffer pid :
  forall process s r s',
    scan_loop n buffer pid process s = Done r s' -> s' = s.
Proof.
  induction n as [|n IH]; intros process s r s' H; cbn [scan_loop] in H.
  - discriminate.
  - destruct (buffer process) as [p|]; [|discriminate].
    destruct (UniqueProcessId p =? pid).
    + injection H as _ <-. reflexivity.
    + destruct (ULONG (NextEntryOffset p) =? 0).
      * injection H as _ <-. reflexivity.
      * apply (IH _ _ _ _ H).
Qed.

#[local] Hint Resolve faithful_query_loop : faithful_db.

Lemma faithful_query_snapshot os fuel :
  faithful no_value (query_snapshot os fuel).
Proof. unfold query_snapshot. unfold_calls. faithful_all. Qed.

#[local] Hint Resolve faithful_query_snapshot : faithful_db.

Lemma faithful_get_proc_info os fuel pid :
  faithful zero_code (psutil_get_proc_info os fuel pid).
Proof.
  unfold psutil_get_proc_info.
  eapply faithful_bind; [apply faithful_query_snapshot|].
  intros [buffer|]; unfold_bad; [|gives_up_auto].
  apply (faithful_bind (fun _ => false)).
  { apply faithful_same. intros s a s' H.
    apply scan_loop_pure in H. congruence. }
  intros [p|]; cbv beta iota; faithful_all.
Qed.

Section ProductionData.

Variable cfg : Config.
Variable os : OS.
Variable fuel : nat.
Hypothesis Hbuild : PSUTIL_TESTING cfg = false.

Hint Resolve faithful_handle_from_pid : faithful_db.

Lemma faithful_get_process_data pid kind :
  faithful nonzero_code (psutil_get_process_data cfg os fuel pid kind).
Proof.
  unfold psutil_get_process_data. cbv zeta.
  pose proof (faithful_handle_from_pid cfg os fuel Hbuild) as Hh.
  faithful_all.
Qed.

Lemma faithful_get_cmdline_data pid :
  faithful nonzero_code (psutil_get_cmdline_data cfg os fuel pid).
Proof.
  unfold psutil_get_cmdline_data. cbv zeta. unfold_calls.
  pose proof (faithful_handle_from_pid cfg os fuel Hbuild) as Hh.
  faithful_all.
Qed.

End ProductionData.

(** ** The contracts of the entry points *)

Lemma pid_is_running_range cfg os fuel pid :
  returns (fun r => r = 1 \/ r = 0 \/ r = -1)
    (psutil_pid_is_running cfg os fuel pid).
Proof.
  pose proof (pid_in_pids_range cfg os fuel pid) as Hp.
  unfold psutil_pid_is_running. returns_auto; auto.
Qed.

(** X2: psutil_pid_is_running answers 1, 0 or -1.  It answers -1 only with a
    Python exception pending and never clears a pending exception; in a
    build without PSUTIL_TESTING the answers 1 and 0 leave the exception
    state exactly as it was. *)
Theorem pid_is_running_verdict cfg os fuel pid s r s' :
  psutil_pid_is_running cfg os fuel pid s = Done r s' ->
  (r = 1 \/ r = 0 \/ r = -1)
  /\ (r = -1 -> pending s')
  /\ (pending s -> pending s')
  /\ (PSUTIL_TESTING cfg = false -> r <> -1 -> pyerr s' = pyerr s).
Proof.
  intros H. split; [apply (pid_is_running_range cfg os fuel pid s r s' H)|].
  destruct (loud_pid_is_running cfg os fuel pid s r s' H) as [Hbad Hkeep].
  split; [|split; [exact Hkeep|]].
  - intros ->. apply Hbad. reflexivity.
  - intros Hbuild Hr.
    pose proof (faithful_pid_is_running cfg os fuel Hbuild pid s r s' H) as Hf.
    unfold is_minus_one in Hf. apply Z.eqb_neq in Hr. rewrite Hr in Hf.
    exact Hf.
Qed.

Lemma pid_is_running_verdict_witness :
  exists r s',
    psutil_pid_is_running (build32 true) os_active_unlisted 5 4 initial_state
    = Done r s'
    /\ (r = 1 \/ r = 0 \/ r = -1)
    /\ (r = -1 -> pending s')
    /\ (pending initial_state -> pending s')
    /\ (PSUTIL_TESTING (build32 true) = false -> r <> -1 ->
        pyerr s' = pyerr initial_state).
Proof.
  eexists _, _. split; [vm_compute; reflexivity|].
  apply (pid_is_running_verdict (build32 true) os_active_unlisted 5 4
           initial_state).
  vm_compute. reflexivity.
Defined.

(** X6: psutil_handle_from_pid returns NULL only with a Python exception
    pending and never clears a pending exception; in a build without
    PSUTIL_TESTING a handle is returned with the exception state as it
    was. *)
Theorem handle_from_pid_reports cfg os fuel pid access s r s' :
  psutil_handle_from_pid cfg os fuel pid access s = Done r s' ->
  (r = NULL -> pending s')
  /\ (pending s -> pending s')
  /\ (PSUTIL_TESTING cfg = false -> r <> NULL -> pyerr s' = pyerr s).
Proof.
  intros H.
  destruct (loud_handle_from_pid cfg os fuel pid access s r s' H)
    as [Hbad Hkeep].
  split; [|split; [exact Hkeep|]].
  - intros ->. apply Hbad. reflexivity.
  - intros Hbuild Hr.
    pose proof (faithful_handle_from_pid cfg os fuel Hbuild pid access
                  s r s' H) as Hf.
    unfold is_null in Hf. apply Z.eqb_neq in Hr. rewrite Hr in Hf. exact Hf.
Qed.

Lemma handle_from_pid_reports_witness :
  exists r s',
    psutil_handle_from_pid (build32 false) os_open_invalid_listed 5 4
      query_access initial_state = Done r s'
    /\ (r = NULL -> pending s')
    /\ (pending initial_state -> pending s')
    /\ (PSUTIL_TESTING (build32 false) = false -> r <> NULL ->
        pyerr s' = pyerr initial_state).
Proof.
  eexists _, _. split; [vm_compute; reflexivity|].
  apply (handle_from_pid_reports (build32 false) os_open_invalid_listed 5 4
           query_access initial_state).
  vm_compute. reflexivity.
Defined.

(** X8: psutil_get_process_data returns 0 with the buffer and its size
    assigned, or -1 with neither; -1 only with a Python exception pending;
    a pending exception is never cleared, and in a build without
    PSUTIL_TESTING a return of 0 leaves the exception state as it was. *)
Theorem get_process_data_contract cfg os fuel pid kind s r s' :
  psutil_get_process_data cfg os fuel pid kind s = Done r s' ->
  code_and_output r
  /\ (fst r = -1 -> pending s')
  /\ (pending s -> pending s')
  /\ (PSUTIL_TESTING cfg = false -> fst r = 0 -> pyerr s' = pyerr s).
Proof.
  intros H.
  split; [apply (get_process_data_shape cfg os fuel pid kind s r s' H)|].
  destruct (loud_get_process_data cfg os fuel pid kind s r s' H)
    as [Hbad Hkeep].
  split; [|split; [exact Hkeep|]].
  - intros Hr. apply Hbad. unfold nonzero_code. rewrite Hr. reflexivity.
  - intros Hbuild Hr.
    pose proof (faithful_get_process_data cfg os fuel Hbuild pid kind
                  s r s' H) as Hf.
    unfold nonzero_code in Hf. rewrite Hr in Hf. exact Hf.
Qed.

Lemma get_process_data_contract_witness :
  exists r s',
    psutil_get_process_data (build32 false) (os_live (params 6 8) page_at)
      5 4 KIND_CWD initial_state = Done r s'
    /\ code_and_output r
    /\ (fst r = -1 -> pending s')
    /\ (pending initial_state -> pending s')
    /\ (PSUTIL_TESTING (build32 false) = false -> fst r = 0 ->
        pyerr s' = pyerr initial_state).
Proof.
  eexists _, _. split; [vm_compute; reflexivity|].
  apply (get_process_data_contract (build32 false)
           (os_live (params 6 8) page_at) 5 4 KIND_CWD initial_state).
  vm_compute. reflexivity.
Defined.

Lemma get_cmdline_data_terminated cfg os fuel pid :
  returns (fun r => fst r = 0 ->
                    exists ws size, snd r = Some (ws ++ [0], size))
    (psutil_get_cmdline_data cfg os fuel pid).
Proof.
  assert (He : forall h,
             returns (fun r : Z * option (list Z * Z) =>
                        fst r = 0 ->
                        exists ws size, snd r = Some (ws ++ [0], size))
               (@cmdline_data_error os (list Z * Z) h)).
  { intros h. unfold cmdline_data_error. returns_auto. discriminate. }
  unfold psutil_get_cmdline_data. cbv zeta.
  returns_auto; try apply He.
  cbn [fst snd]. intros _. eexists _, _. reflexivity.
Qed.

(** X14: psutil_get_cmdline_data returns 0 with the string and its size
    assigned, or -1 with neither; the string ends with the terminator the
    function appends; -1 is returned only with a Python exception pending,
    a pending exception is never cleared, and in a build without
    PSUTIL_TESTING a return of 0 leaves the exception state as it was. *)
Theorem get_cmdline_data_contract cfg os fuel pid s r s' :
  psutil_get_cmdline_data cfg os fuel pid s = Done r s' ->
  code_and_output r
  /\ (fst r = 0 -> exists ws size, snd r = Some (ws ++ [0], size))
  /\ (fst r = -1 -> pending s')
  /\ (pending s -> pending s')
  /\ (PSUTIL_TESTING cfg = false -> fst r = 0 -> pyerr s' = pyerr s).
Proof.
  intros H.
  split; [apply (get_cmdline_data_shape cfg os fuel pid s r s' H)|].
  split; [apply (get_cmdline_data_terminated cfg os fuel pid s r s' H)|].
  destruct (loud_get_cmdline_data cfg os fuel pid s r s' H) as [Hbad Hkeep].
  split; [|split; [exact Hkeep|]].
  - intros Hr. apply Hbad. unfold nonzero_code. rewrite Hr. reflexivity.
  - intros Hbuild Hr.
    pose proof (faithful_get_cmdline_data cfg os fuel Hbuild pid s r s' H)
      as Hf.
    unfold nonzero_code in Hf. rewrite Hr in Hf. exact Hf.
Qed.

Lemma get_cmdline_data_contract_witness :
  exists r s',
    psutil_get_cmdline_data (build32 false) (os_live (params 6 8) page_at)
      5 4 initial_state = Done r s'
    /\ code_and_output r
    /\ (fst r = 0 -> exists ws size, snd r = Some (ws ++ [0], size))
    /\ (fst r = -1 -> pending s')
    /\ (pending initial_state -> pending s')
    /\ (PSUTIL_TESTING (build32 false) = false -> fst r = 0 ->
        pyerr s' = pyerr initial_state).
Proof.
  eexists _, _. split; [vm_compute; reflexivity|].
  apply (get_cmdline_data_contract (build32 false)
           (os_live (params 6 8) page_at) 5 4 initial_state).
  vm_compute. reflexivity.
Defined.

Lemma scan_loop_sound n buffer pid :
  forall process,
    returns (fun r => forall off p,
                 r = Some (off, p) ->
                 buffer off = Some p /\ UniqueProcessId p = pid)
      (scan_loop n buffer pid process).
Proof.
  induction n as [|n IH]; intros process; cbn [scan_loop].
  - apply returns_abort.
  - destruct (buffer process) as [p|] eqn:Hp; [|apply returns_abort].
    destruct (UniqueProcessId p =? pid) eqn:E.
    + apply returns_ret. intros off p' Hr. injection Hr as <- <-.
      apply Z.eqb_eq in E. auto.
    + destruct (ULONG (NextEntryOffset p) =? 0).
      * apply returns_ret. discriminate.
      * apply IH.
Qed.

Lemma get_proc_info_shape os fuel pid :
  returns (fun r =>
             (fst r = 1
              /\ exists off p, snd r = Some (off, p)
                               /\ UniqueProcessId p = pid)
             \/ (fst r = 0 /\ snd r = None))
    (psutil_get_proc_info os fuel pid).
Proof.
  unfold psutil_get_proc_info.
  apply returns_bind. intros [buffer|].
  - eapply returns_bind_with; [apply scan_loop_sound|].
    intros [[off p]|] Hr.
    + apply returns_ret. left. split; [reflexivity|].
      exists off, p. split; [reflexivity|].
      apply (Hr off p eq_refl).
    + apply returns_bind. intros _. apply returns_ret. right. auto.
  - apply returns_ret. right. auto.
Qed.

(** X18: psutil_get_proc_info returns 1 with a record of the snapshot whose
    process id is the pid asked for, the exception state as it was, or 0
    with no record and a Python exception pending; a pending exception is
    never cleared. *)
Theorem get_proc_info_sound os fuel pid s r s' :
  psutil_get_proc_info os fuel pid s = Done r s' ->
  ((fst r = 1
    /\ (exists off p, snd r = Some (off, p) /\ UniqueProcessId p = pid)
    /\ pyerr s' = pyerr s)
   \/ (fst r = 0 /\ snd r = None /\ pending s'))
  /\ (pending s -> pending s').
Proof.
  intros H.
  pose proof (faithful_get_proc_info os fuel pid s r s' H) as Hf.
  unfold zero_code in Hf.
  split; [|apply (loud_get_proc_info os fuel pid s r s' H)].
  destruct (get_proc_info_shape os fuel pid s r s' H)
    as [[Hr Hp]|[Hr Hp]]; rewrite Hr in Hf.
  - left. auto.
  - right. auto.
Qed.

Lemma get_proc_info_sound_witness :
  exists r s',
    psutil_get_proc_info (os_live (params 6 8) page_at) 5 8 initial_state
    = Done r s'
    /\ ((fst r = 1
         /\ (exists off p, snd r = Some (off, p) /\ UniqueProcessId p = 8)
         /\ pyerr s' = pyerr initial_state)
        \/ (fst r = 0 /\ snd r = None /\ pending s'))
    /\ (pending initial_state -> pending s').
Proof.
  eexists _, _. split; [vm_compute; reflexivity|].
  apply (get_proc_info_sound (os_live (params 6 8) page_at) 5 8
           initial_state).
  vm_compute. reflexivity.
Defined.

(** ** The bytes returned *)

(** A copy that succeeds holds the [size] bytes one read took from the
    target at [src], followed by two zero bytes: a request of
    [size + 2] bytes that wraps around cannot succeed. *)
Lemma copy_field_bytes cfg os narrower h src size :
  0 <= size < 2 ^ ptr_bits cfg ->
  returns (fun r =>
             forall buffer,
               r = Some buffer ->
               exists t,
                 size <= Z.of_nat (List.length (os_read_bytes os t h src))
                 /\ buffer
                    = firstn (Z.to_nat size) (os_read_bytes os t h src)
                        ++ [x00; x00])
    (copy_field cfg os narrower h src size).
Proof.
  intros Hsize s r s' H buffer ->.
  rewrite copy_field_unfold in H. cbv zeta in H.
  destruct (os_alloc os (clock s) (SIZE_T cfg (size + 2))); [|discriminate].
  destruct (read_into os narrower h src _ size _) as [[b|] s4|] eqn:Er;
    try discriminate.
  injection H as -> _.
  destruct (Z_lt_ge_dec (size + 2) (2 ^ ptr_bits cfg)) as [Hfit|Hwrap].
  - rewrite SIZE_T_small in Er by lia.
    apply read_into_fresh in Er; [|lia].
    destruct Er as (data & Hdata & Hlen & ->).
    cbn [clock after_call] in Hdata. subst data.
    exists (S (clock s)). split; [|reflexivity].
    rewrite length_firstn in Hlen. lia.
  - exfalso.
    assert (Hn : SIZE_T cfg (size + 2) = size + 2 - 2 ^ ptr_bits cfg).
    { unfold SIZE_T. symmetry.
      pose proof (ptr_bits_cases cfg) as [Hp|Hp]; rewrite Hp in *;
        apply (Z.mod_unique_pos _ _ 1); lia. }
    rewrite Hn in Er. unfold read_into, bind, syscall, ret in Er.
    destruct (size <=? _) eqn:Hle; [|discriminate].
    apply Z.leb_le in Hle.
    rewrite firstn_length_le, repeat_length in Er by lia.
    destruct (_ <=? _)%nat eqn:Hc; [|discriminate].
    apply Nat.leb_le in Hc.
    pose proof (ptr_bits_cases cfg) as [Hp|Hp]; rewrite Hp in *; lia.
Qed.

Lemma USHORT_fits cfg (x : Z) : 0 <= x < 2 ^ 16 -> 0 <= x < 2 ^ ptr_bits cfg.
Proof.
  intros H. pose proof (ptr_bits_cases cfg) as [Hp|Hp]; rewrite Hp; lia.
Qed.

Lemma walk_control_block_params os kind wide ptr h ppeb (bits : Z) :
  (bits = 32 \/ bits = 64) ->
  (forall x, ptr x = x mod 2 ^ bits) ->
  returns (fun r => forall f,
               r = Some f -> from_params os h kind (fst f) (snd f))
    (walk_control_block os kind wide ptr h ppeb).
Proof.
  intros Hbits Hptr s r s' H. unfold walk_control_block in H.
  apply bind_done in H. destruct H as ([params_at|] & s1 & _ & H).
  2:{ apply bind_done in H. destruct H as (u & s2 & _ & H).
      injection H as <- _. discriminate. }
  apply bind_done in H. destruct H as ([pp|] & s2 & Hpp & H).
  2:{ apply bind_done in H. destruct H as (u & s3 & _ & H).
      injection H as <- _. discriminate. }
  unfold read_params, syscall in Hpp. injection Hpp as Hpp _.
  apply bind_done in H. destruct H as (f & s3 & Hf & H).
  injection H as <- _. intros f' Hf'. injection Hf' as <-.
  exists (clock s1), (ptr params_at), pp, bits.
  split; [exact Hbits|]. split; [exact Hpp|].
  unfold select_field in Hf. destruct kind.
  - injection Hf as <- _. cbn [fst snd field_pointer field_length].
    split; [apply Hptr|]. intros len Hlen. injection Hlen as <-. reflexivity.
  - injection Hf as <- _. cbn [fst snd field_pointer field_length].
    split; [apply Hptr|]. intros len Hlen. injection Hlen as <-. reflexivity.
  - apply bind_done in Hf. destruct Hf as (junk & s4 & _ & Hf).
    injection Hf as <- _. cbn [fst snd field_pointer field_length].
    split; [apply Hptr | discriminate].
Qed.

Lemma ptr_bits_choice cfg : ptr_bits cfg = 32 \/ ptr_bits cfg = 64.
Proof. unfold ptr_bits. destruct (WIN64 cfg); auto. Qed.

Lemma locate_field_params cfg os kind h :
  returns (fun r => forall n src size,
               r = Some (n, src, size) -> from_params os h kind src size)
    (locate_field cfg os kind h).
Proof.
  assert (Hnone : forall c : M unit,
             returns (fun r : option (bool * Z * Z) =>
                        forall n src size,
                          r = Some (n, src, size) ->
                          from_params os h kind src size)
               (bind c (fun _ => ret None))).
  { intros c. apply returns_bind. intros _. apply returns_ret. discriminate. }
  assert (Hmap : forall flag (c : M (option (Z * Z))),
             returns (fun r => forall f,
                          r = Some f ->
                          from_params os h kind (fst f) (snd f)) c ->
             returns (fun r : option (bool * Z * Z) =>
                        forall n src size,
                          r = Some (n, src, size) ->
                          from_params os h kind src size)
               (bind c (fun f => ret (option_map
                                        (fun f => (flag, fst f, snd f)) f)))).
  { intros flag c Hc s r s' H. apply bind_done in H.
    destruct H as (f & s1 & H1 & H). injection H as <- _.
    intros n src size Hf. destruct f as [[src0 size0]|]; [|discriminate].
    cbn [option_map fst snd] in Hf. injection Hf as _ <- <-.
    apply (Hc s (Some (src0, size0)) s1 H1 (src0, size0) eq_refl). }
  assert (Hnative : returns (fun r => forall f,
                                 r = Some f ->
                                 from_params os h kind (fst f) (snd f))
                      (locate_native cfg os kind h)).
  { unfold locate_native. apply returns_bind. intros r.
    destruct (negb (NT_SUCCESS (fst r))).
    - apply returns_bind. intros _. apply returns_ret. discriminate.
    - apply (walk_control_block_params os kind false (SIZE_T cfg) h _
               (ptr_bits cfg) (ptr_bits_choice cfg)).
      reflexivity. }
  unfold locate_field. destruct (WIN64 cfg).
  - apply returns_bind. intros r.
    destruct (negb (NT_SUCCESS (fst r))); [apply Hnone|].
    destruct (negb (SIZE_T cfg (snd r) =? NULL)); apply Hmap.
    + apply (walk_control_block_params os kind false DWORD h _ 32).
      * auto.
      * reflexivity.
    + exact Hnative.
  - apply returns_bind. intros [we|]; [|apply Hnone].
    apply returns_bind. intros [they|]; [|apply Hnone].
    destruct (we && negb they)%bool; apply Hmap; [|exact Hnative].
    unfold locate_wow64_to_64. apply returns_bind. intros q.
    destruct (q =? NULL).
    { apply returns_bind. intros _. apply returns_ret. discriminate. }
    apply returns_bind. intros rd.
    destruct (rd =? NULL).
    { apply returns_bind. intros _. apply returns_ret. discriminate. }
    apply returns_bind. intros r.
    destruct (negb (NT_SUCCESS (fst r))).
    { apply returns_bind. intros _. apply returns_ret. discriminate. }
    apply (walk_control_block_params os kind true _ h _ 64).
    + auto.
    + reflexivity.
Qed.

(** A successful lookup by psutil_GetProcAddress makes two calls. *)
Lemma GetProcAddress_clock os lib name s p s1 :
  psutil_GetProcAddress os lib name s = Done p s1 ->
  p <> NULL -> clock s1 = S (S (clock s)).
Proof.
  intros H Hp. unfold psutil_GetProcAddress in H.
  apply bind_done in H. destruct H as (m & s2 & Hm & H).
  unfold GetModuleHandleA, syscall in Hm. injection Hm as _ <-.
  destruct (m =? NULL).
  - apply bind_done in H. destruct H as (u & s3 & _ & H).
    injection H as <- _. congruence.
  - apply bind_done in H. destruct H as (a & s3 & Ha & H).
    unfold GetProcAddress, syscall in Ha. injection Ha as _ <-.
    destruct (a =? NULL).
    + apply bind_done in H. destruct H as (u & s4 & _ & H).
      injection H as <- _. congruence.
    + injection H as _ <-. reflexivity.
Qed.

(** A handle returned by psutil_handle_from_pid is the one OpenProcess
    returned, at the first call made, for the pid and the access rights
    asked for. *)
Lemma handle_from_pid_origin cfg os fuel pid access s h s' :
  psutil_handle_from_pid cfg os fuel pid access s = Done h s' ->
  h <> NULL ->
  pid <> 0 /\ os_OpenProcess os (clock s) access pid = h.
Proof.
  intros H Hh. unfold psutil_handle_from_pid in H.
  destruct (pid =? 0) eqn:E0.
  { injection H as <- _. congruence. }
  apply Z.eqb_neq in E0. split; [exact E0|].
  apply bind_done in H. destruct H as (h0 & s1 & Hopen & H).
  unfold OpenProcess, syscall in Hopen. injection Hopen as Hopen _.
  unfold psutil_check_phandle in H.
  apply bind_done in H. destruct H as (r & s2 & _ & H).
  destruct (r =? 1).
  - injection H as <- _. exact Hopen.
  - destruct (r =? 0).
    + injection H as <- _. congruence.
    + destruct (r =? -1).
      * apply bind_done in H. destruct H as (u & s3 & _ & H).
        injection H as <- _. congruence.
      * injection H as <- _. congruence.
Qed.

(** A run of psutil_get_process_data that returns 0 is a run of its body
    on the handle OpenProcess returned for the pid, at the third call. *)
Lemma get_process_data_entry cfg os fuel pid kind s r s' :
  psutil_get_process_data cfg os fuel pid kind s = Done r s' ->
  fst r = 0 ->
  exists h s1,
    h <> NULL
    /\ os_OpenProcess os (S (S (clock s))) query_access pid = h
    /\ get_process_data_from_handle cfg os kind h s1 = Done r s'.
Proof.
  intros H Hr. unfold psutil_get_process_data in H. cbv zeta in H.
  apply bind_done in H. destruct H as (p & s0 & Hp & H).
  destruct (p =? NULL) eqn:Ep.
  { injection H as <- _. discriminate. }
  apply Z.eqb_neq in Ep.
  apply (GetProcAddress_clock os _ _ s p s0 Hp) in Ep.
  apply bind_done in H. destruct H as (h & s1 & Hh & H).
  destruct (h =? NULL) eqn:Eh.
  { injection H as <- _. discriminate. }
  apply Z.eqb_neq in Eh.
  destruct (handle_from_pid_origin cfg os fuel pid _ s0 h s1 Hh Eh)
    as [_ Hopen].
  rewrite Ep in Hopen.
  exists h, s1. split; [exact Eh|]. split; [exact Hopen | exact H].
Qed.

(** The buffer the body of psutil_get_process_data returns holds the
    [size] bytes one read took through the handle from the memory of the
    target at [src], followed by two zero bytes, whatever the kind; [src]
    is the pointer of the parameters block, [size] its length field or,
    for the environment, what is left of the memory region. *)
Lemma from_handle_bytes cfg os kind h :
  returns (fun r =>
             forall buffer size,
               r = (0, Some (buffer, size)) ->
               0 <= size
               /\ exists t src,
                    size <= Z.of_nat (List.length (os_read_bytes os t h src))
                    /\ buffer
                       = firstn (Z.to_nat size) (os_read_bytes os t h src)
                           ++ [x00; x00]
                    /\ (exists size0, from_params os h kind src size0)
                    /\ (kind <> KIND_ENVIRON ->
                        from_params os h kind src size)
                    /\ (kind = KIND_ENVIRON ->
                        to_region_end cfg os h src size))
    (get_process_data_from_handle cfg os kind h).
Proof.
  assert (He : returns (fun r : Z * option (list byte * Z) =>
                        forall buffer size,
                          r = (0, Some (buffer, size)) ->
                          0 <= size
                          /\ exists t src,
                               size <= Z.of_nat (List.length
                                                   (os_read_bytes os t h src))
                               /\ buffer
                                  = firstn (Z.to_nat size)
                                      (os_read_bytes os t h src)
                                      ++ [x00; x00]
                               /\ (exists size0,
                                      from_params os h kind src size0)
                               /\ (kind <> KIND_ENVIRON ->
                                   from_params os h kind src size)
                               /\ (kind = KIND_ENVIRON ->
                                   to_region_end cfg os h src size))
               (@process_data_error os (list byte * Z) h)).
  { unfold process_data_error. returns_auto; discriminate. }
  unfold get_process_data_from_handle.
  intros s r s' H. apply bind_done in H.
  destruct H as ([[[narrower src] size0]|] & s1 & Hloc & H);
    [|apply (He s1 r s' H)].
  assert (Hsz0 : kind <> KIND_ENVIRON -> 0 <= size0 < 2 ^ ptr_bits cfg).
  { intros Hk. apply USHORT_fits.
    apply (locate_field_size cfg os kind h s narrower src size0 s1 Hk Hloc). }
  pose proof (locate_field_params cfg os kind h s _ s1 Hloc narrower src
                size0 eq_refl) as Hparams.
  apply bind_done in H. destruct H as (sz & s2 & Hsz & H).
  assert (Hrange : forall size,
             sz = Some size ->
             0 <= size < 2 ^ ptr_bits cfg
             /\ (kind <> KIND_ENVIRON -> size = size0)
             /\ (kind = KIND_ENVIRON -> to_region_end cfg os h src size)).
  { destruct kind.
    - injection Hsz as <- _. intros size Hs. injection Hs as <-.
      split; [apply Hsz0; discriminate|]. split; [reflexivity|discriminate].
    - injection Hsz as <- _. intros size Hs. injection Hs as <-.
      split; [apply Hsz0; discriminate|]. split; [reflexivity|discriminate].
    - unfold environ_size in Hsz. destruct narrower.
      + apply bind_done in Hsz. destruct Hsz as (u & s3 & _ & Hsz).
        injection Hsz as <- _. discriminate.
      + unfold psutil_get_process_region_size in Hsz.
        apply bind_done in Hsz.
        destruct Hsz as ([[base rs]|] & s3 & Hq & Hsz).
        * unfold VirtualQueryEx, syscall in Hq. injection Hq as Hq _.
          injection Hsz as <- _. intros size Hs. injection Hs as <-.
          split; [|split; [congruence|]].
          -- unfold SIZE_T. apply Z.mod_pos_bound.
             pose proof (ptr_bits_cases cfg) as [Hp|Hp]; rewrite Hp; lia.
          -- intros _. exists (clock s1), base, rs. auto.
        * apply bind_done in Hsz. destruct Hsz as (u & s4 & _ & Hsz).
          injection Hsz as <- _. discriminate. }
  destruct sz as [size|]; [|apply (He s2 r s' H)].
  destruct (Hrange size eq_refl) as (Hr & Hsame & Hregion).
  apply bind_done in H. destruct H as (b & s3 & Hb & H).
  pose proof (copy_field_bytes cfg os narrower h src size Hr s2 b s3 Hb)
    as Hbytes.
  destruct b as [buffer|]; [|apply (He s3 r s' H)].
  apply bind_done in H. destruct H as (u & s4 & _ & H).
  injection H as <- _. intros buffer' size' Hres. injection Hres as <- <-.
  split; [lia|].
  destruct (Hbytes buffer eq_refl) as (t & Hle & Hbuf).
  exists t, src. split; [exact Hle|]. split; [exact Hbuf|].
  split; [exists size0; exact Hparams|]. split; [|exact Hregion].
  intros Hk. rewrite (Hsame Hk). exact Hparams.
Qed.


(** The same for a run of psutil_get_process_data, the handle being the
    one OpenProcess returned for the pid. *)
Lemma get_process_data_bytes cfg os fuel pid kind s buffer size s' :
  psutil_get_process_data cfg os fuel pid kind s
  = Done (0, Some (buffer, size)) s' ->
  0 <= size
  /\ exists t h src,
       h <> NULL
       /\ os_OpenProcess os (S (S (clock s))) query_access pid = h
       /\ size <= Z.of_nat (List.length (os_read_bytes os t h src))
       /\ buffer
          = firstn (Z.to_nat size) (os_read_bytes os t h src) ++ [x00; x00]
       /\ (exists size0, from_params os h kind src size0)
       /\ (kind <> KIND_ENVIRON -> from_params os h kind src size)
       /\ (kind = KIND_ENVIRON -> to_region_end cfg os h src size).
Proof.
  intros H.
  destruct (get_process_data_entry cfg os fuel pid kind s _ s' H eq_refl)
    as (h & s1 & Hh & Hopen & Hbody).
  destruct (from_handle_bytes cfg os kind h s1 _ s' Hbody buffer size
              eq_refl) as (Hsize & t & src & Hrest).
  split; [exact Hsize|]. exists t, h, src. auto.
Qed.

Lemma wcslen_bound :
  forall n buf, wcslen buf = Some n -> (2 * n + 2 <= List.length buf)%nat.
Proof.
  induction n as [|n IH]; intros [|b0 [|b1 rest]] H; cbn [wcslen] in H;
    try discriminate.
  - cbn [List.length]. lia.
  - destruct (Byte.eqb b0 x00 && Byte.eqb b1 x00)%bool; [discriminate|].
    destruct (wcslen rest) as [m|] eqn:E; [|discriminate].
    injection H as ->. apply IH in E. cbn [List.length]. lia.
Qed.

(** Data of [k] 16-bit units none of which is zero, followed by a
    terminator, is a string of length [k]. *)
Lemma wcslen_whole :
  forall k data,
    List.length data = (2 * k)%nat -> wcslen data = None ->
    wcslen (data ++ [x00; x00]) = Some k.
Proof.
  induction k as [|k IH]; intros data Hlen Hnone.
  - destruct data; [reflexivity | discriminate].
  - destruct data as [|b0 [|b1 rest]]; cbn [List.length] in Hlen; try lia.
    cbn [wcslen app] in *.
    destruct (Byte.eqb b0 x00 && Byte.eqb b1 x00)%bool; [discriminate|].
    destruct (wcslen rest) eqn:E; [discriminate|].
    rewrite (IH rest); [reflexivity | lia | exact E].
Qed.

Lemma firstn_app_left {A} (n : nat) (l1 l2 : list A) :
  (n <= List.length l1)%nat -> firstn n (l1 ++ l2) = firstn n l1.
Proof.
  intros H. rewrite firstn_app.
  replace (n - List.length l1)%nat with O by lia.
  cbn [firstn]. apply app_nil_r.
Qed.

(** X11: psutil_get_cwd returns the directory path of the process with
    the pid asked for: the handle the bytes are read through is the one
    OpenProcess returned for that pid, at the third call of the run; the
    bytes are read at the Buffer pointer of the CurrentDirectoryPath of a
    parameters block read through that handle, [size] of them, [size]
    being the Length field of that block; and the result is those of them
    that precede the first zero 16-bit unit.  They are a prefix of the
    bytes read from the target, never the two padding bytes of the buffer;
    a path of even length without a zero unit is returned whole. *)
Theorem get_cwd_string cfg os fuel pid s out s' :
  psutil_get_cwd cfg os fuel pid s = Done (Some out) s' ->
  exists t src size n,
    let h := os_OpenProcess os (S (S (clock s))) query_access pid in
    let data := firstn (Z.to_nat size) (os_read_bytes os t h src) in
    h <> NULL
    /\ from_params os h KIND_CWD src size
    /\ 0 <= size <= Z.of_nat (List.length (os_read_bytes os t h src))
    /\ wcslen (data ++ [x00; x00]) = Some n
    /\ 2 * Z.of_nat n <= size
    /\ out = firstn (2 * n) data
    /\ (Z.even size = true -> wcslen data = None -> out = data).
Proof.
  intros H. unfold psutil_get_cwd in H.
  apply bind_done in H. destruct H as ([code o] & s1 & H1 & H).
  pose proof (get_process_data_shape cfg os fuel pid KIND_CWD _ _ _ H1)
    as [[Hc Ho]|[Hc Ho]]; cbn [fst snd] in Hc, Ho; subst code.
  2:{ subst o. discriminate. }
  destruct o as [[buffer size]|]; [|congruence].
  destruct (get_process_data_bytes cfg os fuel pid KIND_CWD _ _ _ _ H1)
    as (Hsize & t & h & src & Hh & Hopen & Hle & Hbuf & _ & Hfrom & _).
  assert (Hcwd : KIND_CWD <> KIND_ENVIRON) by discriminate.
  specialize (Hfrom Hcwd).
  destruct (wcslen buffer) as [n|] eqn:Hn; [|discriminate].
  apply bind_done in H. destruct H as (ok & s2 & _ & H).
  destruct ok; [|discriminate].
  injection H as <- _.
  exists t, src, size, n. cbv zeta. rewrite Hopen.
  set (data := firstn (Z.to_nat size) (os_read_bytes os t h src)) in *.
  assert (Hlen : List.length data = Z.to_nat size).
  { subst data. apply firstn_length_le. lia. }
  pose proof (wcslen_bound n buffer Hn) as Hb.
  rewrite Hbuf, length_app, Hlen in Hb. cbn [List.length] in Hb.
  split; [exact Hh|]. split; [exact Hfrom|].
  split; [lia|]. rewrite <- Hbuf. split; [exact Hn|]. split; [lia|].
  assert (Hout : PyUnicode_FromWideChar buffer n = firstn (2 * n) data).
  { unfold PyUnicode_FromWideChar. rewrite Hbuf.
    apply firstn_app_left. lia. }
  split; [exact Hout|].
  intros Heven Hnone. rewrite Hout.
  apply Z.even_spec in Heven. destruct Heven as (k & Hk).
  assert (Hw : wcslen (data ++ [x00; x00]) = Some (Z.to_nat k)).
  { apply wcslen_whole; [lia | exact Hnone]. }
  rewrite <- Hbuf, Hn in Hw. injection Hw as ->.
  apply firstn_all2. lia.
Qed.

Lemma get_cwd_string_witness :
  exists out s' t src size n,
    psutil_get_cwd (build32 false) (os_live (params 6 8) page_at) 5 4
      initial_state = Done (Some out) s'
    /\ let os := os_live (params 6 8) page_at in
       let h := os_OpenProcess os 2 query_access 4 in
       let data := firstn (Z.to_nat size) (os_read_bytes os t h src) in
       h <> NULL
       /\ from_params os h KIND_CWD src size
       /\ 0 <= size <= Z.of_nat (List.length (os_read_bytes os t h src))
       /\ wcslen (data ++ [x00; x00]) = Some n
       /\ 2 * Z.of_nat n <= size
       /\ out = firstn (2 * n) data
       /\ (Z.even size = true -> wcslen data = None -> out = data).
Proof.
  eexists _, _.
  assert (Hrun : psutil_get_cwd (build32 false)
                   (os_live (params 6 8) page_at) 5 4 initial_state
                 = Done (Some _) _) by (vm_compute; reflexivity).
  destruct (get_cwd_string _ _ _ _ _ _ _ Hrun)
    as (t & src & size & n & Hprop).
  exists t, src, size, n. split; [exact Hrun | exact Hprop].
Defined.

(** X12: psutil_get_environ returns the environment block of the process
    with the pid asked for: the handle the bytes are read through is the
    one OpenProcess returned for that pid, at the third call of the run;
    the bytes are read at the environment pointer of a parameters block
    read through that handle; and with [size] what is left, from that
    pointer on, of the memory region VirtualQueryEx reported through that
    handle, the result is the first 2 * (size / 2) bytes read there, a
    whole number of 16-bit units and never the padding of the buffer. *)
Theorem get_environ_bytes cfg os fuel pid s out s' :
  psutil_get_environ cfg os fuel pid s = Done (Some out) s' ->
  exists t src size,
    let h := os_OpenProcess os (S (S (clock s))) query_access pid in
    h <> NULL
    /\ (exists t' a pp bits,
          (bits = 32 \/ bits = 64)
          /\ os_read_params os t' h a = Some pp
          /\ src = env pp mod 2 ^ bits)
    /\ to_region_end cfg os h src size
    /\ 0 <= size <= Z.of_nat (List.length (os_read_bytes os t h src))
    /\ out = firstn (2 * Z.to_nat (size / 2)) (os_read_bytes os t h src)
    /\ Z.of_nat (List.length out) = 2 * (size / 2).
Proof.
  intros H. unfold psutil_get_environ in H.
  apply bind_done in H. destruct H as ([code o] & s1 & H1 & H).
  pose proof (get_process_data_shape cfg os fuel pid KIND_ENVIRON _ _ _ H1)
    as [[Hc Ho]|[Hc Ho]]; cbn [fst snd] in Hc, Ho; subst code.
  2:{ subst o. discriminate. }
  destruct o as [[buffer size]|]; [|congruence].
  destruct (get_process_data_bytes cfg os fuel pid KIND_ENVIRON _ _ _ _ H1)
    as (Hsize & t & h & src & Hh & Hopen & Hle & Hbuf & Hfrom & _ & Hregion).
  apply bind_done in H. destruct H as (ok & s2 & _ & H).
  destruct ok; [|discriminate].
  injection H as <- _.
  exists t, src, size. cbv zeta. rewrite Hopen.
  split; [exact Hh|].
  split.
  { destruct Hfrom as (size0 & t' & a & pp & bits & Hbits & Hpp & Hsrc & _).
    exists t', a, pp, bits. auto. }
  split; [apply Hregion; reflexivity|].
  assert (Hhalf : 0 <= 2 * (size / 2) <= size).
  { pose proof (Z.mul_div_le size 2). pose proof (Z.div_pos size 2). lia. }
  assert (Hout : PyUnicode_FromWideChar buffer (Z.to_nat (size / 2))
                 = firstn (2 * Z.to_nat (size / 2))
                     (os_read_bytes os t h src)).
  { unfold PyUnicode_FromWideChar. rewrite Hbuf.
    rewrite firstn_app_left by (rewrite length_firstn; lia).
    rewrite firstn_firstn. f_equal. lia. }
  split; [lia|]. split; [exact Hout|].
  rewrite Hout, length_firstn. lia.
Qed.

Lemma get_environ_bytes_witness :
  exists out s' t src size,
    psutil_get_environ (build32 false) os_short_region 5 4 initial_state
    = Done (Some out) s'
    /\ let h := os_OpenProcess os_short_region 2 query_access 4 in
       h <> NULL
       /\ (exists t' a pp bits,
             (bits = 32 \/ bits = 64)
             /\ os_read_params os_short_region t' h a = Some pp
             /\ src = env pp mod 2 ^ bits)
       /\ to_region_end (build32 false) os_short_region h src size
       /\ 0 <= size
              <= Z.of_nat (List.length
                             (os_read_bytes os_short_region t h src))
       /\ out = firstn (2 * Z.to_nat (size / 2))
                  (os_read_bytes os_short_region t h src)
       /\ Z.of_nat (List.length out) = 2 * (size / 2).
Proof.
  eexists _, _.
  assert (Hrun : psutil_get_environ (build32 false) os_short_region 5 4
                   initial_state = Done (Some _) _)
    by (vm_compute; reflexivity).
  destruct (get_environ_bytes _ _ _ _ _ _ _ Hrun)
    as (t & src & size & Hprop).
  exists t, src, size. split; [exact Hrun | exact Hprop].
Defined.

(** ** The copy buffer and its length *)

#[export] Instance Walk_ticks (P : Event -> bool) : Walk (ticks P).
Proof.
  refine {| walk_ok := fun ev => P ev = true |}; unfold ticks.
  - intros s. exists []. rewrite app_nil_r.
    split; [reflexivity | split; [reflexivity | apply plus_n_O]].
  - intros a b c (n1 & H1 & Q1 & C1) (n2 & H2 & Q2 & C2).
    exists (n1 ++ n2). split; [|split].
    + rewrite H2, H1, app_assoc. reflexivity.
    + rewrite forallb_app, Q1, Q2. reflexivity.
    + rewrite C2, C1, length_app. apply eq_sym, Nat.add_assoc.
  - intros s e. exists []. rewrite app_nil_r.
    split; [reflexivity | split; [reflexivity | apply plus_n_O]].
  - intros s ev err Hev. exists [ev]. split; [reflexivity|].
    split; [cbn; rewrite Hev; reflexivity|].
    cbn. rewrite Nat.add_comm. reflexivity.
Defined.

Lemma total_ret {A} (a : A) : total (ret a).
Proof. intros s. exists a, s. reflexivity. Qed.

Lemma total_bind {A B} (c : M A) (k : A -> M B) :
  total c -> (forall a, total (k a)) -> total (bind c k).
Proof.
  intros Hc Hk s. destruct (Hc s) as (a & s1 & H1).
  destruct (Hk a s1) as (b & s2 & H2).
  exists b, s2. unfold bind. rewrite H1. exact H2.
Qed.

Lemma total_syscall os {A} (f : nat -> A) failed ev :
  total (syscall os f failed ev).
Proof. intros s. eexists _, _. reflexivity. Qed.

Ltac total_step :=
  match goal with
  | |- total (bind _ _) => apply total_bind; [|intros ?]
  | |- total (ret _) => apply total_ret
  | |- total (syscall _ _ _ _) => apply total_syscall
  | |- total (match ?x with _ => _ end) => destruct x
  | |- total _ => intros ?; eexists _, _; reflexivity
  end.

Ltac total_auto := repeat total_step.

Ltac unfold_locate :=
  unfold locate_field, locate_native, locate_wow64_to_64, resolve_static,
    walk_control_block, select_field, psutil_GetProcAddressFromLib,
    environ_size, psutil_get_process_region_size.

(** Finding the field and its length always returns, and neither
    allocates nor copies. *)
Lemma total_locate_field cfg os kind h : total (locate_field cfg os kind h).
Proof. unfold_locate. unfold_calls. total_auto. Qed.

Lemma total_environ_size cfg os kind narrower h src size :
  total (environ_size cfg os kind narrower h src size).
Proof. unfold_locate. unfold_calls. total_auto. Qed.

Lemma ticks_locate_field cfg os kind h :
  steps (ticks before_copy) (locate_field cfg os kind h).
Proof. unfold_locate. unfold_calls. steps_auto. Qed.

Lemma ticks_environ_size cfg os kind narrower h src size :
  steps (ticks before_copy) (environ_size cfg os kind narrower h src size).
Proof. unfold_locate. unfold_calls. steps_auto. Qed.

(** A region of whole pages leaves room for two more bytes. *)
Lemma region_size_fits cfg (rs : Z) :
  rs < 2 ^ ptr_bits cfg -> rs mod PAGE_SIZE = 0 ->
  rs + 2 < 2 ^ ptr_bits cfg.
Proof.
  intros Hlt Hmod. unfold PAGE_SIZE in Hmod.
  pose proof (Z.div_mod rs 4096) as Hdiv.
  destruct (ptr_bits_cases cfg) as [Hp|Hp]; rewrite Hp in *; lia.
Qed.

(** The length of the field, once environ_size has passed. *)
Lemma environ_size_length cfg os kind h narrower src size0 size s s' :
  (kind = KIND_ENVIRON -> region_conformant cfg os) ->
  from_params os h kind src size0 ->
  (kind <> KIND_ENVIRON -> 0 <= size0 < 2 ^ 16) ->
  environ_size cfg os kind narrower h src size0 s = Done (Some size) s' ->
  computed_length cfg os h kind src size
  /\ 0 <= size
  /\ size + 2 < 2 ^ ptr_bits cfg.
Proof.
  intros Hconf Hparams Hsz0 H.
  assert (Hshort : forall x, 0 <= x < 2 ^ 16 -> x + 2 < 2 ^ ptr_bits cfg).
  { intros x Hx. destruct (ptr_bits_cases cfg) as [Hp|Hp]; rewrite Hp; lia. }
  destruct kind.
  - injection H as <- _. cbn [computed_length].
    assert (Hk : KIND_CMDLINE <> KIND_ENVIRON) by discriminate.
    specialize (Hsz0 Hk). split; [exact Hparams|]. split; [lia|auto].
  - injection H as <- _. cbn [computed_length].
    assert (Hk : KIND_CWD <> KIND_ENVIRON) by discriminate.
    specialize (Hsz0 Hk). split; [exact Hparams|]. split; [lia|auto].
  - unfold environ_size in H. destruct narrower.
    { apply bind_done in H. destruct H as (u & s1 & _ & H). discriminate. }
    unfold psutil_get_process_region_size in H.
    apply bind_done in H. destruct H as ([[base rs]|] & s1 & Hq & H).
    2:{ apply bind_done in H. destruct H as (u & s2 & _ & H).
        discriminate. }
    unfold VirtualQueryEx, syscall in Hq. injection Hq as Hq _.
    injection H as <- _.
    destruct (Hconf eq_refl _ _ _ _ _ Hq) as (Hin & Hlt & Hpages).
    pose proof (region_size_fits cfg rs Hlt Hpages) as Hfit.
    assert (Hsame : SIZE_T cfg (rs - (src - base)) = rs - (src - base))
      by (apply SIZE_T_small; lia).
    cbn [computed_length]. split; [split|].
    + exists size0. exact Hparams.
    + exists (clock s), base, rs. auto.
    + rewrite Hsame. lia.
Qed.

(** The read of copy_field into a buffer that holds [size] bytes. *)
Lemma read_into_run os wide h src buffer size s :
  0 <= size ->
  (Z.to_nat size <= List.length buffer)%nat ->
  let avail := os_read_bytes os (clock s) h src in
  read_into os wide h src buffer size s
  = if size <=? Z.of_nat (List.length avail)
    then Done (Some (firstn (Z.to_nat size) avail
                       ++ skipn (Z.to_nat size) buffer))
              (after_call s (copy_event wide h src size true) None)
    else Done None
              (after_call s (copy_event wide h src size false)
                 (if wide then None else Some (os_last_error os (clock s)))).
Proof.
  intros Hsize Hfit avail. unfold read_into, bind, syscall, ret, copy_event.
  fold avail. destruct (size <=? Z.of_nat (List.length avail)) eqn:Hle.
  - apply Z.leb_le in Hle.
    rewrite firstn_length_le by lia.
    destruct (Z.to_nat size <=? List.length buffer)%nat eqn:Hc.
    + destruct wide; reflexivity.
    + apply Nat.leb_gt in Hc. lia.
  - destruct wide; reflexivity.
Qed.

(** copy_field on a length with size + 2 representable. *)
Lemma copy_field_run cfg os wide h src size s :
  0 <= size ->
  size + 2 < 2 ^ ptr_bits cfg ->
  exists b s',
    copy_field cfg os wide h src size s = Done b s'
    /\ let avail := os_read_bytes os (S (clock s)) h src in
       if os_alloc os (clock s) (size + 2) then
         if size <=? Z.of_nat (List.length avail) then
           b = Some (firstn (Z.to_nat size) avail ++ [x00; x00])
           /\ trace s'
              = trace s ++ [EvAlloc (size + 2) true;
                            copy_event wide h src size true]
         else
           b = None /\ pending s'
           /\ trace s'
              = trace s ++ [EvAlloc (size + 2) true;
                            copy_event wide h src size false]
       else
         b = None /\ pyerr s' = Some MemoryError
         /\ trace s' = trace s ++ [EvAlloc (size + 2) false].
Proof.
  intros Hsize Hfit. rewrite copy_field_unfold. cbv zeta.
  rewrite SIZE_T_small by lia.
  destruct (os_alloc os (clock s) (size + 2)).
  2:{ eexists _, _. split; [reflexivity|]. auto. }
  rewrite read_into_run;
    [|lia | rewrite repeat_length; lia].
  cbn [clock after_call].
  destruct (size <=? _) eqn:Hle.
  - eexists _, _. split; [reflexivity|].
    cbn [trace after_call]. rewrite <- app_assoc. split; [|reflexivity].
    do 2 f_equal.
    replace (Z.to_nat (size + 2)) with (Z.to_nat size + 2)%nat by lia.
    apply (skipn_repeat_add x00 (Z.to_nat size) 2).
  - eexists _, _. split; [reflexivity|].
    split; [reflexivity|]. split; [discriminate|].
    cbn [trace after_call with_pyerr]. rewrite <- app_assoc. reflexivity.
Qed.

(** The body of psutil_get_process_data follows the protocol, and always
    returns. *)
Lemma from_handle_protocol cfg os kind h s :
  (kind = KIND_ENVIRON -> region_conformant cfg os) ->
  h <> NULL ->
  exists r s',
    get_process_data_from_handle cfg os kind h s = Done r s'
    /\ copy_protocol cfg os kind h s r s'.
Proof.
  intros Hconf Hh.
  destruct (total_locate_field cfg os kind h s) as (loc & s1 & Hloc).
  destruct (ticks_locate_field cfg os kind h s loc s1 Hloc)
    as (pre1 & Htr1 & Hpre1 & Hclock1).
  unfold get_process_data_from_handle, bind at 1. rewrite Hloc.
  destruct loc as [[[narrower src] size0]|].
  2:{ rewrite (process_data_error_closes os h s1 Hh).
      eexists _, _. split; [reflexivity|].
      exists pre1. split; [exact Hpre1|]. left.
      cbn [trace after_call]. rewrite Htr1, app_assoc.
      split; [reflexivity|]. split; [reflexivity|].
      apply (proj1 (loud_locate_field cfg os kind h s None s1 Hloc)).
      reflexivity. }
  pose proof (locate_field_params cfg os kind h s _ s1 Hloc narrower src
                size0 eq_refl) as Hparams.
  assert (Hsz0 : kind <> KIND_ENVIRON -> 0 <= size0 < 2 ^ 16).
  { intros Hk.
    apply (locate_field_size cfg os kind h s narrower src size0 s1 Hk Hloc). }
  destruct (total_environ_size cfg os kind narrower h src size0 s1)
    as (sz & s2 & Hsz).
  destruct (ticks_environ_size cfg os kind narrower h src size0 s1 sz s2 Hsz)
    as (pre2 & Htr2 & Hpre2 & Hclock2).
  unfold bind at 1. rewrite Hsz.
  assert (Hpre : forallb before_copy (pre1 ++ pre2) = true)
    by (rewrite forallb_app, Hpre1, Hpre2; reflexivity).
  assert (Htr : trace s2 = trace s ++ pre1 ++ pre2)
    by (rewrite Htr2, Htr1, app_assoc; reflexivity).
  assert (Hclock : clock s2 = (clock s + List.length (pre1 ++ pre2))%nat)
    by (rewrite Hclock2, Hclock1, length_app; apply eq_sym, Nat.add_assoc).
  destruct sz as [size|].
  2:{ rewrite (process_data_error_closes os h s2 Hh).
      eexists _, _. split; [reflexivity|].
      exists (pre1 ++ pre2). split; [exact Hpre|]. left.
      cbn [trace after_call]. rewrite Htr, !app_assoc.
      split; [reflexivity|]. split; [reflexivity|].
      apply (proj1 (loud_environ_size cfg os kind narrower h src size0
                      s1 None s2 Hsz)).
      reflexivity. }
  destruct (environ_size_length cfg os kind h narrower src size0 size s1 s2
              Hconf Hparams Hsz0 Hsz) as (Hlen & Hsize & Hfit).
  destruct (copy_field_run cfg os narrower h src size s2 Hsize Hfit)
    as (b & s3 & Hcopy & Hb).
  cbv zeta in Hb. rewrite Hclock in Hb.
  unfold bind at 1. rewrite Hcopy.
  assert (Hshape :
            copy_protocol cfg os kind h s
              (match b with
               | Some buffer => (0, Some (buffer, size))
               | None => (-1, None)
               end)
              (after_call s3 (EvCloseHandle h) None)).
  { exists (pre1 ++ pre2). split; [exact Hpre|]. right.
    exists narrower, src, size.
    split; [exact Hlen|]. split; [exact Hsize|]. split; [exact Hfit|].
    cbv zeta. cbn [trace after_call].
    destruct (os_alloc os _ (size + 2)).
    - destruct (size <=? _) eqn:Hle.
      + destruct Hb as (-> & Htr3). rewrite Htr3, Htr.
        rewrite <- !app_assoc. split; [reflexivity|].
        eexists. split; [reflexivity|]. split; [|reflexivity].
        apply Z.leb_le in Hle.
        rewrite length_app, firstn_length_le by lia. cbn. lia.
      + destruct Hb as (-> & Hpend & Htr3). rewrite Htr3, Htr.
        rewrite <- !app_assoc. split; [reflexivity|].
        split; [reflexivity | exact Hpend].
    - destruct Hb as (-> & Herr & Htr3). rewrite Htr3, Htr.
      rewrite <- !app_assoc. split; [reflexivity|].
      split; [reflexivity | exact Herr]. }
  destruct b as [buffer|].
  - eexists _, _. split; [|exact Hshape].
    unfold bind, CloseHandle, syscall, ret. reflexivity.
  - rewrite (process_data_error_closes os h s3 Hh).
    eexists _, _. split; [reflexivity | exact Hshape].
Qed.

(** A run of psutil_get_process_data returns -1 before its body, for want
    of NtQueryInformationProcess or of a handle, or is a run of the body
    on the handle OpenProcess returned for the pid at the third call. *)
Lemma get_process_data_split cfg os fuel pid kind s r s' :
  psutil_get_process_data cfg os fuel pid kind s = Done r s' ->
  let resolve :=
    psutil_GetProcAddress os "ntdll.dll" "NtQueryInformationProcess" in
  let open := psutil_handle_from_pid cfg os fuel pid query_access in
  (r = (-1, None)
   /\ (resolve s = Done NULL s'
       \/ exists p s0,
            resolve s = Done p s0 /\ p <> NULL /\ open s0 = Done NULL s'))
  \/ exists p s0 h s1,
       resolve s = Done p s0 /\ p <> NULL
       /\ open s0 = Done h s1 /\ h <> NULL
       /\ h = os_OpenProcess os (S (S (clock s))) query_access pid
       /\ get_process_data_from_handle cfg os kind h s1 = Done r s'.
Proof.
  intros H. cbv zeta. unfold psutil_get_process_data in H. cbv zeta in H.
  apply bind_done in H. destruct H as (p & s0 & Hp & H).
  destruct (p =? NULL) eqn:Ep.
  { apply Z.eqb_eq in Ep. subst p. injection H as <- <-.
    left. split; [reflexivity|]. left. exact Hp. }
  apply Z.eqb_neq in Ep.
  apply bind_done in H. destruct H as (h & s1 & Hopen & H).
  destruct (h =? NULL) eqn:Eh.
  { apply Z.eqb_eq in Eh. subst h. injection H as <- <-.
    left. split; [reflexivity|]. right. exists p, s0. auto. }
  apply Z.eqb_neq in Eh. right. exists p, s0, h, s1.
  split; [exact Hp|]. split; [exact Ep|].
  split; [exact Hopen|]. split; [exact Eh|]. split; [|exact H].
  destruct (handle_from_pid_origin cfg os fuel pid _ s0 h s1 Hopen Eh)
    as [_ Ho].
  rewrite (GetProcAddress_clock os _ _ s p s0 Hp Ep) in Ho.
  symmetry. exact Ho.
Qed.

Lemma os_paged_conformant : region_conformant (build32 false) os_paged.
Proof.
  intros t h src base rs H.
  change (page_of src = Some (base, rs)) in H. unfold page_of in H.
  assert (Hbase : base = PAGE_SIZE * (src / PAGE_SIZE)) by congruence.
  assert (Hrs : rs = PAGE_SIZE) by congruence.
  subst base rs. unfold PAGE_SIZE.
  pose proof (Z.div_mod src 4096) as Hdiv.
  pose proof (Z.mod_pos_bound src 4096) as Hmod.
  split; [lia|]. split; reflexivity.
Qed.

(** C3: psutil_get_process_data, with VirtualQueryEx reporting regions as
    the system documents where the environment is asked for (the other
    kinds need no assumption).  The body of the function, lines 547-774,
    returns from every state on an open handle: it never leaves the
    bounds of its buffer.  Before the buffer is asked for, nothing is
    allocated and no field is copied, and the length computed is not
    negative, with length + 2 representable as a SIZE_T; it is the Length
    field of the string, 16 bits, or for the environment what is left of
    the region.  The allocator is asked once, for exactly length + 2
    bytes.  A length whose buffer it cannot provide is rejected: the
    function closes the handle and returns -1 with MemoryError, and
    nothing is read from the field.  Otherwise one call copies length
    bytes into the buffer, and the buffer a successful run returns has
    exactly length + 2 bytes, the bytes read and two zero bytes.  The code
    has no test of its own on the length: the check is the answer of
    calloc.  Every run of psutil_get_process_data is a run of this body on
    the handle OpenProcess returned for the pid, or has returned -1 before
    reaching it. *)
Theorem copy_buffer_allocation cfg os kind :
  (kind = KIND_ENVIRON -> region_conformant cfg os) ->
  (forall h s,
      h <> NULL ->
      exists r s',
        get_process_data_from_handle cfg os kind h s = Done r s'
        /\ copy_protocol cfg os kind h s r s')
  /\ (forall fuel pid s r s',
         psutil_get_process_data cfg os fuel pid kind s = Done r s' ->
         let resolve :=
           psutil_GetProcAddress os "ntdll.dll" "NtQueryInformationProcess" in
         let open := psutil_handle_from_pid cfg os fuel pid query_access in
         (r = (-1, None)
          /\ (resolve s = Done NULL s'
              \/ exists p s0,
                   resolve s = Done p s0 /\ p <> NULL
                   /\ open s0 = Done NULL s'))
         \/ exists p s0 h s1,
              resolve s = Done p s0 /\ p <> NULL
              /\ open s0 = Done h s1 /\ h <> NULL
              /\ h = os_OpenProcess os (S (S (clock s))) query_access pid
              /\ get_process_data_from_handle cfg os kind h s1 = Done r s'
              /\ copy_protocol cfg os kind h s1 r s').
Proof.
  intros Hconf. split.
  - intros h s Hh. apply from_handle_protocol; assumption.
  - intros fuel pid s r s' H. cbv zeta.
    destruct (get_process_data_split cfg os fuel pid kind s r s' H)
      as [Hearly|(p & s0 & h & s1 & Hp & Ep & Hopen & Hh & Ho & Hbody)].
    + left. exact Hearly.
    + right. exists p, s0, h, s1.
      destruct (from_handle_protocol cfg os kind h s1 Hconf Hh)
        as (r' & s'' & Hrun & Hproto).
      rewrite Hbody in Hrun. injection Hrun as <- <-.
      auto 10.
Qed.

Lemma copy_buffer_allocation_witness :
  region_conformant (build32 false) os_paged
  /\ (exists r s',
        get_process_data_from_handle (build32 false) os_paged KIND_ENVIRON
          100 initial_state = Done r s'
        /\ copy_protocol (build32 false) os_paged KIND_ENVIRON 100
             initial_state r s')
  /\ exists buffer s' p s0 s1,
       psutil_get_process_data (build32 false) os_paged 5 4 KIND_ENVIRON
         initial_state = Done (0, Some (buffer, 4094)) s'
       /\ psutil_GetProcAddress os_paged "ntdll.dll"
            "NtQueryInformationProcess" initial_state = Done p s0
       /\ psutil_handle_from_pid (build32 false) os_paged 5 4 query_access s0
          = Done 100 s1
       /\ copy_protocol (build32 false) os_paged KIND_ENVIRON 100 s1
            (0, Some (buffer, 4094)) s'.
Proof.
  split; [exact os_paged_conformant|].
  destruct (copy_buffer_allocation (build32 false) os_paged KIND_ENVIRON
              (fun _ => os_paged_conformant)) as [Hbody Hall].
  split.
  - apply Hbody. discriminate.
  - eexists _, _.
    assert (Hrun : psutil_get_process_data (build32 false) os_paged 5 4
                     KIND_ENVIRON initial_state
                   = Done (0, Some (_, 4094)) _)
      by (vm_compute; reflexivity).
    destruct (Hall _ _ _ _ _ Hrun)
      as [[Hr _]|(p & s0 & h & s1 & Hp & _ & Hopen & _ & Hh & _ & Hproto)].
    + discriminate.
    + exists p, s0, s1. cbv zeta in Hp, Hopen.
      assert (Eh : h = 100) by (rewrite Hh; reflexivity).
      rewrite Eh in Hopen, Hproto.
      split; [exact Hrun|]. split; [exact Hp|].
      split; [exact Hopen | exact Hproto].
Defined.

(** ** The system calls made *)

#[export] Instance Walk_cache_capped : Walk cache_capped.
Proof.
  refine {| walk_ok := fun _ => True |}; unfold cache_capped.
  - auto.
  - intros a b c [Hab|Hab] [Hbc|Hbc]; [left; congruence | auto | right | auto].
    rewrite Hbc. exact Hab.
  - auto.
  - auto.
Defined.

Section SnapshotCalls.

Variable os : OS.
Variable fuel : nat.

Lemma calls_GetProcAddressFromLib lib name :
  steps (only_calls is_snapshot_call)
    (psutil_GetProcAddressFromLib os lib name).
Proof. unfold psutil_GetProcAddressFromLib. unfold_calls. steps_auto. Qed.

Lemma calls_query_loop n :
  forall size, steps (only_calls is_snapshot_call) (query_loop os n size).
Proof.
  induction n as [|n IH]; intros size; cbn [query_loop].
  - walk steps_abort.
  - unfold_calls. repeat first [apply IH | steps_step].
Qed.

Lemma steps_scan_loop R `{Walk R} n buffer pid process :
  steps R (scan_loop n buffer pid process).
Proof.
  intros s r s' Hrun. apply scan_loop_pure in Hrun. subst s'.
  apply walk_refl.
Qed.

Lemma calls_get_proc_info pid :
  steps (only_calls is_snapshot_call) (psutil_get_proc_info os fuel pid).
Proof.
  pose proof calls_GetProcAddressFromLib as H1.
  pose proof calls_query_loop as H2.
  unfold psutil_get_proc_info, query_snapshot. unfold_calls.
  repeat first [apply H1 | apply H2 | walk steps_scan_loop | steps_step].
Qed.

Lemma capped_GetProcAddressFromLib lib name :
  steps cache_capped (psutil_GetProcAddressFromLib os lib name).
Proof. unfold psutil_GetProcAddressFromLib. unfold_calls. steps_auto. Qed.

Lemma capped_query_loop n :
  forall size, returns (fun r => forall status len buffer,
                            r = Some (status, len, buffer) -> 0 <= len)
                 (query_loop os n size)
               /\ steps cache_capped (query_loop os n size).
Proof.
  induction n as [|n IH]; intros size; cbn [query_loop].
  - split; [apply returns_abort | walk steps_abort].
  - split.
    + unfold NtQuerySystemInformation.
      intros s r s' H. apply bind_done in H.
      destruct H as ([[status len] buffer] & s1 & H1 & H).
      unfold syscall in H1. injection H1 as H1 _.
      destruct (os_NtQuerySystemInformation os (clock s) size)
        as [[st0 len0] snap0].
      injection H1 as _ <- _.
      destruct ((status =? STATUS_BUFFER_TOO_SMALL)
                || (status =? STATUS_INFO_LENGTH_MISMATCH))%bool.
      * apply bind_done in H. destruct H as (ok & s2 & _ & H).
        destruct ok; cbn [negb] in H.
        -- apply (proj1 (IH _) _ _ _ H).
        -- apply bind_done in H. destruct H as (u & s3 & _ & H).
           injection H as <- _. discriminate.
      * injection H as <- _. intros st1 len1 b1 Hr. injection Hr as _ <- _.
        unfold ULONG. apply Z.mod_pos_bound. lia.
    + unfold_calls. repeat first [apply (proj2 (IH _)) | steps_step].
Qed.

Lemma capped_get_proc_info pid :
  steps cache_capped (psutil_get_proc_info os fuel pid).
Proof.
  unfold psutil_get_proc_info.
  walk steps_bind.
  - unfold query_snapshot. unfold_calls.
    walk steps_bind; [apply capped_GetProcAddressFromLib|]. intros p.
    destruct (p =? NULL); [steps_auto|].
    walk steps_bind; [steps_step|]. intros size.
    walk steps_bind; [steps_step|]. intros ok.
    destruct (negb ok); [steps_auto|].
    intros s r s' H. apply bind_done in H.
    destruct H as (q & s1 & Hq & H).
    pose proof (proj2 (capped_query_loop fuel size) s q s1 Hq) as Hcap.
    pose proof (proj1 (capped_query_loop fuel size) s q s1 Hq) as Hlen.
    apply (walk_trans s s1 s' Hcap). clear Hcap Hq.
    destruct q as [[[status len] buffer]|].
    + specialize (Hlen status len buffer eq_refl).
      destruct (negb (status =? 0)).
      * apply bind_done in H. destruct H as (u & s2 & H2 & H).
        injection H2 as _ <-. injection H as _ <-. left. reflexivity.
      * destruct (len <=? 131072) eqn:Hle.
        -- apply bind_done in H. destruct H as (u & s2 & H2 & H).
           injection H2 as _ <-. injection H as _ <-.
           right. cbn [initialBufferSize]. apply Z.leb_le in Hle. lia.
        -- apply bind_done in H. destruct H as (u & s2 & H2 & H).
           injection H2 as _ <-. injection H as _ <-. left. reflexivity.
    + injection H as _ <-. left. reflexivity.
  - intros [buffer|]; [|walk steps_ret].
    walk steps_bind; [walk steps_scan_loop|].
    intros [p|]; steps_auto.
Qed.

End SnapshotCalls.

(** X19: psutil_get_proc_info calls nothing but the loader, the allocator and
    NtQuerySystemInformation: it neither opens nor closes a process
    handle.  The buffer size it remembers for the next call is left as it
    was or set to a value of at most 0x20000. *)
Theorem get_proc_info_footprint os fuel pid s r s' :
  psutil_get_proc_info os fuel pid s = Done r s' ->
  (exists new,
      trace s' = trace s ++ new
      /\ forallb is_snapshot_call new = true
      /\ handle_events new = [])
  /\ (initialBufferSize s' = initialBufferSize s
      \/ 0 <= initialBufferSize s' <= 0x20000).
Proof.
  intros H. split.
  - destruct (calls_get_proc_info os fuel pid s r s' H) as (new & Htr & Hall).
    exists new. split; [exact Htr|]. split; [exact Hall|].
    clear Htr. induction new as [|e rest IH]; [reflexivity|].
    cbn [forallb] in Hall. apply andb_prop in Hall. destruct Hall as [He Hr].
    unfold handle_events in *. cbn [filter].
    destruct e; try discriminate; cbn [is_handle_event]; apply IH; exact Hr.
  - apply (capped_get_proc_info os fuel pid s r s' H).
Qed.

Lemma get_proc_info_footprint_witness :
  exists r s',
    psutil_get_proc_info (os_live (params 6 8) page_at) 5 8 initial_state
    = Done r s'
    /\ (exists new,
           trace s' = trace initial_state ++ new
           /\ forallb is_snapshot_call new = true
           /\ handle_events new = [])
    /\ (initialBufferSize s' = initialBufferSize initial_state
        \/ 0 <= initialBufferSize s' <= 0x20000).
Proof.
  eexists _, _. split; [vm_compute; reflexivity|].
  eapply (get_proc_info_footprint (os_live (params 6 8) page_at) 5 8
            initial_state).
  vm_compute. reflexivity.
Defined.

Section NoRemoteRead.

Variable cfg : Config.
Variable os : OS.
Variable fuel : nat.
Variable access : Z.

Lemma local_GetProcAddress lib name :
  steps (only_calls (no_remote_read access))
    (psutil_GetProcAddress os lib name).
Proof. unfold psutil_GetProcAddress. unfold_calls. steps_auto. Qed.

Lemma local_get_pids_loop n :
  forall cap,
  steps (only_calls (no_remote_read access))
    (get_pids_loop cfg os n cap).
Proof.
  induction n as [|n IH]; intros cap; cbn [get_pids_loop].
  - walk steps_abort.
  - unfold_calls. repeat first [apply IH | steps_step].
Qed.

Lemma local_pid_in_pids pid :
  steps (only_calls (no_remote_read access))
    (psutil_pid_in_pids cfg os fuel pid).
Proof.
  unfold psutil_pid_in_pids, psutil_get_pids.
  walk steps_bind; [apply local_get_pids_loop|].
  intros [[l n]|]; walk steps_ret.
Qed.

Hint Resolve local_GetProcAddress local_pid_in_pids : steps_db.

Lemma local_assert_pid_exists pid err :
  steps (only_calls (no_remote_read access))
    (psutil_assert_pid_exists cfg os fuel pid err).
Proof. unfold psutil_assert_pid_exists. steps_auto. Qed.

Lemma local_assert_pid_not_exists pid err :
  steps (only_calls (no_remote_read access))
    (psutil_assert_pid_not_exists cfg os fuel pid err).
Proof. unfold psutil_assert_pid_not_exists. steps_auto. Qed.

Hint Resolve local_assert_pid_exists local_assert_pid_not_exists : steps_db.

Lemma local_handle_from_pid pid :
  steps (only_calls (no_remote_read access))
    (psutil_handle_from_pid cfg os fuel pid access).
Proof.
  unfold psutil_handle_from_pid, psutil_check_phandle,
    psutil_is_phandle_running.
  unfold_calls. steps_auto.
Qed.

End NoRemoteRead.

Section QueryPath.

Variable cfg : Config.
Variable os : OS.
Variable fuel : nat.
Variable parse : nat -> list Z -> option (list (list Z)).
Variable py_alloc : nat -> bool.

Lemma local_get_cmdline_data pid :
  steps (only_calls (no_remote_read PROCESS_QUERY_LIMITED_INFORMATION))
    (psutil_get_cmdline_data cfg os fuel pid).
Proof.
  pose proof (local_GetProcAddress os PROCESS_QUERY_LIMITED_INFORMATION)
    as H1.
  pose proof (local_handle_from_pid cfg os fuel
                PROCESS_QUERY_LIMITED_INFORMATION) as H2.
  unfold psutil_get_cmdline_data, cmdline_data_error, read_local, calloc.
  cbv zeta. unfold_calls.
  repeat first [apply H1 | apply H2 | steps_step].
Qed.

Lemma local_fill_arglist args :
  steps (only_calls (no_remote_read PROCESS_QUERY_LIMITED_INFORMATION))
    (fill_arglist os py_alloc args).
Proof.
  induction args as [|arg rest IH]; cbn [fill_arglist].
  - walk steps_ret.
  - unfold py_new. unfold_calls. repeat first [apply IH | steps_step].
Qed.

Lemma local_get_cmdline pid use_peb :
  use_peb <> 1 ->
  steps (only_calls (no_remote_read PROCESS_QUERY_LIMITED_INFORMATION))
    (psutil_get_cmdline cfg os fuel parse py_alloc pid use_peb).
Proof.
  intros Hpeb. apply Z.eqb_neq in Hpeb.
  unfold psutil_get_cmdline. rewrite Hpeb.
  unfold CommandLineToArgvW, py_new. unfold_calls.
  repeat first [apply local_get_cmdline_data | apply local_fill_arglist
               | steps_step].
Qed.

End QueryPath.

(** X17: With use_peb other than 1, psutil_get_cmdline never reads the memory
    of the target, and opens the target with no other access right than
    PROCESS_QUERY_LIMITED_INFORMATION. *)
Theorem get_cmdline_query_path cfg os fuel parse py_alloc pid use_peb
  s r s' :
  use_peb <> 1 ->
  psutil_get_cmdline cfg os fuel parse py_alloc pid use_peb s = Done r s' ->
  exists new,
    trace s' = trace s ++ new
    /\ forallb (no_remote_read PROCESS_QUERY_LIMITED_INFORMATION) new = true.
Proof.
  intros Hpeb H.
  apply (local_get_cmdline cfg os fuel parse py_alloc pid use_peb Hpeb
           s r s' H).
Qed.

Lemma get_cmdline_query_path_witness :
  exists r s' new,
    psutil_get_cmdline (build32 false) (os_live (params 6 8) page_at) 5
      parse_whole py_always 4 0 initial_state = Done r s'
    /\ trace s' = trace initial_state ++ new
    /\ forallb (no_remote_read PROCESS_QUERY_LIMITED_INFORMATION) new = true.
Proof.
  eexists _, _.
  assert (Hrun : psutil_get_cmdline (build32 false)
                   (os_live (params 6 8) page_at) 5 parse_whole py_always
                   4 0 initial_state = Done _ _) by (vm_compute; reflexivity).
  assert (Hpeb : 0 <> 1) by discriminate.
  destruct (get_cmdline_query_path _ _ _ _ _ _ _ _ _ _ Hpeb Hrun)
    as (new & Hprop).
  exists new. split; [exact Hrun | exact Hprop].
Defined.

(** ** The command line as a list *)

Section CommandLineList.

Variable cfg : Config.
Variable os : OS.
Variable fuel : nat.
Variable parse : nat -> list Z -> option (list (list Z)).
Variable py_alloc : nat -> bool.

Lemma fill_arglist_items args :
  returns (fun r => forall l, r = Some l -> l = map cut_at_nul args)
    (fill_arglist os py_alloc args).
Proof.
  induction args as [|arg rest IH]; cbn [fill_arglist].
  - apply returns_ret. intros l Hl. injection Hl as <-. reflexivity.
  - apply returns_bind. intros ok.
    destruct (negb ok); [apply returns_ret; discriminate|].
    eapply returns_bind_with; [apply IH|].
    intros [items|] Hitems; apply returns_ret; [|discriminate].
    intros l Hl. injection Hl as <-. cbn [map]. f_equal.
    apply Hitems. reflexivity.
Qed.

Lemma until_nul_again :
  forall ws str, until_nul ws = Some str -> until_nul (str ++ [0]) = Some str.
Proof.
  induction ws as [|w rest IH]; intros str H; cbn [until_nul] in H.
  - discriminate.
  - destruct (w =? 0) eqn:E.
    + injection H as <-. reflexivity.
    + destruct (until_nul rest) as [tl|]; [|discriminate].
      injection H as <-. cbn [app until_nul]. rewrite E.
      rewrite (IH tl eq_refl). reflexivity.
Qed.

Lemma cmdline_data_error_code {A} h s (r : Z * option A) s' :
  cmdline_data_error os h s = Done r s' -> fst r = -1.
Proof.
  intros H. unfold cmdline_data_error in H.
  apply bind_done in H. destruct H as (h0 & s0 & _ & H).
  apply bind_done in H. destruct H as (u & s1 & _ & H).
  injection H as <- _. reflexivity.
Qed.

(** The string psutil_get_cmdline_data returns is the one
    NtQueryInformationProcess delivered for the handle OpenProcess
    returned for the pid, at the fourth call, up to its terminator. *)
Lemma get_cmdline_data_origin pid s ws size s' :
  psutil_get_cmdline_data cfg os fuel pid s = Done (0, Some (ws, size)) s' ->
  exists t str,
    let h := os_OpenProcess os (S (S (S (clock s))))
               PROCESS_QUERY_LIMITED_INFORMATION pid in
    h <> NULL
    /\ until_nul (snd (os_QueryCommandLine os t h 4096)) = Some str
    /\ ws = str ++ [0].
Proof.
  intros H. unfold psutil_get_cmdline_data in H. cbv zeta in H.
  apply bind_done in H. destruct H as (p & s0 & Hp & H).
  destruct (p =? NULL) eqn:Ep.
  { apply cmdline_data_error_code in H. discriminate. }
  apply Z.eqb_neq in Ep.
  apply (GetProcAddress_clock os _ _ s p s0 Hp) in Ep.
  apply bind_done in H. destruct H as (b & s1 & Hb & H).
  assert (Hs1 : clock s1 = S (clock s0)).
  { unfold calloc in Hb. apply bind_done in Hb.
    destruct Hb as (ok & s2 & Hok & Hb).
    unfold malloc, syscall in Hok. injection Hok as _ <-.
    injection Hb as _ <-. reflexivity. }
  destruct b as [b|].
  2:{ apply bind_done in H. destruct H as (u & s2 & _ & H).
      apply cmdline_data_error_code in H. discriminate. }
  apply bind_done in H. destruct H as (h & s2 & Hh & H).
  destruct (h =? NULL) eqn:Eh.
  { apply cmdline_data_error_code in H. discriminate. }
  apply Z.eqb_neq in Eh.
  destruct (handle_from_pid_origin cfg os fuel pid _ s1 h s2 Hh Eh)
    as [_ Hopen].
  rewrite Hs1, Ep in Hopen.
  apply bind_done in H. destruct H as ([[status len] cmd] & s3 & Hq & H).
  unfold NtQueryInformationProcess_CommandLine, syscall in Hq.
  injection Hq as Hq _.
  destruct (negb (NT_SUCCESS status)).
  { apply bind_done in H. destruct H as (u & s4 & _ & H).
    apply cmdline_data_error_code in H. discriminate. }
  destruct (until_nul cmd) as [str|] eqn:Hstr; [|discriminate].
  apply bind_done in H. destruct H as (w & s4 & _ & H).
  destruct (negb w).
  { apply bind_done in H. destruct H as (u & s5 & _ & H).
    apply cmdline_data_error_code in H. discriminate. }
  apply bind_done in H. destruct H as (u & s5 & _ & H).
  injection H as <- _ _.
  exists (clock s2), str. cbv zeta. rewrite Hopen.
  split; [exact Eh|]. rewrite Hq. cbn [snd]. auto.
Qed.

Lemma get_cmdline_items pid use_peb s l s' :
  psutil_get_cmdline cfg os fuel parse py_alloc pid use_peb s
  = Done (Some l) s' ->
  exists s1 str args,
    (use_peb = 1 ->
     exists buffer size t src,
       let h := os_OpenProcess os (S (S (clock s))) query_access pid in
       psutil_get_process_data cfg os fuel pid KIND_CMDLINE s
       = Done (0, Some (buffer, size)) s1
       /\ h <> NULL
       /\ from_params os h KIND_CMDLINE src size
       /\ buffer
          = firstn (Z.to_nat size) (os_read_bytes os t h src) ++ [x00; x00]
       /\ wide_string (inl buffer) = Some str)
    /\ (use_peb <> 1 ->
        exists ws size t,
          let h := os_OpenProcess os (S (S (S (clock s))))
                     PROCESS_QUERY_LIMITED_INFORMATION pid in
          psutil_get_cmdline_data cfg os fuel pid s
          = Done (0, Some (ws, size)) s1
          /\ h <> NULL
          /\ until_nul (snd (os_QueryCommandLine os t h 4096)) = Some str
          /\ ws = str ++ [0])
    /\ parse (clock s1) str = Some args
    /\ l = map cut_at_nul args.
Proof.
  intros H. unfold psutil_get_cmdline in H.
  apply bind_done in H. destruct H as ([code o] & s1 & Hd & H).
  cbn [fst snd] in H.
  destruct (code =? 0) eqn:Ec; cbn [negb] in H; [|discriminate].
  apply Z.eqb_eq in Ec. subst code.
  destruct o as [data|]; cbn [option_map] in H; [|discriminate].
  destruct (wide_string data) as [str|] eqn:Hstr; [|discriminate].
  apply bind_done in H. destruct H as (parsed & s2 & Hp & H).
  unfold CommandLineToArgvW, syscall in Hp. injection Hp as Hp _.
  destruct parsed as [args|].
  2:{ apply bind_done in H. destruct H as (u & s3 & _ & H). discriminate. }
  apply bind_done in H. destruct H as (ok & s3 & _ & H).
  destruct (negb ok); [discriminate|].
  pose proof (fill_arglist_items args s3 _ s' H l eq_refl) as Hl.
  exists s1, str, args.
  destruct (use_peb =? 1) eqn:Eu.
  - apply Z.eqb_eq in Eu.
    apply bind_done in Hd. destruct Hd as ([c r] & s0 & Hr & Hd).
    cbn [fst snd] in Hd. injection Hd as -> Ho <-.
    destruct r as [[buffer size]|]; [|discriminate].
    cbn [option_map fst] in Ho. injection Ho as <-.
    destruct (get_process_data_bytes cfg os fuel pid KIND_CMDLINE _ _ _ _ Hr)
      as (_ & t & h & src & Hh & Hopen & _ & Hbuf & _ & Hfrom & _).
    split; [|split; [congruence | auto]].
    intros _. exists buffer, size, t, src. cbv zeta. rewrite Hopen.
    split; [exact Hr|]. split; [exact Hh|].
    split; [apply Hfrom; discriminate|]. auto.
  - apply Z.eqb_neq in Eu.
    apply bind_done in Hd. destruct Hd as ([c r] & s0 & Hr & Hd).
    cbn [fst snd] in Hd. injection Hd as -> Ho <-.
    destruct r as [[ws size]|]; [|discriminate].
    cbn [option_map fst] in Ho. injection Ho as <-.
    destruct (get_cmdline_data_origin pid _ _ _ _ Hr)
      as (t & str0 & Hh & Hq & Hws).
    cbv zeta in Hh, Hq.
    assert (str0 = str).
    { cbn [wide_string] in Hstr. rewrite Hws in Hstr.
      rewrite (until_nul_again _ _ Hq) in Hstr. congruence. }
    subst str0.
    split; [congruence|]. split; [|auto].
    intros _. exists ws, size, t. cbv zeta. auto.
Qed.

End CommandLineList.

(** X16: psutil_get_cmdline returns NULL only with a Python exception pending
    and never clears a pending exception.  The list it returns holds, in
    order, every argument CommandLineToArgvW returned, each cut at its
    terminator, for the command line of the process with the pid asked
    for.  With use_peb 1 that command line is the string, up to its first
    zero unit, of the buffer psutil_get_process_data returned for the pid
    and KIND_CMDLINE: the bytes read, through the handle OpenProcess
    returned for the pid, at the CommandLine.Buffer pointer of a
    parameters block of that process, CommandLine.Length of them.
    Otherwise it is the string psutil_get_cmdline_data returned for the
    pid: what NtQueryInformationProcess delivered for the handle
    OpenProcess returned for the pid, up to its terminator.  The parser
    is called right after the data function returns. *)
Theorem get_cmdline_arguments cfg os fuel parse py_alloc pid use_peb
  s r s' :
  psutil_get_cmdline cfg os fuel parse py_alloc pid use_peb s = Done r s' ->
  (r = None -> pending s')
  /\ (pending s -> pending s')
  /\ (forall l,
         r = Some l ->
         exists s1 str args,
           (use_peb = 1 ->
            exists buffer size t src,
              let h := os_OpenProcess os (S (S (clock s))) query_access pid in
              psutil_get_process_data cfg os fuel pid KIND_CMDLINE s
              = Done (0, Some (buffer, size)) s1
              /\ h <> NULL
              /\ from_params os h KIND_CMDLINE src size
              /\ buffer
                 = firstn (Z.to_nat size) (os_read_bytes os t h src)
                   ++ [x00; x00]
              /\ wide_string (inl buffer) = Some str)
           /\ (use_peb <> 1 ->
               exists ws size t,
                 let h := os_OpenProcess os (S (S (S (clock s))))
                            PROCESS_QUERY_LIMITED_INFORMATION pid in
                 psutil_get_cmdline_data cfg os fuel pid s
                 = Done (0, Some (ws, size)) s1
                 /\ h <> NULL
                 /\ until_nul (snd (os_QueryCommandLine os t h 4096))
                    = Some str
                 /\ ws = str ++ [0])
           /\ parse (clock s1) str = Some args
           /\ l = map cut_at_nul args).
Proof.
  intros H.
  destruct (loud_get_cmdline cfg os fuel parse py_alloc pid use_peb s r s' H)
    as [Hbad Hkeep].
  split; [|split; [exact Hkeep|]].
  - intros ->. apply Hbad. reflexivity.
  - intros l ->.
    apply (get_cmdline_items cfg os fuel parse py_alloc pid use_peb s l s' H).
Qed.

Lemma get_cmdline_arguments_witness :
  exists l s',
    let os := os_live (params 6 8) page_at in
    psutil_get_cmdline (build32 false) os 5 parse_whole py_always 4 1
      initial_state = Done (Some l) s'
    /\ exists s1 str args,
         (exists buffer size t src,
            let h := os_OpenProcess os 2 query_access 4 in
            psutil_get_process_data (build32 false) os 5 4 KIND_CMDLINE
              initial_state = Done (0, Some (buffer, size)) s1
            /\ h <> NULL
            /\ from_params os h KIND_CMDLINE src size
            /\ buffer
               = firstn (Z.to_nat size) (os_read_bytes os t h src)
                 ++ [x00; x00]
            /\ wide_string (inl buffer) = Some str)
         /\ parse_whole (clock s1) str = Some args
         /\ l = map cut_at_nul args.
Proof.
  eexists _, _. cbv zeta.
  assert (Hrun : psutil_get_cmdline (build32 false)
                   (os_live (params 6 8) page_at) 5 parse_whole py_always
                   4 1 initial_state = Done (Some _) _)
    by (vm_compute; reflexivity).
  split; [exact Hrun|].
  destruct (get_cmdline_arguments _ _ _ _ _ _ _ _ _ _ Hrun)
    as (_ & _ & Hlist).
  destruct (Hlist _ eq_refl) as (s1 & str & args & Hpeb & _ & Hparse & Hl).
  exists s1, str, args. split; [exact (Hpeb eq_refl)|]. auto.
Defined.

(** ** Current directory and environment: failure *)

Lemma faithful_bind_with {A B} (Q : A -> Prop) (badc : A -> bool)
  (bad : B -> bool) (c : M A) (k : A -> M B) :
  faithful badc c -> returns Q c ->
  (forall a,
      Q a -> if badc a then gives_up bad (k a) else faithful bad (k a)) ->
  faithful bad (bind c k).
Proof.
  intros Hc Hq Hk s b s' H.
  apply bind_done in H. destruct H as (a & s1 & H1 & H2).
  pose proof (Hc s a s1 H1) as Ha. specialize (Hk a (Hq s a s1 H1)).
  destruct (badc a).
  - destruct (Hk s1 b s' H2) as [Hb Hkeep]. rewrite Hb. auto.
  - pose proof (Hk s1 b s' H2) as Hb.
    destruct (bad b); [exact Hb | congruence].
Qed.

Lemma faithful_py_new os py_alloc name :
  faithful negb (py_new os py_alloc name).
Proof.
  intros s ok s' H. unfold py_new, bind, syscall in H.
  destruct (py_alloc (clock s)); injection H as <- <-; cbn [negb].
  - reflexivity.
  - discriminate.
Qed.

Section ProductionStrings.

Variable cfg : Config.
Variable os : OS.
Variable fuel : nat.
Hypothesis Hbuild : PSUTIL_TESTING cfg = false.

Lemma faithful_get_cwd pid :
  faithful no_value (psutil_get_cwd cfg os fuel pid).
Proof.
  unfold psutil_get_cwd.
  eapply faithful_bind_with;
    [apply (faithful_get_process_data cfg os fuel Hbuild)
    | apply get_process_data_shape |].
  intros [code out] [[Hc Ho]|[Hc Ho]]; cbn [fst snd] in Hc, Ho; subst code;
    unfold nonzero_code; cbn [fst Z.eqb negb].
  - destruct out as [[data size]|]; [|congruence].
    destruct (wcslen data); [|apply faithful_abort].
    apply (faithful_bind negb); [apply faithful_py_new|].
    intros ok. destruct ok; cbn [negb];
      [apply faithful_ret | apply gives_up_ret]; reflexivity.
  - gives_up_auto.
Qed.

Lemma faithful_get_environ pid :
  faithful no_value (psutil_get_environ cfg os fuel pid).
Proof.
  unfold psutil_get_environ.
  eapply faithful_bind_with;
    [apply (faithful_get_process_data cfg os fuel Hbuild)
    | apply get_process_data_shape |].
  intros [code out] [[Hc Ho]|[Hc Ho]]; cbn [fst snd] in Hc, Ho; subst code;
    unfold nonzero_code; cbn [fst Z.eqb negb].
  - destruct out as [[data size]|]; [|congruence].
    apply (faithful_bind negb); [apply faithful_py_new|].
    intros ok. destruct ok; cbn [negb];
      [apply faithful_ret | apply gives_up_ret]; reflexivity.
  - gives_up_auto.
Qed.

End ProductionStrings.

(** X13: psutil_get_cwd and psutil_get_environ return NULL only with a Python
    exception pending and never clear a pending exception; in a build
    without PSUTIL_TESTING a string is returned with the exception state
    as it was. *)
Theorem cwd_and_environ_report cfg os fuel pid s r s' :
  psutil_get_cwd cfg os fuel pid s = Done r s'
  \/ psutil_get_environ cfg os fuel pid s = Done r s' ->
  (r = None -> pending s')
  /\ (pending s -> pending s')
  /\ (PSUTIL_TESTING cfg = false -> r <> None -> pyerr s' = pyerr s).
Proof.
  assert (Hgen : forall c : M (option (list byte)),
             loud no_value c ->
             (PSUTIL_TESTING cfg = false -> faithful no_value c) ->
             c s = Done r s' ->
             (r = None -> pending s')
             /\ (pending s -> pending s')
             /\ (PSUTIL_TESTING cfg = false -> r <> None ->
                 pyerr s' = pyerr s)).
  { intros c Hl Hf H. destruct (Hl s r s' H) as [Hbad Hkeep].
    split; [|split; [exact Hkeep|]].
    - intros ->. apply Hbad. reflexivity.
    - intros Hbuild Hr. pose proof (Hf Hbuild s r s' H) as Hfr.
      destruct r; [exact Hfr | congruence]. }
  intros [H|H]; (eapply Hgen; [| |exact H]).
  - apply loud_get_cwd.
  - intros Hbuild. apply faithful_get_cwd. exact Hbuild.
  - apply loud_get_environ.
  - intros Hbuild. apply faithful_get_environ. exact Hbuild.
Qed.

Lemma cwd_and_environ_report_witness :
  exists r s',
    psutil_get_environ (build32 false) (os_wow64 true) 5 4 initial_state
    = Done r s'
    /\ (r = None -> pending s')
    /\ (pending initial_state -> pending s')
    /\ (PSUTIL_TESTING (build32 false) = false -> r <> None ->
        pyerr s' = pyerr initial_state).
Proof.
  eexists _, _. split; [vm_compute; reflexivity|].
  apply (cwd_and_environ_report (build32 false) (os_wow64 true) 5 4
           initial_state).
  right. vm_compute. reflexivity.
Defined.

(** ** Membership in the process table *)

(** X1: With fewer than 2^30 - 1024 live processes, psutil_pid_in_pids
    answers by the whole process table as the system reported it at the
    last EnumProcesses call: 1 when the pid is in it and 0 when it is not,
    with the exception state as it was; or it answers -1 with a Python
    exception pending. *)
Theorem pid_in_pids_complete cfg os fuel pid s r s' :
  table_bounded os ->
  psutil_pid_in_pids cfg os fuel pid s = Done r s' ->
  (r = -1 /\ pending s')
  \/ (exists t procs,
         os_proc_table os t = Some procs
         /\ ((r = 1 /\ In pid procs) \/ (r = 0 /\ ~ In pid procs))
         /\ pyerr s' = pyerr s).
Proof.
  intros Hbound H.
  pose proof (faithful_pid_in_pids cfg os fuel pid s r s' H) as Hf.
  destruct (pid_in_pids_probe cfg os fuel pid s r s' H)
    as [[_ ->]|(procs & count & Hget & Hr)].
  - left. split; [reflexivity | exact Hf].
  - right. unfold psutil_get_pids in Hget.
    destruct (get_pids_loop_rounds cfg os Hbound fuel 0 s procs count s')
      as (k & r0 & new & _ & _ & _ & _ & _ & _ & Hcount & t & Htab);
      [lia | exact Hget |].
    exists t, procs. split; [exact Htab|].
    rewrite Hcount, Nat2Z.id, firstn_all in Hr.
    split; [exact Hr|].
    destruct Hr as [[-> _]|[-> _]]; exact Hf.
Qed.

Lemma pid_in_pids_complete_witness :
  exists r s',
    psutil_pid_in_pids (build32 false) os_crowded 5 4100 initial_state
    = Done r s'
    /\ ((r = -1 /\ pending s')
        \/ (exists t procs,
               os_proc_table os_crowded t = Some procs
               /\ ((r = 1 /\ In 4100 procs) \/ (r = 0 /\ ~ In 4100 procs))
               /\ pyerr s' = pyerr initial_state)).
Proof.
  eexists _, _. split; [vm_compute; reflexivity|].
  apply (pid_in_pids_complete (build32 false) os_crowded 5 4100
           initial_state _ _ table_bounded_crowded).
  vm_compute. reflexivity.
Defined.

(** ** Handles *)

Lemma opens_handle_events (h : Z) (tr : list Event) :
  opens h (handle_events tr) = opens h tr.
Proof.
  unfold opens, handle_events.
  induction tr as [|e rest IH]; [reflexivity|].
  destruct e; cbn [filter is_handle_event]; try exact IH.
  destruct (h0 =? h); cbn [List.length]; rewrite IH; reflexivity.
Qed.

Lemma closes_handle_events (h : Z) (tr : list Event) :
  closes h (handle_events tr) = closes h tr.
Proof.
  unfold closes, handle_events.
  induction tr as [|e rest IH]; [reflexivity|].
  destruct e; cbn [filter is_handle_event]; try exact IH.
  destruct (h0 =? h); cbn [List.length]; rewrite IH; reflexivity.
Qed.

(** X7: In a build without PSUTIL_TESTING, psutil_handle_from_pid leaves
    exactly the handle it returns open: the returned handle was opened
    once and not closed, and any other handle was closed as often as it was
    opened. *)
Theorem handle_from_pid_balance cfg os fuel pid access s r s' :
  PSUTIL_TESTING cfg = false ->
  psutil_handle_from_pid cfg os fuel pid access s = Done r s' ->
  exists new,
    trace s' = trace s ++ new
    /\ forall h,
         h <> NULL ->
         opens h new = (closes h new + if (h =? r)%Z then 1 else 0)%nat.
Proof.
  intros Hbuild H.
  destruct (handle_from_pid_owns cfg os fuel pid access s r s' Hbuild H)
    as (new & Htr & Hcases).
  exists new. split; [exact Htr|].
  intros h Hh.
  rewrite <- (opens_handle_events h new), <- (closes_handle_events h new).
  destruct Hcases as [[-> Hrel]|[Hr Hev]].
  - assert (E : (h =? NULL) = false) by (apply Z.eqb_neq; exact Hh).
    rewrite E.
    destruct Hrel as [->|[->|(h0 & Hh0 & ->)]].
    + reflexivity.
    + unfold opens, closes. cbn [filter].
      rewrite Z.eqb_sym, E. reflexivity.
    + unfold opens, closes. cbn [filter].
      destruct (h0 =? h); reflexivity.
  - rewrite Hev. unfold opens, closes. cbn [filter].
    rewrite (Z.eqb_sym r h). destruct (h =? r); reflexivity.
Qed.

Lemma handle_from_pid_balance_witness :
  exists r s' new,
    psutil_handle_from_pid (build32 false) (os_live (params 6 8) page_at) 5
      4 query_access initial_state = Done r s'
    /\ trace s' = trace initial_state ++ new
    /\ forall h,
         h <> NULL ->
         opens h new = (closes h new + if (h =? r)%Z then 1 else 0)%nat.
Proof.
  eexists _, _.
  assert (Hrun : psutil_handle_from_pid (build32 false)
                   (os_live (params 6 8) page_at) 5 4 query_access
                   initial_state = Done _ _) by (vm_compute; reflexivity).
  destruct (handle_from_pid_balance (build32 false) _ _ _ _ _ _ _ eq_refl
              Hrun)
    as (new & Hprop).
  exists new. split; [exact Hrun | exact Hprop].
Defined.

Lemma pid_is_running_releases_witness :
  exists r s' new,
    psutil_pid_is_running (build32 true) os_exited_listed 5 4 initial_state
    = Done r s'
    /\ trace s' = trace initial_state ++ new
    /\ released query_access 4 (handle_events new).
Proof.
  eexists _, _.
  assert (Hrun : psutil_pid_is_running (build32 true) os_exited_listed 5 4
                   initial_state = Done _ _) by (vm_compute; reflexivity).
  destruct (pid_is_running_releases _ _ _ _ _ _ _ Hrun) as (new & Hprop).
  exists new. split; [exact Hrun | exact Hprop].
Defined.

Lemma get_process_data_releases_witness :
  exists r s' new,
    psutil_get_process_data (build32 false) (os_wow64 false) 5 4 KIND_CWD
      initial_state = Done r s'
    /\ trace s' = trace initial_state ++ new
    /\ released query_access 4 (handle_events new).
Proof.
  eexists _, _.
  assert (Hrun : psutil_get_process_data (build32 false) (os_wow64 false) 5
                   4 KIND_CWD initial_state = Done _ _)
    by (vm_compute; reflexivity).
  destruct (get_process_data_releases (build32 false) _ _ _ _ _ _ _ eq_refl
              Hrun)
    as (new & Hprop).
  exists new. split; [exact Hrun | exact Hprop].
Defined.

Lemma get_cmdline_data_handles_witness :
  exists r s' new,
    psutil_get_cmdline_data (build32 false) os_no_memory 5 4 initial_state
    = Done r s'
    /\ trace s' = trace initial_state ++ new
    /\ (released PROCESS_QUERY_LIMITED_INFORMATION 4 (handle_events new)
        \/ exists t,
             os_indeterminate os_no_memory t <> NULL
             /\ handle_events new
                = [EvCloseHandle (os_indeterminate os_no_memory t)]).
Proof.
  eexists _, _.
  assert (Hrun : psutil_get_cmdline_data (build32 false) os_no_memory 5 4
                   initial_state = Done _ _) by (vm_compute; reflexivity).
  destruct (get_cmdline_data_handles (build32 false) _ _ _ _ _ _ eq_refl
              Hrun)
    as (new & Hprop).
  exists new. split; [exact Hrun | exact Hprop].
Defined.

Lemma even_length_is_terminated_witness :
  exists buffer size s' data,
    psutil_get_process_data (build32 false) (os_live (params 6 8) page_at)
      5 4 KIND_CMDLINE initial_state = Done (0, Some (buffer, size)) s'
    /\ buffer = data ++ [x00; x00]
    /\ Z.of_nat (List.length data) = size
    /\ 0 <= size < 2 ^ 16
    /\ (Z.even size = true ->
        exists n, wcslen buffer = Some n /\ 2 * Z.of_nat n <= size).
Proof.
  eexists _, _, _.
  assert (Hkind : KIND_CMDLINE <> KIND_ENVIRON) by discriminate.
  assert (Hrun : psutil_get_process_data (build32 false)
                   (os_live (params 6 8) page_at) 5 4 KIND_CMDLINE
                   initial_state = Done (0, Some (_, _)) _)
    by (vm_compute; reflexivity).
  destruct (even_length_is_terminated _ _ _ _ _ _ _ _ _ Hkind Hrun)
    as (data & Hprop).
  exists data. split; [exact Hrun | exact Hprop].
Defined.

(** ** Access denied *)

(** X3: In a build without PSUTIL_TESTING, psutil_pid_is_running takes
    ERROR_ACCESS_DENIED for a sign of life: when OpenProcess, or the
    exit-code query on the handle it returned, fails with that code the
    answer is 1, no exception is raised and the process table is not read;
    the handle, if any, is closed.  Any other code of the exit-code query,
    and any code of OpenProcess other than these two and
    ERROR_INVALID_PARAMETER, gives -1 with WindowsError carrying the
    code. *)
Theorem access_denied_means_running cfg os fuel pid st :
  0 < pid ->
  PSUTIL_TESTING cfg = false ->
  let run := psutil_pid_is_running cfg os fuel pid st in
  let h := os_OpenProcess os (clock st) query_access pid in
  (h = NULL ->
   let err := os_last_error os (clock st) in
   let st1 := after_failed_open os st query_access pid in
   (err = ERROR_ACCESS_DENIED -> run = Done 1 st1)
   /\ (err <> ERROR_ACCESS_DENIED -> err <> ERROR_INVALID_PARAMETER ->
       run = Done (-1) (with_pyerr st1 (WindowsError err))))
  /\ (h <> NULL ->
      os_GetExitCodeProcess os (S (clock st)) h = None ->
      let err := os_last_error os (S (clock st)) in
      let st3 := after_failed_exit_code st pid h err in
      (err = ERROR_ACCESS_DENIED -> run = Done 1 st3)
      /\ (err <> ERROR_ACCESS_DENIED ->
          run = Done (-1) (with_pyerr st3 (WindowsError err)))).
Proof.
  intros Hpid Hbuild run h.
  assert (E0 : (pid =? 0) = false) by (apply Z.eqb_neq; lia).
  assert (E1 : (pid <? 0) = false) by (apply Z.ltb_ge; lia).
  assert (Hsame : forall e : Z, (if e =? 0 then e else e) = e)
    by (intros e; destruct (e =? 0); reflexivity).
  split.
  - intros Hnull err st1.
    assert (Hrun : run =
      (if err =? ERROR_INVALID_PARAMETER
       then bind (psutil_assert_pid_not_exists cfg os fuel pid
                    "pir: OpenProcess() -> INVALID_PARAMETER")
                 (fun a => if a =? 0 then ret (-1) else ret 0)
       else if err =? ERROR_ACCESS_DENIED
            then bind (psutil_assert_pid_exists cfg os fuel pid
                         "pir: OpenProcess() ACCESS_DENIED")
                      (fun a => if a =? 0 then ret (-1) else ret 1)
            else bind (PyErr_SetFromWindowsErr err)
                      (fun _ => ret (-1))) st1).
    { subst run st1 err. unfold psutil_pid_is_running. rewrite E0, E1.
      run_calls. fold query_access. fold h. rewrite Hnull. cbn [Z.eqb NULL].
      unfold after_failed_open. reflexivity. }
    rewrite Hrun. split.
    + intros Herr. rewrite Herr. cbn [Z.eqb ERROR_ACCESS_DENIED].
      unfold psutil_assert_pid_exists. rewrite Hbuild. reflexivity.
    + intros Hd Hi. apply Z.eqb_neq in Hd. apply Z.eqb_neq in Hi.
      rewrite Hi, Hd. run_calls. unfold after_failed_open in *.
      subst st1. cbn [last_error after_call]. fold err.
      rewrite Hsame. reflexivity.
  - intros Hh Hexit err st3.
    assert (Hrun : run =
      (if err =? ERROR_ACCESS_DENIED
       then bind (psutil_assert_pid_exists cfg os fuel pid
                    "pir: GetExitCodeProcess() -> ERROR_ACCESS_DENIED")
                 (fun a => if a =? 0 then ret (-1) else ret 1)
       else bind (PyErr_SetFromWindowsErr err) (fun _ => ret (-1))) st3).
    { subst run st3 err. unfold psutil_pid_is_running. rewrite E0, E1.
      run_calls. fold query_access. fold h.
      apply Z.eqb_neq in Hh. rewrite (Z.eqb_sym NULL h), Hh.
      cbn [clock after_call]. rewrite Hexit.
      cbn [is_none clock last_error after_call].
      unfold after_failed_exit_code. reflexivity. }
    rewrite Hrun. split.
    + intros Herr. rewrite Herr. cbn [Z.eqb ERROR_ACCESS_DENIED].
      unfold psutil_assert_pid_exists. rewrite Hbuild. reflexivity.
    + intros Hd. apply Z.eqb_neq in Hd. rewrite Hd. run_calls.
      subst st3. unfold after_failed_exit_code.
      cbn [last_error after_call]. rewrite Hsame. reflexivity.
Qed.

Lemma access_denied_means_running_witness :
  psutil_pid_is_running (build32 false) os_open_denied 5 4 initial_state
  = Done 1 (after_failed_open os_open_denied initial_state query_access 4)
  /\ psutil_pid_is_running (build32 false)
       (os_exit_code_refused ERROR_ACCESS_DENIED) 5 4 initial_state
     = Done 1 (after_failed_exit_code initial_state 4 100
                 ERROR_ACCESS_DENIED)
  /\ psutil_pid_is_running (build32 false) (os_exit_code_refused 6) 5 4
       initial_state
     = Done (-1) (with_pyerr (after_failed_exit_code initial_state 4 100 6)
                    (WindowsError 6)).
Proof.
  split; [|split].
  - refine (proj1 (proj1 (access_denied_means_running (build32 false)
                            os_open_denied 5 4 initial_state _ _) _) _).
    + lia.
    + reflexivity.
    + reflexivity.
    + reflexivity.
  - refine (proj1 (proj2 (access_denied_means_running (build32 false)
                            (os_exit_code_refused ERROR_ACCESS_DENIED) 5 4
                            initial_state _ _) _ _) _).
    + lia.
    + reflexivity.
    + discriminate.
    + reflexivity.
    + reflexivity.
  - refine (proj2 (proj2 (access_denied_means_running (build32 false)
                            (os_exit_code_refused 6) 5 4
                            initial_state _ _) _ _) _).
    + lia.
    + reflexivity.
    + discriminate.
    + reflexivity.
    + discriminate.
Defined.

(** ** The loader *)

(** X21: psutil_GetProcAddressFromLib always returns, and frees the library
    on every path that loaded it.  It returns NULL exactly when it raises
    WindowsError: with the name of the library when LoadLibraryA failed,
    with the name of the procedure when GetProcAddress failed, and in both
    cases with the error code of the failing call; a successful lookup
    leaves the exception state as it was. *)
Theorem GetProcAddressFromLib_unloads os lib name s :
  exists r s' new,
    psutil_GetProcAddressFromLib os lib name s = Done r s'
    /\ trace s' = trace s ++ new
    /\ ((r = NULL
         /\ new = [EvCall "LoadLibraryA"]
         /\ pyerr s'
            = Some (WindowsErrorWithFilename (os_last_error os (clock s)) lib))
        \/ (r = NULL
            /\ new = [EvCall "LoadLibraryA"; EvCall "GetProcAddress";
                      EvCall "FreeLibrary"]
            /\ pyerr s'
               = Some (WindowsErrorWithFilename
                         (os_last_error os (S (clock s))) name))
        \/ (r <> NULL
            /\ new = [EvCall "LoadLibraryA"; EvCall "GetProcAddress";
                      EvCall "FreeLibrary"]
            /\ pyerr s' = pyerr s)).
Proof.
  unfold psutil_GetProcAddressFromLib, LoadLibraryA, GetProcAddress,
    FreeLibrary, PyErr_SetFromWindowsErrWithFilename.
  cbv beta delta [bind ret syscall set_pyerr] iota zeta.
  cbn [clock last_error pyerr trace after_call with_pyerr].
  set (m := os_LoadLibraryA os (clock s) lib).
  rewrite (Z.eqb_sym NULL m). destruct (m =? NULL) eqn:El; cbv beta.
  - eexists _, _, _. split; [reflexivity|].
    cbn [trace with_pyerr after_call Z.eqb pyerr last_error].
    split; [reflexivity|]. left. repeat split.
  - cbn [clock after_call].
    set (a := os_GetProcAddress os (S (clock s)) m name).
    rewrite (Z.eqb_sym NULL a). destruct (a =? NULL) eqn:Eg; cbv beta.
    + eexists _, _, _. split; [reflexivity|].
      cbn [trace with_pyerr after_call Z.eqb pyerr last_error].
      rewrite <- !app_assoc. split; [reflexivity|].
      right. left. repeat split.
    + eexists _, _, _. split; [reflexivity|].
      cbn [trace with_pyerr after_call Z.eqb pyerr last_error].
      rewrite <- !app_assoc. split; [reflexivity|].
      right. right. apply Z.eqb_neq in Eg. repeat split. exact Eg.
Qed.

(** X20: psutil_GetProcAddress always returns.  It returns NULL exactly when it
    raises WindowsError: with the name of the library when GetModuleHandleA
    failed, without looking the procedure up, and with the name of the
    procedure when GetProcAddress failed; a successful lookup leaves the
    exception state as it was. *)
Theorem GetProcAddress_reports os lib name s :
  exists r s' new,
    psutil_GetProcAddress os lib name s = Done r s'
    /\ trace s' = trace s ++ new
    /\ ((r = NULL
         /\ new = [EvCall "GetModuleHandleA"]
         /\ pyerr s'
            = Some (WindowsErrorWithFilename (os_last_error os (clock s)) lib))
        \/ (r = NULL
            /\ new = [EvCall "GetModuleHandleA"; EvCall "GetProcAddress"]
            /\ pyerr s'
               = Some (WindowsErrorWithFilename
                         (os_last_error os (S (clock s))) name))
        \/ (r <> NULL
            /\ new = [EvCall "GetModuleHandleA"; EvCall "GetProcAddress"]
            /\ pyerr s' = pyerr s)).
Proof.
  unfold psutil_GetProcAddress, GetModuleHandleA, GetProcAddress,
    PyErr_SetFromWindowsErrWithFilename.
  cbv beta delta [bind ret syscall set_pyerr] iota zeta.
  cbn [clock last_error pyerr trace after_call with_pyerr].
  set (m := os_GetModuleHandleA os (clock s) lib).
  rewrite (Z.eqb_sym NULL m). destruct (m =? NULL) eqn:El; cbv beta.
  - eexists _, _, _. split; [reflexivity|].
    cbn [trace with_pyerr after_call Z.eqb pyerr last_error].
    split; [reflexivity|]. left. repeat split.
  - cbn [clock after_call].
    set (a := os_GetProcAddress os (S (clock s)) m name).
    rewrite (Z.eqb_sym NULL a). destruct (a =? NULL) eqn:Eg; cbv beta.
    + eexists _, _, _. split; [reflexivity|].
      cbn [trace with_pyerr after_call Z.eqb pyerr last_error].
      rewrite <- !app_assoc. split; [reflexivity|].
      right. left. repeat split.
    + eexists _, _, _. split; [reflexivity|].
      cbn [trace with_pyerr after_call Z.eqb pyerr last_error].
      rewrite <- !app_assoc. split; [reflexivity|].
      right. right. apply Z.eqb_neq in Eg. repeat split. exact Eg.
Qed.

(** ** The verdicts on a handle *)

Lemma assert_pid_exists_fails cfg os fuel pid err s a s' :
  psutil_assert_pid_exists cfg os fuel pid err s = Done a s' ->
  (a = 0 /\ PSUTIL_TESTING cfg = true /\ pyerr s' = Some (AssertionError err))
  \/ a = 1.
Proof.
  unfold psutil_assert_pid_exists. destruct (PSUTIL_TESTING cfg).
  - intros H. apply bind_done in H. destruct H as (r & s1 & _ & H).
    destruct (r =? 0).
    + injection H as <- <-. left. repeat split.
    + injection H as <- _. right. reflexivity.
  - intros H. injection H as <- _. right. reflexivity.
Qed.

Lemma assert_pid_not_exists_fails cfg os fuel pid err s a s' :
  psutil_assert_pid_not_exists cfg os fuel pid err s = Done a s' ->
  (a = 0 /\ PSUTIL_TESTING cfg = true /\ pyerr s' = Some (AssertionError err))
  \/ a = 1.
Proof.
  unfold psutil_assert_pid_not_exists. destruct (PSUTIL_TESTING cfg).
  - intros H. apply bind_done in H. destruct H as (r & s1 & _ & H).
    destruct (r =? 1).
    + injection H as <- <-. left. repeat split.
    + injection H as <- _. right. reflexivity.
  - intros H. injection H as <- _. right. reflexivity.
Qed.

(** X5: psutil_is_phandle_running returns 1, 0, -1 or -2.  It returns 1 only
    for a handle that is not NULL, and -2 only in a build with
    PSUTIL_TESTING, with AssertionError pending. *)
Theorem is_phandle_running_codes cfg os fuel h pid s r s' :
  psutil_is_phandle_running cfg os fuel h pid s = Done r s' ->
  (r = 1 \/ r = 0 \/ r = -1 \/ r = -2)
  /\ (r = 1 -> h <> NULL)
  /\ (r = -2 ->
      PSUTIL_TESTING cfg = true
      /\ exists msg, pyerr s' = Some (AssertionError msg)).
Proof.
  intros H. split; [|split].
  - revert s r s' H.
    change (returns (fun r => r = 1 \/ r = 0 \/ r = -1 \/ r = -2)
              (psutil_is_phandle_running cfg os fuel h pid)).
    unfold psutil_is_phandle_running. returns_auto; auto.
  - apply (is_phandle_running_handle cfg os fuel h pid s r s' H).
  - intros ->. unfold psutil_is_phandle_running in H.
    assert (Hgen : forall (c : M Z) err (x : Z) s0,
               x <> -2 ->
               (forall s1 a s2, c s1 = Done a s2 ->
                  (a = 0 /\ PSUTIL_TESTING cfg = true
                   /\ pyerr s2 = Some (AssertionError err)) \/ a = 1) ->
               bind c (fun a => if a =? 0 then ret (-2) else ret x) s0
               = Done (-2) s' ->
               PSUTIL_TESTING cfg = true
               /\ exists msg, pyerr s' = Some (AssertionError msg)).
    { intros c err x s0 Hx Hc Hrun. apply bind_done in Hrun.
      destruct Hrun as (a & s1 & H1 & H2).
      destruct (Hc _ _ _ H1) as [(-> & Ht & He)| ->].
      - injection H2 as <-. split; [exact Ht|]. exists err. exact He.
      - injection H2 as H2 _. congruence. }
    destruct (h =? NULL).
    + apply bind_done in H. destruct H as (e & s1 & _ & H).
      destruct (e =? ERROR_INVALID_PARAMETER); [|discriminate].
      eapply (Hgen _ _ 0); [discriminate | | exact H].
      intros s2 a s3. apply assert_pid_not_exists_fails.
    + apply bind_done in H. destruct H as ([code|] & s1 & _ & H).
      * destruct (DWORD code =? STILL_ACTIVE).
        -- eapply (Hgen _ _ 1); [discriminate | | exact H].
           intros s2 a s3. apply assert_pid_exists_fails.
        -- apply bind_done in H. destruct H as (p & s2 & _ & H).
           destruct (p =? 1); [discriminate|].
           apply bind_done in H. destruct H as (u & s3 & _ & H).
           discriminate.
      * apply bind_done in H. destruct H as (u & s2 & _ & H).
        eapply (Hgen _ _ (-1)); [discriminate | | exact H].
        intros s3 a s4. apply assert_pid_not_exists_fails.
Qed.

Lemma is_phandle_running_codes_witness :
  exists r s',
    psutil_is_phandle_running (build32 true) os_active_unlisted 5 100 4
      initial_state = Done r s'
    /\ (r = 1 \/ r = 0 \/ r = -1 \/ r = -2)
    /\ (r = 1 -> 100 <> NULL)
    /\ (r = -2 ->
        PSUTIL_TESTING (build32 true) = true
        /\ exists msg, pyerr s' = Some (AssertionError msg)).
Proof.
  eexists _, _. split; [vm_compute; reflexivity|].
  apply (is_phandle_running_codes (build32 true) os_active_unlisted 5 100 4
           initial_state).
  vm_compute. reflexivity.
Defined.
